(** * Transaction ledger: records, collections, audit log and CSV storage

    A shallow embedding of [transaction_app.py].  Python values are a small
    tagged universe, exceptions are an error type, and every method that
    mutates its receiver is a function in a state-and-error monad whose
    state is the receiver (and, where the method reads the clock or the
    disk, the surrounding world).

    What the model takes from the interpreter:
    - a [str] is kept as its UTF-8 bytes; equality, concatenation, the
      substring test and the order by code points are the same on both;
    - a [float] is an IEEE 754 binary64 value, an [int] is unbounded, and a
      [bool] is an [int]; a [datetime] is naive;
    - the file system gives the text of a file by its name, and opening a
      name it does not have raises [FileNotFoundError]; no other error of
      the operating system is modelled;
    - the [csv] module is modelled with its default dialect, text files
      with their newline translation.  The limits that CPython puts on the
      digits of an integer converted to or from text and on the length of
      a csv field are taken as not reached;
    - an error that the interpreter raises carries its class; its message
      is shortened. *)

From Stdlib Require Import ZArith QArith String Ascii List Bool Lia.
From Stdlib Require Import Sorting.Permutation Sorting.Sorted.
From Stdlib Require Import Floats.SpecFloat.
From stdpp Require Import base option list strings gmap pretty.

Local Open Scope string_scope.
Local Open Scope Z_scope.

(** ** Python values *)

(** [datetime.datetime], naive (no [tzinfo]). *)
Record datetime := mkDatetime {
  year : N; month : N; day : N;
  hour : N; minute : N; second : N; microsecond : N
}.

(** [int] together with its subclass [bool]: [isinstance(True, int)] holds. *)
Inductive pyint :=
| PBool (b : bool)
| PInt (z : Z).

Definition int_value (i : pyint) : Z :=
  match i with
  | PBool true => 1
  | PBool false => 0
  | PInt z => z
  end.

(** What [isinstance(v, (int, float))] accepts; floats are IEEE 754
    binary64 values. *)
Inductive pynum :=
| NInt (i : pyint)
| NFloat (f : spec_float).

(** A fully constructed [Transaction] instance, seen through its four
    attributes.  [t_id] is the attribute [id]. *)
Record Transaction := mkTransaction {
  t_id : pyint;
  date_time : datetime;
  amount : pynum;
  description : string
}.

Inductive pyval :=
| VNone
| VInt (i : pyint)
| VFloat (f : spec_float)
| VStr (s : string)
| VDatetime (d : datetime)
| VTransaction (t : Transaction)
| VObject (cls : string).   (* an instance of any other class *)

Definition of_num (n : pynum) : pyval :=
  match n with
  | NInt i => VInt i
  | NFloat f => VFloat f
  end.

Definition isinstance_int (v : pyval) : bool :=
  match v with VInt _ => true | _ => false end.
Definition isinstance_float (v : pyval) : bool :=
  match v with VFloat _ => true | _ => false end.
Definition isinstance_str (v : pyval) : bool :=
  match v with VStr _ => true | _ => false end.
Definition isinstance_datetime (v : pyval) : bool :=
  match v with VDatetime _ => true | _ => false end.
Definition isinstance_Transaction (v : pyval) : bool :=
  match v with VTransaction _ => true | _ => false end.

(** [value < 0], evaluated only on an [int]. *)
Definition int_lt_0 (v : pyval) : bool :=
  match v with VInt i => int_value i <? 0 | _ => false end.

(** ** Exceptions and the state-and-error monad *)

Inductive exn :=
| ValueError (msg : string)
| TypeError (msg : string)
| KeyError (key : string)
| AttributeError (msg : string)
| OverflowError (msg : string)
| FileNotFoundError (msg : string)
| CsvError (msg : string).

Inductive exn_class :=
| CValueError | CTypeError | CKeyError | CAttributeError | COverflowError
| CFileNotFoundError | CCsvError.

Definition class_of (e : exn) : exn_class :=
  match e with
  | ValueError _ => CValueError
  | TypeError _ => CTypeError
  | KeyError _ => CKeyError
  | AttributeError _ => CAttributeError
  | OverflowError _ => COverflowError
  | FileNotFoundError _ => CFileNotFoundError
  | CsvError _ => CCsvError
  end.

Inductive result (A : Type) :=
| Ok (a : A)
| Raise (e : exn).
Arguments Ok {A} a.
Arguments Raise {A} e.

(** A method body: it runs on a state, returns or raises, and leaves a
    state behind in both cases. *)
Definition M (S A : Type) : Type := S -> result A * S.

Definition ret {S A} (a : A) : M S A := fun s => (Ok a, s).
Definition raise {S A} (e : exn) : M S A := fun s => (Raise e, s).
Definition bind {S A B} (m : M S A) (k : A -> M S B) : M S B :=
  fun s => match m s with
           | (Ok a, s') => k a s'
           | (Raise e, s') => (Raise e, s')
           end.
Definition lift {S A} (r : result A) : M S A := fun s => (r, s).
Definition get {S} : M S S := fun s => (Ok s, s).
Definition modify {S} (f : S -> S) : M S unit := fun s => (Ok tt, f s).

Notation "x <- m ;; k" := (bind m (fun x => k))
  (at level 100, m at next level, right associativity).
Notation "m ;;; k" := (bind m (fun _ => k))
  (at level 100, right associativity).

(** ** class Transaction *)

(** The messages the program raises [ValueError] with. *)
Module Msg.
Definition id := "ID должен быть положительным целым числом".
Definition date_time := "Дата должна быть объектом datetime".
Definition amount := "Сумма должна быть числом".
Definition description := "Описание должно быть строкой".
Definition not_transaction := "Можно добавлять только объекты Transaction".
Definition not_found (filename : string) := "Файл " +:+ filename +:+ " не найден!".
End Msg.

(** [Transaction.__setattr__]: the receiver is the instance dictionary,
    where the base method stores a name that is not a descriptor of the
    class. *)
Definition Transaction__setattr__ (name : string) (value : pyval)
  : M (gmap string pyval) unit :=
  if String.eqb name "id" && (negb (isinstance_int value) || int_lt_0 value) then
    raise (ValueError Msg.id)
  else if String.eqb name "date_time" && negb (isinstance_datetime value) then
    raise (ValueError Msg.date_time)
  else if String.eqb name "amount"
          && negb (isinstance_int value || isinstance_float value) then
    raise (ValueError Msg.amount)
  else if String.eqb name "description" && negb (isinstance_str value) then
    raise (ValueError Msg.description)
  else
    modify (insert name value).

(** [Transaction.__init__]. *)
Definition Transaction__init__ (id date_time amount description : pyval)
  : M (gmap string pyval) unit :=
  Transaction__setattr__ "id" id ;;;
  Transaction__setattr__ "date_time" date_time ;;;
  Transaction__setattr__ "amount" amount ;;;
  Transaction__setattr__ "description" description.

(** The typed view of an instance dictionary that holds all four
    attributes. *)
Definition as_Transaction (self : gmap string pyval) : option Transaction :=
  match self !! "id", self !! "date_time", self !! "amount", self !! "description" with
  | Some (VInt i), Some (VDatetime d), Some (VInt a), Some (VStr s) =>
      Some (mkTransaction i d (NInt a) s)
  | Some (VInt i), Some (VDatetime d), Some (VFloat a), Some (VStr s) =>
      Some (mkTransaction i d (NFloat a) s)
  | _, _, _, _ => None
  end.

(** The call [Transaction(id, date_time, amount, description)]: a fresh
    instance with an empty dictionary is initialised; the caller receives
    it only if [__init__] returns.  Then it has its four typed attributes
    (lemma [init_returns_typed]), so the branch for a dictionary without
    them is never taken. *)
Definition Transaction_call (id date_time amount description : pyval)
  : result Transaction :=
  match Transaction__init__ id date_time amount description ∅ with
  | (Ok _, self) =>
      match as_Transaction self with
      | Some t => Ok t
      | None => Raise (TypeError "unreachable")
      end
  | (Raise e, _) => Raise e
  end.

(** ** class TransactionCollection: the static validator *)

Definition validate_transaction_data (id date_time amount description : pyval) : bool :=
  if negb (isinstance_int id) || int_lt_0 id then false
  else if negb (isinstance_datetime date_time) then false
  else if negb (isinstance_int amount || isinstance_float amount) then false
  else if negb (isinstance_str description) then false
  else true.

(** ** Numbers: the order Python puts on [int], [bool] and [float] *)

(** Python compares an [int] with a [float] by their exact mathematical
    values; the values live in the rationals extended with the two
    infinities and NaN. *)
Inductive xreal :=
| XNan
| XNegInf
| XFin (q : Q)
| XPosInf.

Definition float_val (f : spec_float) : xreal :=
  match f with
  | S754_zero _ => XFin 0%Q
  | S754_infinity true => XNegInf
  | S754_infinity false => XPosInf
  | S754_nan => XNan
  | S754_finite s m e =>
      XFin (inject_Z (if s then Z.neg m else Z.pos m) * Qpower (2 # 1) e)%Q
  end.

Definition num_val (n : pynum) : xreal :=
  match n with
  | NInt i => XFin (inject_Z (int_value i))
  | NFloat f => float_val f
  end.

Definition x_lt (a b : xreal) : bool :=
  match a, b with
  | XNan, _ | _, XNan => false
  | _, XNegInf => false
  | XNegInf, _ => true
  | XPosInf, _ => false
  | XFin _, XPosInf => true
  | XFin p, XFin q => negb (Qle_bool q p)
  end.

Definition x_le (a b : xreal) : bool :=
  match a, b with
  | XNan, _ | _, XNan => false
  | XNegInf, _ => true
  | _, XNegInf => false
  | _, XPosInf => true
  | XPosInf, _ => false
  | XFin p, XFin q => Qle_bool p q
  end.

Definition x_eq (a b : xreal) : bool :=
  match a, b with
  | XNegInf, XNegInf | XPosInf, XPosInf => true
  | XFin p, XFin q => Qeq_bool p q
  | _, _ => false
  end.

(** [a < b], [a <= b], [a >= b] and [a == b] on numbers. *)
Definition num_lt (a b : pynum) : bool := x_lt (num_val a) (num_val b).
Definition num_le (a b : pynum) : bool := x_le (num_val a) (num_val b).
Definition num_ge (a b : pynum) : bool := x_le (num_val b) (num_val a).
Definition num_eq (a b : pynum) : bool := x_eq (num_val a) (num_val b).

Definition is_nan (n : pynum) : bool :=
  match num_val n with XNan => true | _ => false end.

(** [a >= b] for a number [a] and any object [b]. *)
Definition py_ge (a : pynum) (b : pyval) : result bool :=
  match b with
  | VInt i => Ok (num_ge a (NInt i))
  | VFloat f => Ok (num_ge a (NFloat f))
  | _ => Raise (TypeError "'>=' not supported between instances")
  end.

(** ** [list.sort(key=...)] *)

(** [list.sort] is a stable comparison sort that only asks [<] of the
    keys.  It is modelled by the insertion sort below; on keys that [<]
    orders totally, every stable comparison sort returns the same list
    (lemma [stable_sort_unique]). *)
Section ListSort.
Context {A K : Type} (key : A -> K) (lt : K -> K -> bool).

Fixpoint sort_insert (x : A) (l : list A) : list A :=
  match l with
  | [] => [x]
  | y :: l' =>
      if lt (key y) (key x) then y :: sort_insert x l'
      else x :: y :: l'
  end.

Fixpoint list_sort (l : list A) : list A :=
  match l with
  | [] => []
  | x :: l' => sort_insert x (list_sort l')
  end.

End ListSort.

(** ** class TransactionManager *)

Record TransactionManager := mkTransactionManager {
  _transactions : list Transaction
}.

(** [TransactionManager.__init__] *)
Definition TransactionManager__init__ : TransactionManager :=
  mkTransactionManager [].

(** [TransactionManager.add_transaction] *)
Definition TransactionManager_add_transaction (transaction : pyval)
  : M TransactionManager unit :=
  match transaction with
  | VTransaction t =>
      modify (fun self => mkTransactionManager (_transactions self ++ [t]))
  | _ => raise (ValueError Msg.not_transaction)
  end.

(** [TransactionManager.sort_by_description] *)
Definition sort_by_description : M TransactionManager unit :=
  modify (fun self =>
    mkTransactionManager (list_sort description String.ltb (_transactions self))).

(** [TransactionManager.sort_by_amount] *)
Definition sort_by_amount : M TransactionManager unit :=
  modify (fun self =>
    mkTransactionManager (list_sort amount num_lt (_transactions self))).

(** What a generator hands out when it is iterated to its end: the items
    it yields, and the exception that stops it if one does. *)
Record generated (A : Type) := mkGenerated {
  yielded : list A;
  stopped_by : option exn
}.
Arguments mkGenerated {A} _ _.
Arguments yielded {A} _.
Arguments stopped_by {A} _.

Definition yield_first {A} (x : A) (g : generated A) : generated A :=
  mkGenerated (x :: yielded g) (stopped_by g).

(** The generator loop [for x in xs: if test(x): yield x]. *)
Fixpoint yield_if {A} (test : A -> result bool) (xs : list A) : generated A :=
  match xs with
  | [] => mkGenerated [] None
  | x :: rest =>
      match test x with
      | Raise e => mkGenerated [] (Some e)
      | Ok true => yield_first x (yield_if test rest)
      | Ok false => yield_if test rest
      end
  end.

(** [TransactionManager.filter_by_amount], iterated to its end. *)
Definition filter_by_amount (min_amount : pyval)
  : M TransactionManager (generated Transaction) :=
  self <- get ;;
  ret (yield_if (fun transaction => py_ge (amount transaction) min_amount)
                (_transactions self)).

(** ** Rendering: [str] and [format] *)

(** [str(i)] for an [int] or a [bool]. *)
Definition str_int (i : pyint) : string :=
  match i with
  | PBool true => "True"
  | PBool false => "False"
  | PInt z => pretty z
  end.

(** ["%0*d"]: [n] in decimal, padded with zeros on the left to [width]. *)
Definition zero_pad (width : nat) (n : N) : string :=
  let digits := pretty n in
  String.string_of_list_ascii
    (replicate (width - String.length digits)%nat "0"%char) +:+ digits.

(** [str(d)], which is [d.isoformat(sep=' ')]. *)
Definition str_datetime (d : datetime) : string :=
  zero_pad 4 (year d) +:+ "-" +:+ zero_pad 2 (month d) +:+ "-" +:+ zero_pad 2 (day d)
  +:+ " " +:+ zero_pad 2 (hour d) +:+ ":" +:+ zero_pad 2 (minute d)
  +:+ ":" +:+ zero_pad 2 (second d)
  +:+ (if (microsecond d =? 0)%N then "" else "." +:+ zero_pad 6 (microsecond d)).

(** [float(i)] for an [int]: the nearest binary64 value, ties to even. *)
Definition float_of_int (z : Z) : result spec_float :=
  match binary_normalize 53 1024 z 0 false with
  | S754_infinity _ => Raise (OverflowError "int too large to convert to float")
  | f => Ok f
  end.

(** The integer nearest to [a / b], ties to even ([b] positive). *)
Definition round_half_even (a : Z) (b : Z) : Z :=
  let q := a / b in
  let r := a mod b in
  match (2 * r ?= b) with
  | Lt => q
  | Gt => q + 1
  | Eq => if Z.even q then q else q + 1
  end.

(** [format(f, '.2f')] for a [float]. *)
Definition format_float_2f (f : spec_float) : string :=
  match f with
  | S754_nan => "nan"
  | S754_infinity s => if s then "-inf" else "inf"
  | S754_zero s => if s then "-0.00" else "0.00"
  | S754_finite s m e =>
      let hundredths :=
        if 0 <=? e then Z.pos m * 100 * 2 ^ e
        else round_half_even (Z.pos m * 100) (2 ^ (- e)) in
      (if s then "-" else "") +:+ pretty (hundredths / 100)
        +:+ "." +:+ zero_pad 2 (Z.to_N (hundredths mod 100))
  end.

(** [format(n, '.2f')]: an [int] is converted to [float] first. *)
Definition format_2f (n : pynum) : result string :=
  match n with
  | NInt i =>
      match float_of_int (int_value i) with
      | Ok f => Ok (format_float_2f f)
      | Raise e => Raise e
      end
  | NFloat f => Ok (format_float_2f f)
  end.

(** [Transaction.__str__] *)
Definition Transaction__str__ (self : Transaction) : result string :=
  match format_2f (amount self) with
  | Ok a =>
      Ok ("№" +:+ str_int (t_id self) +:+ " | " +:+ str_datetime (date_time self)
          +:+ " | " +:+ a +:+ " | " +:+ description self)
  | Raise e => Raise e
  end.

(** ** The interpreter's library and the world outside the program *)

(** Library functions whose full behaviour (Unicode digits and case
    mappings, shortest float digits, the platform's [strftime]) is outside
    this repository.  The program is modelled over any such library;
    [cpython_ascii] below implements it on ASCII text. *)
Class PyLib := {
  (** [int(s)] for a string *)
  int_of_str : string -> result Z;
  (** [float(s)] for a string *)
  float_of_str : string -> result spec_float;
  (** [datetime.strptime(s, '%Y-%m-%d %H:%M:%S')] *)
  strptime : string -> result datetime;
  (** [d.strftime('%Y-%m-%d %H:%M:%S')] *)
  strftime : datetime -> string;
  (** [repr(f)], which is also [str(f)], for a float *)
  repr_float : spec_float -> string;
  (** [s.lower()] *)
  str_lower : string -> string
}.

(** The file system maps the name of every existing file to its text;
    [clock n] is what the [n]-th call of [datetime.now()] returns. *)
Record world := mkWorld {
  files : gmap string string;
  clock : nat -> datetime;
  now_calls : nat
}.

(** A method that also acts on the world runs on the pair of the world
    and its receiver. *)
Record state (Self : Type) := mkState {
  env : world;
  obj : Self
}.
Arguments mkState {Self} _ _.
Arguments env {Self} _.
Arguments obj {Self} _.

Definition on_obj {Self A} (m : M Self A) : M (state Self) A :=
  fun st => let (r, self) := m (obj st) in (r, mkState (env st) self).

(** [datetime.now()] *)
Definition datetime_now {Self} : M (state Self) datetime :=
  fun st =>
    let w := env st in
    (Ok (clock w (now_calls w)),
     mkState (mkWorld (files w) (clock w) (S (now_calls w))) (obj st)).

(** The abstract base class [TransactionCollection]: what a collection
    must provide.  [add_transaction] is the method that a call
    [self.add_transaction(...)] resolves to in the class of [self]. *)
Class TransactionCollection (Self : Type) := {
  __init__ : Self;
  __iter__ : Self -> list Transaction;
  add_transaction : pyval -> M (state Self) unit
}.

#[export] Instance TransactionManager_collection
  : TransactionCollection TransactionManager := {
  __init__ := TransactionManager__init__;
  __iter__ := _transactions;
  add_transaction transaction := on_obj (TransactionManager_add_transaction transaction)
}.

(** ** Text files and the [csv] module (dialect [excel]) *)

Definition LF : ascii := "010"%char.
Definition CR : ascii := "013"%char.
Definition comma : ascii := ","%char.
Definition dquote : ascii := "034"%char.

(** Reading a file opened in text mode with the default [newline=None]:
    every ["\r\n"] and every lone ["\r"] arrives as ["\n"]. *)
Fixpoint universal_newlines (s : string) : string :=
  match s with
  | EmptyString => EmptyString
  | String c rest =>
      if Ascii.eqb c CR then
        String LF
          match rest with
          | String c' rest' =>
              if Ascii.eqb c' LF then universal_newlines rest'
              else universal_newlines rest
          | EmptyString => EmptyString
          end
      else String c (universal_newlines rest)
  end.

(** Iterating over a text file: its lines, each with its ["\n"]. *)
Fixpoint lines_of (s : string) : list string :=
  match s with
  | EmptyString => []
  | String c rest =>
      if Ascii.eqb c LF then String LF EmptyString :: lines_of rest
      else match lines_of rest with
           | [] => [String c EmptyString]
           | line :: more => String c line :: more
           end
  end.

(** The states of the reader's character automaton that the dialect can
    reach (it has no escape character). *)
Inductive parser_state :=
| START_RECORD
| START_FIELD
| IN_FIELD
| IN_QUOTED_FIELD
| QUOTE_IN_QUOTED_FIELD
| EAT_CRNL.

Record parser := mkParser {
  pstate : parser_state;
  fields : list string;   (* the fields of the record so far *)
  field : string          (* the field being read *)
}.

Definition parse_reset : parser := mkParser START_RECORD [] "".

Definition parse_add_char (c : ascii) (p : parser) : parser :=
  mkParser (pstate p) (fields p) (field p +:+ String c EmptyString).

Definition parse_save_field (p : parser) : parser :=
  mkParser (pstate p) (fields p ++ [field p]) "".

Definition set_state (s : parser_state) (p : parser) : parser :=
  mkParser s (fields p) (field p).

Definition is_newline (c : ascii) : bool := Ascii.eqb c LF || Ascii.eqb c CR.

(** [parse_process_char]; the end of a line is signalled by [None]. *)
Definition parse_process_char (c : option ascii) (p : parser) : result parser :=
  let after_newline := match c with None => START_RECORD | Some _ => EAT_CRNL end in
  let at_line_end := match c with None => true | Some ch => is_newline ch end in
  let start_field :=
    if at_line_end then Ok (set_state after_newline (parse_save_field p))
    else match c with
         | Some ch =>
             if Ascii.eqb ch dquote then Ok (set_state IN_QUOTED_FIELD p)
             else if Ascii.eqb ch comma then
               Ok (set_state START_FIELD (parse_save_field p))
             else Ok (set_state IN_FIELD (parse_add_char ch p))
         | None => Ok p
         end in
  match pstate p with
  | START_RECORD =>
      match c with
      | None => Ok p
      | Some ch =>
          if is_newline ch then Ok (set_state EAT_CRNL p) else start_field
      end
  | START_FIELD => start_field
  | IN_FIELD =>
      if at_line_end then Ok (set_state after_newline (parse_save_field p))
      else match c with
           | Some ch =>
               if Ascii.eqb ch comma then
                 Ok (set_state START_FIELD (parse_save_field p))
               else Ok (parse_add_char ch p)
           | None => Ok p
           end
  | IN_QUOTED_FIELD =>
      match c with
      | None => Ok p
      | Some ch =>
          if Ascii.eqb ch dquote then Ok (set_state QUOTE_IN_QUOTED_FIELD p)
          else Ok (parse_add_char ch p)
      end
  | QUOTE_IN_QUOTED_FIELD =>
      match c with
      | Some ch =>
          if Ascii.eqb ch dquote then
            Ok (set_state IN_QUOTED_FIELD (parse_add_char ch p))
          else if Ascii.eqb ch comma then
            Ok (set_state START_FIELD (parse_save_field p))
          else if is_newline ch then
            Ok (set_state EAT_CRNL (parse_save_field p))
          else Ok (set_state IN_FIELD (parse_add_char ch p))
      | None => Ok (set_state START_RECORD (parse_save_field p))
      end
  | EAT_CRNL =>
      match c with
      | None => Ok (set_state START_RECORD p)
      | Some ch =>
          if is_newline ch then Ok p
          else Raise (CsvError "new-line character seen in unquoted field")
      end
  end.

(** The characters of one line, then the end-of-line signal. *)
Fixpoint parse_line (line : string) (p : parser) : result parser :=
  match line with
  | EmptyString => parse_process_char None p
  | String c rest =>
      match parse_process_char (Some c) p with
      | Ok p' => parse_line rest p'
      | Raise e => Raise e
      end
  end.

(** Iterating over [csv.reader(lines)]: the records in order; an error
    ends the iteration.  A record ends with the line that brings the
    automaton back to [START_RECORD]; input that ends inside a quoted
    field gives a last record. *)
Fixpoint reader_rows (lines : list string) (p : parser) : list (result (list string)) :=
  match lines with
  | [] =>
      if negb (String.eqb (field p) "")
         || match pstate p with IN_QUOTED_FIELD => true | _ => false end
      then [Ok (fields (parse_save_field p))]
      else []
  | line :: rest =>
      match parse_line line p with
      | Raise e => [Raise e]
      | Ok p' =>
          match pstate p' with
          | START_RECORD => Ok (fields p') :: reader_rows rest parse_reset
          | _ => reader_rows rest p'
          end
      end
  end.

Definition csv_reader (lines : list string) : list (result (list string)) :=
  reader_rows lines parse_reset.

(** A row of [csv.DictReader]: a missing trailing field reads [None]. *)
Definition make_row (fieldnames row : list string) : gmap string (option string) :=
  let d := foldl (fun d kv => <[fst kv := Some (snd kv)]> d) ∅ (zip fieldnames row) in
  foldl (fun d key => <[key := None]> d) d (drop (length row) fieldnames).

Fixpoint dict_rows (fieldnames : list string) (rows : list (result (list string)))
  : list (result (gmap string (option string))) :=
  match rows with
  | [] => []
  | Raise e :: _ => [Raise e]
  | Ok [] :: rest => dict_rows fieldnames rest
  | Ok row :: rest => Ok (make_row fieldnames row) :: dict_rows fieldnames rest
  end.

(** Iterating over [csv.DictReader(file)]: the first record names the
    fields, blank records are skipped. *)
Definition DictReader (lines : list string) : list (result (gmap string (option string))) :=
  match csv_reader lines with
  | [] => []
  | Raise e :: _ => [Raise e]
  | Ok fieldnames :: rows => dict_rows fieldnames rows
  end.

(** The writer quotes a field that holds the delimiter, a quote or a
    line-terminator character, and doubles the quotes inside it. *)
Definition needs_quoting (c : ascii) : bool :=
  Ascii.eqb c comma || Ascii.eqb c dquote || Ascii.eqb c CR || Ascii.eqb c LF.

Fixpoint any_char (f : ascii -> bool) (s : string) : bool :=
  match s with
  | EmptyString => false
  | String c rest => f c || any_char f rest
  end.

Fixpoint double_quotes (s : string) : string :=
  match s with
  | EmptyString => EmptyString
  | String c rest =>
      if Ascii.eqb c dquote then String dquote (String dquote (double_quotes rest))
      else String c (double_quotes rest)
  end.

Definition write_field (s : string) : string :=
  if any_char needs_quoting s then
    String dquote (double_quotes s) +:+ String dquote EmptyString
  else s.

Fixpoint join_fields (cells : list string) : string :=
  match cells with
  | [] => ""
  | [c] => write_field c
  | c :: rest => write_field c +:+ String comma EmptyString +:+ join_fields rest
  end.

(** [writer.writerow(cells)]: the text it adds to the file. *)
Definition writerow (cells : list string) : string :=
  (match cells with
   | [EmptyString] => String dquote (String dquote EmptyString)
   | _ => join_fields cells
   end) +:+ String CR (String LF EmptyString).

(** ** Storage and the audit log *)

(** [needle in hay] for two strings. *)
Fixpoint str_contains (needle hay : string) : bool :=
  String.prefix needle hay
  || match hay with
     | EmptyString => false
     | String _ rest => str_contains needle rest
     end.

(** The column names of the storage format. *)
Definition fieldnames : list string :=
  ["№"; "дата и время"; "сумма"; "описание транзакции"].

(** [row[key]] *)
Definition row_get (row : gmap string (option string)) (key : string)
  : result (option string) :=
  match row !! key with
  | Some v => Ok v
  | None => Raise (KeyError key)
  end.

(** A cell as a Python object: a string, or [None] where the row is short. *)
Definition of_cell (cell : option string) : pyval :=
  match cell with
  | Some s => VStr s
  | None => VNone
  end.

Definition bind_result {A B} (r : result A) (k : A -> result B) : result B :=
  match r with
  | Ok a => k a
  | Raise e => Raise e
  end.

Notation "x <-- r ;; k" := (bind_result r (fun x => k))
  (at level 100, r at next level, right associativity).

(** [try: body except FileNotFoundError: raise FileNotFoundError(msg)] *)
Definition reraise_not_found {S A} (msg : string) (body : M S A) : M S A :=
  fun s =>
    match body s with
    | (Raise (FileNotFoundError _), s') => (Raise (FileNotFoundError msg), s')
    | other => other
    end.

(** [for x in xs: body(x)], where producing the next [x] can itself raise. *)
Fixpoint for_each {S A} (xs : list (result A)) (body : A -> M S unit) : M S unit :=
  match xs with
  | [] => ret tt
  | Raise e :: _ => raise e
  | Ok x :: rest => body x ;;; for_each rest body
  end.

(** [open(filename, mode='r', encoding='utf-8')], read as text. *)
Definition open_read {Self} (filename : string) : M (state Self) string :=
  fun st =>
    match files (env st) !! filename with
    | Some text => (Ok (universal_newlines text), st)
    | None => (Raise (FileNotFoundError filename), st)
    end.

(** Leaving [with open(filename, mode='w', encoding='utf-8', newline='')]
    after [text] was written: the file holds exactly [text]. *)
Definition write_file {Self} (filename text : string) : M (state Self) unit :=
  fun st =>
    let w := env st in
    (Ok tt, mkState (mkWorld (<[filename := text]> (files w)) (clock w) (now_calls w))
                    (obj st)).

Section Program.
Context {lib : PyLib}.

(** [int(x)], [float(x)] and [datetime.strptime(x, ...)] on a cell. *)
Definition py_int (cell : option string) : result Z :=
  match cell with
  | Some s => int_of_str s
  | None => Raise (TypeError "int() argument must be a string or a number")
  end.

Definition py_float (cell : option string) : result spec_float :=
  match cell with
  | Some s => float_of_str s
  | None => Raise (TypeError "float() argument must be a string or a number")
  end.

Definition py_strptime (cell : option string) : result datetime :=
  match cell with
  | Some s => strptime s
  | None => Raise (TypeError "strptime() argument 1 must be str, not None")
  end.

(** The body of the loop of [load_from_csv] up to the constructor call:
    the arguments are evaluated from left to right. *)
Definition row_transaction (row : gmap string (option string)) : result Transaction :=
  c1 <-- row_get row "№" ;;
  id <-- py_int c1 ;;
  c2 <-- row_get row "дата и время" ;;
  date_time <-- py_strptime c2 ;;
  c3 <-- row_get row "сумма" ;;
  amount <-- py_float c3 ;;
  c4 <-- row_get row "описание транзакции" ;;
  Transaction_call (VInt (PInt id)) (VDatetime date_time) (VFloat amount) (of_cell c4).

(** [TransactionManager.load_from_csv], inherited by every subclass; the
    call [self.add_transaction] is resolved in the class of [self]. *)
Definition load_from_csv {Self} `{TransactionCollection Self} (filename : string)
  : M (state Self) unit :=
  reraise_not_found (Msg.not_found filename)
    (text <- open_read filename ;;
     for_each (DictReader (lines_of text))
       (fun row =>
          transaction <- lift (row_transaction row) ;;
          add_transaction (VTransaction transaction))).

(** [TransactionManager.from_csv], a class method: [cls()] is a new
    instance, returned only if the load returns. *)
Definition from_csv {Self} `{TransactionCollection Self} (filename : string)
  : world -> result Self * world :=
  fun w =>
    match load_from_csv filename (mkState w __init__) with
    | (Ok _, st) => (Ok (obj st), env st)
    | (Raise e, st) => (Raise e, env st)
    end.

(** [str(x)] for a number, as the writer renders a cell that is not a string. *)
Definition str_num (n : pynum) : string :=
  match n with
  | NInt i => str_int i
  | NFloat f => repr_float f
  end.

(** The cells of the row that [save_to_csv] writes for [t]. *)
Definition row_cells (t : Transaction) : list string :=
  [str_int (t_id t); strftime (date_time t); str_num (amount t); description t].

(** [TransactionManager.save_to_csv] *)
Definition save_to_csv (filename : string) : M (state TransactionManager) unit :=
  st <- get ;;
  write_file filename
    (writerow fieldnames
     +:+ String.concat "" (map (fun t => writerow (row_cells t)) (_transactions (obj st)))).

(** ** class ExtendedTransactionManager *)

Record ExtendedTransactionManager := mkExtendedTransactionManager {
  super : TransactionManager;
  _history : list (datetime * string * string)
}.

(** [ExtendedTransactionManager.__init__] *)
Definition ExtendedTransactionManager__init__ : ExtendedTransactionManager :=
  mkExtendedTransactionManager TransactionManager__init__ [].

(** A method of the base class, run on an instance of the subclass. *)
Definition on_super {A} (m : M TransactionManager A) : M ExtendedTransactionManager A :=
  fun self => let (r, base) := m (super self) in
              (r, mkExtendedTransactionManager base (_history self)).

(** [str(x)].  The default rendering of an instance of another class also
    shows its address, which nothing here reads. *)
Definition py_str (v : pyval) : result string :=
  match v with
  | VNone => Ok "None"
  | VInt i => Ok (str_int i)
  | VFloat f => Ok (repr_float f)
  | VStr s => Ok s
  | VDatetime d => Ok (str_datetime d)
  | VTransaction t => Transaction__str__ t
  | VObject cls => Ok ("<" +:+ cls +:+ " object>")
  end.

(** [ExtendedTransactionManager.add_transaction] *)
Definition ExtendedTransactionManager_add_transaction (transaction : pyval)
  : M (state ExtendedTransactionManager) unit :=
  on_obj (on_super (TransactionManager_add_transaction transaction)) ;;;
  now <- datetime_now ;;
  rendered <- lift (py_str transaction) ;;
  on_obj (modify (fun self =>
    mkExtendedTransactionManager (super self)
      (_history self ++ [(now, "ADD", rendered)]))).

#[export] Instance ExtendedTransactionManager_collection
  : TransactionCollection ExtendedTransactionManager := {
  __init__ := ExtendedTransactionManager__init__;
  __iter__ self := _transactions (super self);
  add_transaction := ExtendedTransactionManager_add_transaction
}.

(** [keyword.lower()]: only a string has the method. *)
Definition py_lower (v : pyval) : result string :=
  match v with
  | VStr s => Ok (str_lower s)
  | _ => Raise (AttributeError "object has no attribute 'lower'")
  end.

(** [ExtendedTransactionManager.get_transactions_by_description],
    iterated to its end. *)
Definition get_transactions_by_description (keyword : pyval)
  : M ExtendedTransactionManager (generated Transaction) :=
  self <- get ;;
  ret (yield_if
         (fun transaction =>
            k <-- py_lower keyword ;;
            Ok (str_contains k (str_lower (description transaction))))
         (_transactions (super self))).

(** [ExtendedTransactionManager.get_history], iterated to its end. *)
Definition get_history : M ExtendedTransactionManager (generated (datetime * string * string)) :=
  self <- get ;;
  ret (mkGenerated (_history self) None).

End Program.

(** ** The library on ASCII text *)

Module CPython.

Definition is_digit (c : ascii) : bool :=
  (48 <=? nat_of_ascii c)%nat && (nat_of_ascii c <=? 57)%nat.

Definition digit_value (c : ascii) : Z := Z.of_nat (nat_of_ascii c) - 48.

(** The ASCII characters that [str.strip], [int], [float] and the regular
    expression [\s] treat as white space. *)
Definition is_space (c : ascii) : bool :=
  let n := nat_of_ascii c in
  ((9 <=? n)%nat && (n <=? 13)%nat) || ((28 <=? n)%nat && (n <=? 32)%nat).

Definition lower_char (c : ascii) : ascii :=
  let n := nat_of_ascii c in
  if (65 <=? n)%nat && (n <=? 90)%nat then ascii_of_nat (n + 32) else c.

Fixpoint lower (s : string) : string :=
  match s with
  | EmptyString => EmptyString
  | String c rest => String (lower_char c) (lower rest)
  end.

Fixpoint lstrip (s : list ascii) : list ascii :=
  match s with
  | c :: rest => if is_space c then lstrip rest else s
  | [] => []
  end.

Definition strip (s : list ascii) : list ascii :=
  rev (lstrip (rev (lstrip s))).

(** A run of decimal digits in which single underscores may separate
    digits: its value and its number of digits. *)
Fixpoint digits_from (acc : Z) (count : nat) (s : list ascii) : option (Z * nat) :=
  match s with
  | [] => Some (acc, count)
  | c :: rest =>
      if is_digit c then digits_from (acc * 10 + digit_value c) (S count) rest
      else if Ascii.eqb c "_" then
        match rest with
        | d :: _ => if is_digit d then digits_from acc count rest else None
        | [] => None
        end
      else None
  end.

Definition digits (s : list ascii) : option (Z * nat) :=
  match s with
  | c :: _ => if is_digit c then digits_from 0 0%nat s else None
  | [] => None
  end.

(** An optional sign: whether it is a minus, and what follows it. *)
Definition sign (s : list ascii) : bool * list ascii :=
  match s with
  | c :: rest =>
      if Ascii.eqb c "-" then (true, rest)
      else if Ascii.eqb c "+" then (false, rest)
      else (false, s)
  | [] => (false, [])
  end.

(** [int(s)] *)
Definition int_of_str (s : string) : result Z :=
  let (negative, body) := sign (strip (String.list_ascii_of_string s)) in
  match digits body with
  | Some (n, _) => Ok (if negative then - n else n)
  | None => Raise (ValueError "invalid literal for int() with base 10")
  end.

(** The binary64 value nearest to [mantissa * 10 ^ exponent], ties to even. *)
Definition float_of_decimal (negative : bool) (mantissa : Z) (exponent : Z) : spec_float :=
  match mantissa with
  | Z.pos m =>
      if 0 <=? exponent then
        binary_normalize 53 1024
          ((if negative then Z.neg m else Z.pos m) * 10 ^ exponent) 0 false
      else
        SFdiv 53 1024 (S754_finite negative m 0)
                      (S754_finite false (Z.to_pos (10 ^ (- exponent))) 0)
  | _ => S754_zero negative
  end.

(** Splits a list at the first character that satisfies [f]. *)
Fixpoint break_at (f : ascii -> bool) (s : list ascii) : list ascii * list ascii :=
  match s with
  | [] => ([], [])
  | c :: rest =>
      if f c then ([], s)
      else let (a, b) := break_at f rest in (c :: a, b)
  end.

Definition is_exponent_mark (c : ascii) : bool := Ascii.eqb c "e" || Ascii.eqb c "E".
Definition is_point (c : ascii) : bool := Ascii.eqb c ".".

(** The digits of an optional part of a literal: none when it is empty. *)
Definition digits_or_empty (s : list ascii) : option (Z * nat) :=
  match s with
  | [] => Some (0, 0%nat)
  | _ => digits s
  end.

(** A decimal literal [digits [. digits] [e [sign] digits]] with at least
    one digit before the exponent. *)
Definition decimal_literal (negative : bool) (s : list ascii) : option spec_float :=
  let (mant, expo) := break_at is_exponent_mark s in
  let (whole, frac) := break_at is_point mant in
  let frac_digits := match frac with _ :: f => f | [] => [] end in
  match digits_or_empty whole, digits_or_empty frac_digits with
  | Some (w, wn), Some (f, fn) =>
      if ((wn + fn)%nat =? 0)%nat then None
      else
        let exponent :=
          match expo with
          | [] => Some 0
          | _ :: e =>
              let (eneg, ebody) := sign e in
              match digits ebody with
              | Some (n, _) => Some (if eneg then - n else n)
              | None => None
              end
          end in
        match exponent with
        | Some e =>
            Some (float_of_decimal negative (w * 10 ^ Z.of_nat fn + f) (e - Z.of_nat fn))
        | None => None
        end
  | _, _ => None
  end.

(** [float(s)] *)
Definition float_of_str (s : string) : result spec_float :=
  let (negative, body) := sign (strip (String.list_ascii_of_string s)) in
  let word := lower (String.string_of_list_ascii body) in
  if String.eqb word "nan" then Ok S754_nan
  else if String.eqb word "inf" || String.eqb word "infinity" then
    Ok (S754_infinity negative)
  else
    match decimal_literal negative body with
    | Some f => Ok f
    | None => Raise (ValueError "could not convert string to float")
    end.

(** One numeric directive of [strptime]: a regular expression that tries
    its two-digit alternatives, then its one-digit alternative. *)
Definition directive (two : ascii -> ascii -> bool) (one : ascii -> bool)
    (s : list ascii) : option (N * list ascii) :=
  let value c := Z.to_N (digit_value c) in
  match s with
  | c1 :: c2 :: rest =>
      if two c1 c2 then Some (value c1 * 10 + value c2, rest)%N
      else if one c1 then Some (value c1, c2 :: rest)
      else None
  | [c1] => if one c1 then Some (value c1, []) else None
  | [] => None
  end.

Definition between (lo hi : ascii) (c : ascii) : bool :=
  (nat_of_ascii lo <=? nat_of_ascii c)%nat && (nat_of_ascii c <=? nat_of_ascii hi)%nat.

(** [%Y]: four digits. *)
Definition directive_Y (s : list ascii) : option (N * list ascii) :=
  match s with
  | a :: b :: c :: d :: rest =>
      if is_digit a && is_digit b && is_digit c && is_digit d then
        Some (Z.to_N (((digit_value a * 10 + digit_value b) * 10 + digit_value c) * 10
                      + digit_value d), rest)
      else None
  | _ => None
  end.

(** [%m]: the alternatives [1[0-2]], [0[1-9]], [[1-9]]. *)
Definition directive_m : list ascii -> option (N * list ascii) :=
  directive (fun a b => (Ascii.eqb a "1" && between "0" "2" b)
                        || (Ascii.eqb a "0" && between "1" "9" b))
            (between "1" "9").

(** [%d]: the alternatives [3[01]], [[12]\d], [0[1-9]], [[1-9]] and a
    space before [[1-9]]. *)
Definition directive_d (s : list ascii) : option (N * list ascii) :=
  match s with
  | c1 :: c2 :: rest =>
      if Ascii.eqb c1 " " && between "1" "9" c2 then
        Some (Z.to_N (digit_value c2), rest)
      else
        directive (fun a b => (Ascii.eqb a "3" && between "0" "1" b)
                              || (between "1" "2" a && is_digit b)
                              || (Ascii.eqb a "0" && between "1" "9" b))
                  (between "1" "9") s
  | _ => directive (fun _ _ => false) (between "1" "9") s
  end.

(** [%H]: the alternatives [2[0-3]], [[0-1]\d], [\d]. *)
Definition directive_H : list ascii -> option (N * list ascii) :=
  directive (fun a b => (Ascii.eqb a "2" && between "0" "3" b)
                        || (between "0" "1" a && is_digit b))
            is_digit.

(** [%M]: the alternatives [[0-5]\d], [\d]. *)
Definition directive_M : list ascii -> option (N * list ascii) :=
  directive (fun a b => between "0" "5" a && is_digit b) is_digit.

(** [%S]: the alternatives [6[0-1]], [[0-5]\d], [\d]. *)
Definition directive_S : list ascii -> option (N * list ascii) :=
  directive (fun a b => (Ascii.eqb a "6" && between "0" "1" b)
                        || (between "0" "5" a && is_digit b))
            is_digit.

Definition literal (c : ascii) (s : list ascii) : option (list ascii) :=
  match s with
  | c' :: rest => if Ascii.eqb c c' then Some rest else None
  | [] => None
  end.

(** White space in the format stands for one or more white-space
    characters of the text. *)
Definition spaces (s : list ascii) : option (list ascii) :=
  match s with
  | c :: rest => if is_space c then Some (lstrip rest) else None
  | [] => None
  end.

Definition is_leap (y : N) : bool :=
  ((y mod 4 =? 0) && (negb (y mod 100 =? 0) || (y mod 400 =? 0)))%N.

Definition days_in_month (y m : N) : N :=
  (if m =? 2 then (if is_leap y then 29 else 28)
   else if (m =? 4) || (m =? 6) || (m =? 9) || (m =? 11) then 30
   else 31)%N.

(** The checks of the [datetime] constructor that the directives leave. *)
Definition valid_datetime (d : datetime) : bool :=
  ((1 <=? year d) && (year d <=? 9999) && (1 <=? month d) && (month d <=? 12)
   && (1 <=? day d) && (day d <=? days_in_month (year d) (month d))
   && (hour d <=? 23) && (minute d <=? 59) && (second d <=? 59)
   && (microsecond d <=? 999999))%N.

Definition parse_datetime (s : list ascii) : option datetime :=
  '(yy, s) ← directive_Y s;
  s ← literal "-" s;
  '(mo, s) ← directive_m s;
  s ← literal "-" s;
  '(dd, s) ← directive_d s;
  s ← spaces s;
  '(hh, s) ← directive_H s;
  s ← literal ":" s;
  '(mi, s) ← directive_M s;
  s ← literal ":" s;
  '(ss, s) ← directive_S s;
  match s with
  | [] => let dt := mkDatetime yy mo dd hh mi ss 0 in
          if valid_datetime dt then Some dt else None
  | _ => None
  end.

(** [datetime.strptime(s, '%Y-%m-%d %H:%M:%S')] on ASCII text. *)
Definition strptime (s : string) : result datetime :=
  match parse_datetime (String.list_ascii_of_string s) with
  | Some d => Ok d
  | None => Raise (ValueError "time data does not match format '%Y-%m-%d %H:%M:%S'")
  end.

(** [d.strftime('%Y-%m-%d %H:%M:%S')]; a year below 1000 is padded here,
    which not every platform does. *)
Definition strftime (d : datetime) : string :=
  zero_pad 4 (year d) +:+ "-" +:+ zero_pad 2 (month d) +:+ "-" +:+ zero_pad 2 (day d)
  +:+ " " +:+ zero_pad 2 (hour d) +:+ ":" +:+ zero_pad 2 (minute d)
  +:+ ":" +:+ zero_pad 2 (second d).

(** *** [repr] of a float: the shortest digits that read back *)

Definition float_eqb (a b : spec_float) : bool :=
  match a, b with
  | S754_zero s, S754_zero s' => Bool.eqb s s'
  | S754_infinity s, S754_infinity s' => Bool.eqb s s'
  | S754_nan, S754_nan => true
  | S754_finite s m e, S754_finite s' m' e' =>
      Bool.eqb s s' && Pos.eqb m m' && Z.eqb e e'
  | _, _ => false
  end.

(** [num / den < 10 ^ k] *)
Definition below_power_of_ten (num den k : Z) : bool :=
  if 0 <=? k then num <? den * 10 ^ k else num * 10 ^ (- k) <? den.

(** The least [k] from [start] on with [num / den < 10 ^ k]. *)
Fixpoint decimal_point (fuel : nat) (start num den : Z) : Z :=
  match fuel with
  | O => start
  | S fuel' =>
      if below_power_of_ten num den start then start
      else decimal_point fuel' (start + 1) num den
  end.

(** The integer [d] nearest to [num / den / 10 ^ x] on either side whose
    decimal [d * 10 ^ x] reads back as [f]; the nearer of the two when
    both do. *)
Definition digits_at (f : spec_float) (num den x : Z) : option Z :=
  let a := if 0 <=? x then num else num * 10 ^ (- x) in
  let b := if 0 <=? x then den * 10 ^ x else den in
  let lo := a / b in
  let hi := lo + 1 in
  let reads_back d := float_eqb (float_of_decimal false d x) f in
  match reads_back lo, reads_back hi with
  | true, true =>
      match (2 * (a mod b) ?= b) with
      | Lt => Some lo
      | Gt => Some hi
      | Eq => Some (if Z.even lo then lo else hi)
      end
  | true, false => Some lo
  | false, true => Some hi
  | false, false => None
  end.

(** The shortest decimal, tried with [n], [n + 1], ... significant digits. *)
Fixpoint shortest_digits (fuel : nat) (n : Z) (f : spec_float) (num den decpt : Z)
  : Z * Z :=
  match fuel with
  | O => (num / den, 0)
  | S fuel' =>
      match digits_at f num den (decpt - n) with
      | Some d => (d, decpt - n)
      | None => shortest_digits fuel' (n + 1) f num den decpt
      end
  end.

Fixpoint strip_zeros (rev_digits : list ascii) : list ascii :=
  match rev_digits with
  | c :: rest => if Ascii.eqb c "0" then strip_zeros rest else rev_digits
  | [] => []
  end.

Definition zeros (n : Z) : string :=
  String.string_of_list_ascii (replicate (Z.to_nat n) "0"%char).

(** The layout of [repr]: digits [ds] with the decimal point after the
    first [decpt] of them. *)
Definition layout (ds : list ascii) (decpt : Z) : string :=
  let nd := Z.of_nat (length ds) in
  if (decpt <=? -4) || (16 <? decpt) then
    let e := decpt - 1 in
    String.string_of_list_ascii (take 1 ds)
    +:+ (if 1 <? nd then "." +:+ String.string_of_list_ascii (drop 1 ds) else "")
    +:+ "e" +:+ (if e <? 0 then "-" else "+") +:+ zero_pad 2 (Z.to_N (Z.abs e))
  else if decpt <=? 0 then
    "0." +:+ zeros (- decpt) +:+ String.string_of_list_ascii ds
  else if nd <=? decpt then
    String.string_of_list_ascii ds +:+ zeros (decpt - nd) +:+ ".0"
  else
    String.string_of_list_ascii (take (Z.to_nat decpt) ds)
    +:+ "." +:+ String.string_of_list_ascii (drop (Z.to_nat decpt) ds).

(** [repr(f)] *)
Definition repr_float (f : spec_float) : string :=
  match f with
  | S754_nan => "nan"
  | S754_infinity s => if s then "-inf" else "inf"
  | S754_zero s => if s then "-0.0" else "0.0"
  | S754_finite s m e =>
      let num := if 0 <=? e then Z.pos m * 2 ^ e else Z.pos m in
      let den := if 0 <=? e then 1 else 2 ^ (- e) in
      let decpt := decimal_point 700 (-330) num den in
      let (d, x) := shortest_digits 17 1 (S754_finite false m e) num den decpt in
      let all := String.list_ascii_of_string (pretty d) in
      let ds := rev (strip_zeros (rev all)) in
      (if s then "-" else "") +:+ layout ds (x + Z.of_nat (length all))
  end.

End CPython.

(** The library as CPython implements it, on ASCII text. *)
Definition cpython_ascii : PyLib := {|
  int_of_str := CPython.int_of_str;
  float_of_str := CPython.float_of_str;
  strptime := CPython.strptime;
  strftime := CPython.strftime;
  repr_float := CPython.repr_float;
  str_lower := CPython.lower
|}.

(** ** The library on ASCII and Greek text *)

(** [str.lower] on text of ASCII characters and the Greek letters
    U+0391..U+03A9 and U+03B1..U+03C9, in UTF-8.  A capital sigma lowers
    to the final form [U+03C2] when a cased letter comes before it and
    none after it, case-ignorable characters skipped on both sides, and to
    [U+03C3] otherwise; every other character is lowered by itself. *)
Module CPythonGreek.

(** The lead bytes of U+0380..U+03BF and of U+03C0..U+03FF. *)
Definition lead_CE : ascii := "206"%char.
Definition lead_CF : ascii := "207"%char.

(** Second bytes after [lead_CE]: a capital letter U+0391..U+03A9 (U+03A2
    is not assigned), the capital sigma U+03A3, a small letter
    U+03B1..U+03BF. *)
Definition is_capital (b : ascii) : bool :=
  let n := nat_of_ascii b in
  (145 <=? n)%nat && (n <=? 169)%nat && negb (n =? 162)%nat.

Definition is_sigma (b : ascii) : bool := (nat_of_ascii b =? 163)%nat.

Definition is_small_CE (b : ascii) : bool :=
  let n := nat_of_ascii b in (177 <=? n)%nat && (n <=? 191)%nat.

(** Second bytes after [lead_CF]: a small letter U+03C0..U+03C9. *)
Definition is_small_CF (b : ascii) : bool :=
  let n := nat_of_ascii b in (128 <=? n)%nat && (n <=? 137)%nat.

Definition is_ascii_letter (c : ascii) : bool :=
  let n := nat_of_ascii c in
  ((65 <=? n)%nat && (n <=? 90)%nat) || ((97 <=? n)%nat && (n <=? 122)%nat).

(** The case-ignorable ASCII characters: ['], [.], [:], [^] and [`]. *)
Definition is_case_ignorable (c : ascii) : bool :=
  let n := nat_of_ascii c in
  (n =? 39)%nat || (n =? 46)%nat || (n =? 58)%nat || (n =? 94)%nat || (n =? 96)%nat.

(** The two bytes are a Greek letter. *)
Definition is_greek_letter (c1 c2 : ascii) : bool :=
  (Ascii.eqb c1 lead_CE && (is_capital c2 || is_small_CE c2))
  || (Ascii.eqb c1 lead_CF && is_small_CF c2).

(** A cased letter comes next, case-ignorable characters skipped. *)
Fixpoint cased_follows (s : string) : bool :=
  match s with
  | EmptyString => false
  | String c rest =>
      if is_case_ignorable c then cased_follows rest
      else if is_ascii_letter c then true
      else match rest with
           | String c2 _ => is_greek_letter c c2
           | EmptyString => false
           end
  end.

(** The small letter of the capital letter with second byte [b]. *)
Definition lower_capital (b : ascii) : string :=
  let n := nat_of_ascii b in
  if (n <=? 159)%nat then String lead_CE (String (ascii_of_nat (n + 32)) EmptyString)
  else String lead_CF (String (ascii_of_nat (n - 32)) EmptyString).

Definition final_sigma : string := String lead_CF (String "130"%char EmptyString).
Definition small_sigma : string := String lead_CF (String "131"%char EmptyString).

(** [lower_after cased s] lowers [s], where [cased] tells whether the last
    character before [s] that is not case-ignorable is a cased letter. *)
Fixpoint lower_after (cased : bool) (s : string) : string :=
  match s with
  | EmptyString => EmptyString
  | String c rest =>
      let one_byte :=
        String (CPython.lower_char c)
          (lower_after (if is_case_ignorable c then cased else is_ascii_letter c) rest) in
      match rest with
      | String c2 rest2 =>
          if Ascii.eqb c lead_CE && is_capital c2 then
            (if is_sigma c2 then
               if cased && negb (cased_follows rest2) then final_sigma else small_sigma
             else lower_capital c2)
            +:+ lower_after true rest2
          else if is_greek_letter c c2 then
            String c (String c2 (lower_after true rest2))
          else one_byte
      | EmptyString => one_byte
      end
  end.

Definition lower (s : string) : string := lower_after false s.

End CPythonGreek.

(** The library as CPython implements it, on ASCII and Greek text. *)
Definition cpython_greek : PyLib := {|
  int_of_str := CPython.int_of_str;
  float_of_str := CPython.float_of_str;
  strptime := CPython.strptime;
  strftime := CPython.strftime;
  repr_float := CPython.repr_float;
  str_lower := CPythonGreek.lower
|}.

(** ** Indexing, length and printing *)

(** [l[index]] for a list and an [int]: a negative index counts from the
    end.  [None] stands for [IndexError]. *)
Definition list_getitem {A} (l : list A) (index : Z) : option A :=
  let i := if index <? 0 then index + Z.of_nat (length l) else index in
  if (0 <=? i) && (i <? Z.of_nat (length l)) then l !! Z.to_nat i else None.

(** [TransactionManager.__getitem__], for an index that is an [int]. *)
Definition TransactionManager__getitem__ (index : pyint) (self : TransactionManager)
  : option Transaction :=
  list_getitem (_transactions self) (int_value index).

(** [TransactionManager.__len__] *)
Definition TransactionManager__len__ (self : TransactionManager) : Z :=
  Z.of_nat (length (_transactions self)).

(** The console: the lines that [input] has still to read, and what was
    written to it, one item per call, the oldest first. *)
Record console := mkConsole {
  stdin : list string;
  stdout : list string
}.

(** [print(s)] *)
Definition print (s : string) : M console unit :=
  modify (fun c => mkConsole (stdin c) (stdout c ++ [s +:+ String LF ""])).

(** [for x in xs: print(x)], where [str(x)] is [render x]. *)
Fixpoint print_each {A} (render : A -> result string) (xs : list A) : M console unit :=
  match xs with
  | [] => ret tt
  | x :: rest => s <- lift (render x) ;; print s ;;; print_each render rest
  end.

(** [TransactionManager.print_transactions] *)
Definition print_transactions (self : TransactionManager) : M console unit :=
  print_each Transaction__str__ (_transactions self).

(** A method of the base class that acts on the world, run on an instance
    of the subclass. *)
Definition as_base {A} (m : M (state TransactionManager) A)
  : M (state ExtendedTransactionManager) A :=
  fun st =>
    let (r, st') := m (mkState (env st) (super (obj st))) in
    (r, mkState (env st') (mkExtendedTransactionManager (obj st') (_history (obj st)))).

(** ** The directory listing *)

(** What [os] answers: the names in a directory (or the error of
    [os.listdir]), whether a path is a regular file, and how the platform
    joins a directory and a name. *)
Class PyOS := {
  listdir : string -> result (list string);
  isfile : string -> bool;
  path_join : string -> string -> string
}.

(** [count_files_in_directory] *)
Definition count_files_in_directory `{PyOS} (directory : string) : result Z :=
  names <-- listdir directory ;;
  Ok (Z.of_nat (length (List.filter (fun name => isfile (path_join directory name)) names))).

(** ** The menu program *)

(** A run of the program: the console, and the world with what the
    variables of [main] hold. *)
Record session (Vars : Type) := mkSession {
  term : console;
  machine : state Vars
}.
Arguments mkSession {Vars} _ _.
Arguments term {Vars} _.
Arguments machine {Vars} _.

(** How a statement ends: it returns, an exception leaves it, [input]
    meets the end of the input ([EOFError]), or the bound on the number of
    loop iterations was reached. *)
Inductive outcome (A : Type) :=
| Returns (a : A)
| Raises (e : exn)
| RaisesEOFError
| OutOfFuel.
Arguments Returns {A} a.
Arguments Raises {A} e.
Arguments RaisesEOFError {A}.
Arguments OutOfFuel {A}.

Definition IO (Vars A : Type) : Type := session Vars -> outcome A * session Vars.

Definition io_ret {Vars A} (a : A) : IO Vars A := fun s => (Returns a, s).
Definition io_bind {Vars A B} (m : IO Vars A) (k : A -> IO Vars B) : IO Vars B :=
  fun s => match m s with
           | (Returns a, s') => k a s'
           | (Raises e, s') => (Raises e, s')
           | (RaisesEOFError, s') => (RaisesEOFError, s')
           | (OutOfFuel, s') => (OutOfFuel, s')
           end.

Notation "x <~ m ;; k" := (io_bind m (fun x => k))
  (at level 100, m at next level, right associativity).
Notation "m ;;~ k" := (io_bind m (fun _ => k))
  (at level 100, right associativity).

(** A call that acts on the world and the variables. *)
Definition call {Vars A} (m : M (state Vars) A) : IO Vars A :=
  fun s => match m (machine s) with
           | (Ok a, st) => (Returns a, mkSession (term s) st)
           | (Raise e, st) => (Raises e, mkSession (term s) st)
           end.

(** A call that writes to the console. *)
Definition show {Vars A} (m : M console A) : IO Vars A :=
  fun s => match m (term s) with
           | (Ok a, c) => (Returns a, mkSession c (machine s))
           | (Raise e, c) => (Raises e, mkSession c (machine s))
           end.

(** [input(prompt)]: the prompt is written, the next line is read. *)
Definition input {Vars} (prompt : string) : IO Vars string :=
  fun s =>
    let c := term s in
    match stdin c with
    | [] => (RaisesEOFError, mkSession (mkConsole [] (stdout c ++ [prompt])) (machine s))
    | line :: rest =>
        (Returns line, mkSession (mkConsole rest (stdout c ++ [prompt])) (machine s))
    end.

(** The object that the variable [manager] holds. *)
Definition manager : IO ExtendedTransactionManager ExtendedTransactionManager :=
  fun s => (Returns (obj (machine s)), s).

(** [try: body except ValueError as e: handler(str(e))] *)
Definition except_ValueError {Vars A} (body : IO Vars A) (handler : string -> IO Vars A)
  : IO Vars A :=
  fun s => match body s with
           | (Raises (ValueError msg), s') => handler msg s'
           | other => other
           end.

(** [for x in g: print(x)] for a generator of transactions: an item is
    printed when it is yielded. *)
Definition print_generated {Vars} (g : generated Transaction) : IO Vars unit :=
  show (print_each Transaction__str__ (yielded g)) ;;~
  match stopped_by g with
  | Some e => fun s => (Raises e, s)
  | None => io_ret tt
  end.

(** The name of the storage file in [main]. *)
Definition filename : string := "data.csv".

(** Whether the loop of [main] goes on after a choice. *)
Inductive control := Continue | Break.

Section Main.
Context {lib : PyLib} {os : PyOS}.

Definition print_menu {Vars} : IO Vars unit :=
  show (print (String LF "Меню:")) ;;~
  show (print "1. Вывести все транзакции") ;;~
  show (print "2. Сортировать по описанию (строковое поле)") ;;~
  show (print "3. Сортировать по сумме (числовое поле)") ;;~
  show (print "4. Фильтровать по минимальной сумме") ;;~
  show (print "5. Найти по ключевому слову в описании") ;;~
  show (print "6. Добавить новую транзакцию") ;;~
  show (print "7. Сохранить изменения") ;;~
  show (print "8. Показать историю изменений") ;;~
  show (print "0. Выход").

(** The line that choice 8 prints for a history record. *)
Definition history_line (record : datetime * string * string) : result string :=
  match record with
  | (time, action, details) => Ok (str_datetime time +:+ ": " +:+ action +:+ " - " +:+ details)
  end.

(** The branches of the [if] on [choice] in the loop of [main]. *)
Definition menu_choice (choice : string) : IO ExtendedTransactionManager control :=
  if String.eqb choice "1" then
    show (print (String LF "Все транзакции:")) ;;~
    self <~ manager ;;
    show (print_transactions (super self)) ;;~
    io_ret Continue
  else if String.eqb choice "2" then
    call (on_obj (on_super sort_by_description)) ;;~
    show (print (String LF "Транзакции, отсортированные по описанию:")) ;;~
    self <~ manager ;;
    show (print_transactions (super self)) ;;~
    io_ret Continue
  else if String.eqb choice "3" then
    call (on_obj (on_super sort_by_amount)) ;;~
    show (print (String LF "Транзакции, отсортированные по сумме:")) ;;~
    self <~ manager ;;
    show (print_transactions (super self)) ;;~
    io_ret Continue
  else if String.eqb choice "4" then
    line <~ input "Введите минимальную сумму: " ;;
    min_amount <~ call (lift (float_of_str line)) ;;
    show (print (String LF "Транзакции с суммой ≥ " +:+ repr_float min_amount +:+ ":")) ;;~
    g <~ call (on_obj (on_super (filter_by_amount (VFloat min_amount)))) ;;
    print_generated g ;;~
    io_ret Continue
  else if String.eqb choice "5" then
    keyword <~ input "Введите ключевое слово для поиска: " ;;
    show (print (String LF "Транзакции, содержащие '" +:+ keyword +:+ "':")) ;;~
    g <~ call (on_obj (get_transactions_by_description (VStr keyword))) ;;
    print_generated g ;;~
    io_ret Continue
  else if String.eqb choice "6" then
    except_ValueError
      (self <~ manager ;;
       now <~ call datetime_now ;;
       line <~ input "Введите сумму: " ;;
       amount <~ call (lift (float_of_str line)) ;;
       description <~ input "Введите описание: " ;;
       new_trans <~ call (lift (Transaction_call
                                 (VInt (PInt (TransactionManager__len__ (super self) + 1)))
                                 (VDatetime now) (VFloat amount) (VStr description))) ;;
       call (add_transaction (VTransaction new_trans)) ;;~
       show (print "Транзакция добавлена!") ;;~
       io_ret Continue)
      (fun e => show (print ("Ошибка: " +:+ e)) ;;~ io_ret Continue)
  else if String.eqb choice "7" then
    call (as_base (save_to_csv filename)) ;;~
    show (print "Изменения сохранены в файл!") ;;~
    io_ret Continue
  else if String.eqb choice "8" then
    show (print (String LF "История изменений:")) ;;~
    g <~ call (on_obj get_history) ;;
    show (print_each history_line (yielded g)) ;;~
    io_ret Continue
  else if String.eqb choice "0" then
    io_ret Break
  else
    show (print "Неверный ввод!") ;;~
    io_ret Continue.

(** The loop [while True] of [main], for at most [fuel] iterations. *)
Fixpoint menu_loop (fuel : nat) : IO ExtendedTransactionManager unit :=
  match fuel with
  | O => fun s => (OutOfFuel, s)
  | S fuel' =>
      print_menu ;;~
      choice <~ input "Выберите действие: " ;;
      next <~ menu_choice choice ;;
      match next with
      | Break => io_ret tt
      | Continue => menu_loop fuel'
      end
  end.

(** [main] up to the loop: the manager that was loaded, or [None] where
    [main] returns because the file is not there. *)
Definition main_start : IO unit (option ExtendedTransactionManager) :=
  directory <~ input "Введите путь к директории: " ;;
  file_count <~ call (lift (count_files_in_directory directory)) ;;
  show (print (String LF "Количество файлов в директории: " +:+ pretty file_count)) ;;~
  fun s =>
    match from_csv (Self := ExtendedTransactionManager) filename (env (machine s)) with
    | (Ok loaded, w) =>
        (show (print (String LF "Загружено транзакций: "
                      +:+ pretty (TransactionManager__len__ (super loaded)))) ;;~
         io_ret (Some loaded)) (mkSession (term s) (mkState w tt))
    | (Raise (FileNotFoundError _), w) =>
        (show (print (String LF "Файл " +:+ filename +:+ " не найден!")) ;;~
         io_ret None) (mkSession (term s) (mkState w tt))
    | (Raise e, w) => (Raises e, mkSession (term s) (mkState w tt))
    end.

(** [main]: how it ends, what the console holds and the world it leaves.
    Every iteration of the loop reads a line, so the loop makes no more
    iterations than there are lines to read, and one more. *)
Definition main (c : console) (w : world) : outcome unit * console * world :=
  match main_start (mkSession c (mkState w tt)) with
  | (Returns (Some loaded), s) =>
      match menu_loop (S (length (stdin (term s))))
              (mkSession (term s) (mkState (env (machine s)) loaded)) with
      | (r, s') => (r, term s', env (machine s'))
      end
  | (Returns None, s) => (Returns tt, term s, env (machine s))
  | (Raises e, s) => (Raises e, term s, env (machine s))
  | (RaisesEOFError, s) => (RaisesEOFError, term s, env (machine s))
  | (OutOfFuel, s) => (OutOfFuel, term s, env (machine s))
  end.

End Main.

(** * Specification vocabulary *)

(** ** Construction *)

(** The four attributes, in the order [__init__] assigns them. *)
Inductive tx_field := Fid | Fdate_time | Famount | Fdescription.

Definition field_name (f : tx_field) : string :=
  match f with
  | Fid => "id"
  | Fdate_time => "date_time"
  | Famount => "amount"
  | Fdescription => "description"
  end.

Definition field_index (f : tx_field) : nat :=
  match f with
  | Fid => 0
  | Fdate_time => 1
  | Famount => 2
  | Fdescription => 3
  end.

Definition precedes (g f : tx_field) : bool := (field_index g <? field_index f)%nat.

(** The message of the error that rejects a value for the field. *)
Definition field_message (f : tx_field) : string :=
  match f with
  | Fid => Msg.id
  | Fdate_time => Msg.date_time
  | Famount => Msg.amount
  | Fdescription => Msg.description
  end.

(** The field rules in the words of the specification: the id is an
    integer and not negative, the timestamp a date-time, the amount a
    number, the description a string. *)
Definition field_valid (f : tx_field) (v : pyval) : bool :=
  match f, v with
  | Fid, VInt i => 0 <=? int_value i
  | Fdate_time, VDatetime _ => true
  | Famount, VInt _ => true
  | Famount, VFloat _ => true
  | Fdescription, VStr _ => true
  | _, _ => false
  end.

(** Constructing from the values [args] assigns to each field. *)
Definition construct (args : tx_field -> pyval) : M (gmap string pyval) unit :=
  Transaction__init__ (args Fid) (args Fdate_time) (args Famount) (args Fdescription).

(** ** Searching and sorting *)

(** A string of 7-bit characters. *)
Definition is_ascii (s : string) : bool :=
  negb (any_char (fun c => (128 <=? nat_of_ascii c)%nat) s).

(** The library lowers ASCII text as CPython does. *)
Definition lowers_ascii (lib : PyLib) : Prop :=
  forall s, is_ascii s = true -> str_lower s = CPython.lower s.

(** The description contains the keyword, both lowered. *)
Definition matches {lib : PyLib} (keyword : string) (t : Transaction) : bool :=
  str_contains (str_lower keyword) (str_lower (description t)).

(** A capital ASCII letter. *)
Definition is_upper (c : ascii) : bool :=
  (65 <=? nat_of_ascii c)%nat && (nat_of_ascii c <=? 90)%nat.

(** The two characters are the same, or the capital and the small form of
    one ASCII letter. *)
Definition same_letter (a b : ascii) : bool :=
  Ascii.eqb a b
  || (is_upper a && (nat_of_ascii b =? nat_of_ascii a + 32)%nat)
  || (is_upper b && (nat_of_ascii a =? nat_of_ascii b + 32)%nat).

(** The two strings are the same up to the case of their ASCII letters. *)
Fixpoint same_ignoring_case (a b : string) : bool :=
  match a, b with
  | EmptyString, EmptyString => true
  | String x a', String y b' => same_letter x y && same_ignoring_case a' b'
  | _, _ => false
  end.

(** The keyword is a case-insensitive substring of [d]: a part of [d] is
    the keyword up to the case of its letters. *)
Definition occurs_ignoring_case (keyword d : string) : Prop :=
  exists pre mid post,
    d = pre +:+ mid +:+ post /\ same_ignoring_case mid keyword = true.

(** The Greek words [ΟΔΟΣ] and [ΟΔΟΣΑ]. *)
Definition odos : string := "ΟΔΟΣ".
Definition odosa : string := "ΟΔΟΣΑ".

(** [x] before [y] is in order for [<] on keys when [key y < key x] does
    not hold. *)
Definition in_order {A K} (key : A -> K) (lt : K -> K -> bool) (x y : A) : Prop :=
  lt (key y) (key x) = false.

(** Two keys are equivalent when neither is less than the other. *)
Definition equiv_key {K} (lt : K -> K -> bool) (a b : K) : bool :=
  negb (lt a b) && negb (lt b a).

(** Non-decreasing by description ([<=] on strings) and by amount ([<=] on
    numbers), between every two neighbours. *)
Definition ascending_by_description : list Transaction -> Prop :=
  Sorted (fun a b => String.leb (description a) (description b) = true).

Definition ascending_by_amount : list Transaction -> Prop :=
  Sorted (fun a b => num_le (amount a) (amount b) = true).

Definition not_nan (n : pynum) : Prop := is_nan n = false.

(** ** Loading *)

(** The rows of the file [text], as the loop of [load_from_csv] meets them. *)
Definition rows_of (text : string) : list (result (gmap string (option string))) :=
  DictReader (lines_of (universal_newlines text)).

(** The body of the loop of [load_from_csv]. *)
Definition load_row {lib : PyLib} {Self} `{TransactionCollection Self}
    (row : gmap string (option string)) : M (state Self) unit :=
  transaction <- lift (row_transaction row) ;;
  add_transaction (VTransaction transaction).

(** Adding the transactions of a list one after another. *)
Fixpoint add_all {Self} `{TransactionCollection Self} (ts : list Transaction)
  : M (state Self) unit :=
  match ts with
  | [] => ret tt
  | t :: rest => add_transaction (VTransaction t) ;;; add_all rest
  end.

(** The rows [dicts] are well-formed and stand for the transactions [ts]. *)
Definition well_formed_rows {lib : PyLib}
    (dicts : list (gmap string (option string))) (ts : list Transaction) : Prop :=
  Forall2 (fun d t => row_transaction d = Ok t) dicts ts.

(** The next item of the reader is malformed: reading it raises [e], or it
    is a row whose conversion or validation raises [e]. *)
Definition malformed {lib : PyLib}
    (item : result (gmap string (option string))) (e : exn) : Prop :=
  match item with
  | Raise e' => e' = e
  | Ok d => row_transaction d = Raise e
  end.

(** What the [except] clause of [load_from_csv] turns an error into. *)
Definition reraised (filename : string) (e : exn) : exn :=
  match e with
  | FileNotFoundError _ => FileNotFoundError (Msg.not_found filename)
  | _ => e
  end.

(** The history entries of additions logged at the clock ticks from [n]
    on, with their renderings. *)
Fixpoint audit_entries (clock : nat -> datetime) (n : nat) (rendered : list string)
  : list (datetime * string * string) :=
  match rendered with
  | [] => []
  | s :: rest => (clock n, "ADD", s) :: audit_entries clock (S n) rest
  end.

(** The state of a base manager after [ts] were appended. *)
Definition appended (ts : list Transaction) (st : state TransactionManager)
  : state TransactionManager :=
  mkState (env st) (mkTransactionManager (_transactions (obj st) ++ ts)).

(** The state of an audit-logging manager after [ts] were appended and
    logged with the renderings [rendered]. *)
Definition appended_logged (ts : list Transaction) (rendered : list string)
    (st : state ExtendedTransactionManager) : state ExtendedTransactionManager :=
  mkState
    (mkWorld (files (env st)) (clock (env st)) (now_calls (env st) + length ts))
    (mkExtendedTransactionManager
       (mkTransactionManager (_transactions (super (obj st)) ++ ts))
       (_history (obj st)
        ++ audit_entries (clock (env st)) (now_calls (env st)) rendered)).

(** ** Saving and loading back *)

(** Saving a collection to a file and loading the file into a new
    manager: the collection that comes back. *)
Definition save_then_load {lib : PyLib} (filename : string) (ts : list Transaction)
    (w : world) : result (list Transaction) :=
  match save_to_csv filename (mkState w (mkTransactionManager ts)) with
  | (Ok _, st) =>
      match from_csv (Self := TransactionManager) filename (env st) with
      | (Ok manager, _) => Ok (_transactions manager)
      | (Raise e, _) => Raise e
      end
  | (Raise e, _) => Raise e
  end.

(** Two transactions agree in id, in amount to two decimals, in
    description, and in timestamp to the second. *)
Definition same_record (t t' : Transaction) : Prop :=
  int_value (t_id t) = int_value (t_id t') /\
  format_2f (amount t) = format_2f (amount t') /\
  description t = description t' /\
  year (date_time t) = year (date_time t') /\
  month (date_time t) = month (date_time t') /\
  day (date_time t) = day (date_time t') /\
  hour (date_time t) = hour (date_time t') /\
  minute (date_time t) = minute (date_time t') /\
  second (date_time t) = second (date_time t').

(** The string holds no carriage return. *)
Definition no_cr (s : string) : bool := negb (any_char (fun c => Ascii.eqb c CR) s).

(** The reader is at the start of a field. *)
Definition is_start (st : parser_state) : Prop := st = START_RECORD \/ st = START_FIELD.

(** The cells that the library renders for [t], and its description, hold
    no carriage return. *)
Definition cr_free {lib : PyLib} (t : Transaction) : Prop :=
  no_cr (strftime (date_time t)) = true /\
  no_cr (str_num (amount t)) = true /\
  no_cr (description t) = true.

(** The text [save_to_csv] writes for a collection. *)
Definition saved_text {lib : PyLib} (ts : list Transaction) : string :=
  writerow fieldnames +:+ String.concat "" (map (fun t => writerow (row_cells t)) ts).

(** The three converted cells of the row of [t] read back: the id as the
    same integer, the timestamp as the same second, the amount as a float
    that shows the same two decimals. *)
Definition cells_read_back {lib : PyLib} (t : Transaction) : Prop :=
  0 <= int_value (t_id t) /\
  int_of_str (str_int (t_id t)) = Ok (int_value (t_id t)) /\
  (exists d, strptime (strftime (date_time t)) = Ok d /\
             year d = year (date_time t) /\ month d = month (date_time t) /\
             day d = day (date_time t) /\ hour d = hour (date_time t) /\
             minute d = minute (date_time t) /\ second d = second (date_time t)) /\
  (exists f, float_of_str (str_num (amount t)) = Ok f /\
             format_2f (NFloat f) = format_2f (amount t)).

(** ** Example data *)

(** The values [(1, "yesterday", None, "x")] for the four fields. *)
Definition example_args (f : tx_field) : pyval :=
  match f with
  | Fid => VInt (PInt 1)
  | Fdate_time => VStr "yesterday"
  | Famount => VNone
  | Fdescription => VStr "x"
  end.

(** [tx i a d] is the transaction with id [i], amount [a] and description
    [d], at 2024-03-01 14:30:00. *)
Definition example_time : datetime := mkDatetime 2024 3 1 14 30 0 0.

Definition tx (i : Z) (a : pynum) (d : string) : Transaction :=
  mkTransaction (PInt i) example_time a d.

(** The floats [1.0], [2.0], [2.5], [5.0] and [12.5]. *)
Definition float_1 : spec_float := Eval vm_compute in CPython.float_of_decimal false 1 0.
Definition float_2 : spec_float := Eval vm_compute in CPython.float_of_decimal false 2 0.
Definition float_2_5 : spec_float := Eval vm_compute in CPython.float_of_decimal false 25 (-1).
Definition float_5 : spec_float := Eval vm_compute in CPython.float_of_decimal false 5 0.
Definition float_12_5 : spec_float :=
  Eval vm_compute in CPython.float_of_decimal false 125 (-1).

(** The amounts [10, 2.5, 7], and the amounts [2.0, nan, 1.0]. *)
Definition three_amounts : list Transaction :=
  [tx 1 (NInt (PInt 10)) "x"; tx 2 (NFloat float_2_5) "y"; tx 3 (NInt (PInt 7)) "z"].

Definition with_nan : list Transaction :=
  [tx 1 (NFloat float_2) "a"; tx 2 (NFloat S754_nan) "b"; tx 3 (NFloat float_1) "c"].

(** A note whose text has a carriage return in it, and the same note with
    a line feed in its place. *)
Definition note_cr : Transaction :=
  tx 1 (NFloat float_5) ("a" +:+ String CR "b").
Definition note_lf : Transaction :=
  tx 1 (NFloat float_5) ("a" +:+ String LF "b").

(** Two files: one of two well-formed rows, and the same followed by a
    row whose id is not an integer and one more row. *)
Definition crlf : string := String CR (String LF EmptyString).

Definition good_file : string :=
  "№,дата и время,сумма,описание транзакции" +:+ crlf
  +:+ "1,2024-03-01 14:30:00,5.0,coffee" +:+ crlf
  +:+ "2,2024-03-02 09:00:00,12.5,books" +:+ crlf.

Definition bad_file : string :=
  good_file
  +:+ "x,2024-03-03 10:00:00,1.0,tea" +:+ crlf
  +:+ "4,2024-03-04 10:00:00,2.0,milk" +:+ crlf.

Definition coffee_row : list string := ["1"; "2024-03-01 14:30:00"; "5.0"; "coffee"].
Definition books_row : list string := ["2"; "2024-03-02 09:00:00"; "12.5"; "books"].
Definition tea_row : list string := ["x"; "2024-03-03 10:00:00"; "1.0"; "tea"].
Definition milk_row : list string := ["4"; "2024-03-04 10:00:00"; "2.0"; "milk"].

Definition coffee : Transaction :=
  mkTransaction (PInt 1) (mkDatetime 2024 3 1 14 30 0 0) (NFloat float_5) "coffee".
Definition books : Transaction :=
  mkTransaction (PInt 2) (mkDatetime 2024 3 2 9 0 0 0) (NFloat float_12_5) "books".

(** The error of [int('x')]. *)
Definition bad_int : exn := ValueError "invalid literal for int() with base 10".

(** A clock that ticks one second per call, a world with the two files,
    and that world with a new manager of each class. *)
Definition example_clock (n : nat) : datetime :=
  mkDatetime 2024 3 5 12 0 (N.of_nat n) 0.

Definition example_world : world :=
  mkWorld (<["data.csv" := good_file]> (<["bad.csv" := bad_file]> ∅)) example_clock 0.

Definition base_start : state TransactionManager :=
  mkState example_world TransactionManager__init__.
Definition extended_start : state ExtendedTransactionManager :=
  mkState example_world ExtendedTransactionManager__init__.

(** ** Instances, operations and sessions *)

(** The instance dictionary holds a valid value for each of the four
    fields. *)
Definition valid_instance (self : gmap string pyval) : Prop :=
  forall f, exists v, self !! field_name f = Some v /\ field_valid f v = true.

(** A name that [object.__setattr__] stores in the instance dictionary:
    every name but [__dict__], [__class__] and [__weakref__], which are
    descriptors of the class. *)
Definition ordinary_name (name : string) : bool :=
  negb (String.eqb name "__dict__" || String.eqb name "__class__"
        || String.eqb name "__weakref__").

(** The assignments [self.name = value] of a list, one after another; the
    caller catches the error of a rejected one and goes on. *)
Fixpoint assign_all (ops : list (string * pyval)) (self : gmap string pyval)
  : gmap string pyval :=
  match ops with
  | [] => self
  | (name, value) :: rest =>
      assign_all rest (snd (Transaction__setattr__ name value self))
  end.

(** [str(z)] stays within the 4300 digits that CPython allows by default
    when it converts an [int] to text. *)
Definition within_digit_limit (z : Z) : Prop := Z.abs z < 10 ^ 4300.

Definition in_range (lo hi : nat) (c : ascii) : bool :=
  (lo <=? nat_of_ascii c)%nat && (nat_of_ascii c <=? hi)%nat.

(** The bytes are well-formed UTF-8: they are the text of a [str] that
    [encoding='utf-8'] can write (a lone surrogate has no such bytes). *)
Fixpoint utf8 (s : string) : bool :=
  match s with
  | EmptyString => true
  | String c1 rest1 =>
      if in_range 0 127 c1 then utf8 rest1
      else
        match rest1 with
        | String c2 rest2 =>
            if in_range 194 223 c1 then in_range 128 191 c2 && utf8 rest2
            else
              match rest2 with
              | String c3 rest3 =>
                  if in_range 224 239 c1 then
                    (if in_range 224 224 c1 then in_range 160 191 c2
                     else if in_range 237 237 c1 then in_range 128 159 c2
                     else in_range 128 191 c2)
                    && in_range 128 191 c3 && utf8 rest3
                  else
                    match rest3 with
                    | String c4 rest4 =>
                        in_range 240 244 c1
                        && (if in_range 240 240 c1 then in_range 144 191 c2
                            else if in_range 244 244 c1 then in_range 128 143 c2
                            else in_range 128 191 c2)
                        && in_range 128 191 c3 && in_range 128 191 c4 && utf8 rest4
                    | EmptyString => false
                    end
              | EmptyString => false
              end
        | EmptyString => false
        end
  end.

(** [save_to_csv] can write the row of [t]: the id and an [int] amount
    are within the digit limit, and the description can be encoded. *)
Definition writable (t : Transaction) : Prop :=
  within_digit_limit (int_value (t_id t)) /\
  (forall i, amount t = NInt i -> within_digit_limit (int_value i)) /\
  utf8 (description t) = true.

(** The public operations of the audit-logging manager. *)
Inductive manager_op :=
| OpAdd (v : pyval)
| OpLoad (filename : string)
| OpSave (filename : string)
| OpSortByDescription
| OpSortByAmount
| OpFilter (min_amount : pyval)
| OpSearch (keyword : pyval)
| OpHistory.

(** The state an operation leaves, whether it returns or raises. *)
Definition run_op {lib : PyLib} (op : manager_op)
    (st : state ExtendedTransactionManager) : state ExtendedTransactionManager :=
  match op with
  | OpAdd v => snd (add_transaction v st)
  | OpLoad filename => snd (load_from_csv filename st)
  | OpSave filename => snd (as_base (save_to_csv filename) st)
  | OpSortByDescription => snd (on_obj (on_super sort_by_description) st)
  | OpSortByAmount => snd (on_obj (on_super sort_by_amount) st)
  | OpFilter min_amount => snd (on_obj (on_super (filter_by_amount min_amount)) st)
  | OpSearch keyword => snd (on_obj (get_transactions_by_description keyword) st)
  | OpHistory => snd (on_obj get_history st)
  end.

(** Operations one after another; the caller catches the error of one
    that raises and goes on. *)
Fixpoint run_ops {lib : PyLib} (ops : list manager_op)
    (st : state ExtendedTransactionManager) : state ExtendedTransactionManager :=
  match ops with
  | [] => st
  | op :: rest => run_ops rest (run_op op st)
  end.

(** What [print] writes for a line. *)
Definition printed (s : string) : string := s +:+ String LF "".

(** The third component of a history record: the rendering. *)
Definition details (record : datetime * string * string) : string := snd record.

(** The action of a history record. *)
Definition action (record : datetime * string * string) : string := snd (fst record).

(** What an operation may do to the history: it appends "ADD" records,
    and no more of them than it appends transactions. *)
Definition history_grows (st st' : state ExtendedTransactionManager) : Prop :=
  exists new,
    _history (obj st') = (_history (obj st) ++ new)%list /\
    Forall (fun record => action record = "ADD") new /\
    (length new + length (_transactions (super (obj st)))
     <= length (_transactions (super (obj st'))))%nat.

(** A statement never reaches the bound on the loop. *)
Definition finishes {Vars A} (m : IO Vars A) : Prop :=
  forall s, fst (m s) <> OutOfFuel.

(** A statement relates the session it leaves to the one it found. *)
Definition respects {Vars A} (R : session Vars -> session Vars -> Prop) (m : IO Vars A)
  : Prop :=
  forall s, R s (snd (m s)).

(** The later session has read on: its input is an end of the earlier
    input. *)
Definition reads_on {Vars} (s s' : session Vars) : Prop :=
  exists used, stdin (term s) = (used ++ stdin (term s'))%list.

(** The two sessions have the same files. *)
Definition same_files {Vars} (s s' : session Vars) : Prop :=
  files (env (machine s')) = files (env (machine s)).

(** What the menu writes at each turn of the loop, with the prompt. *)
Definition menu_text : list string :=
  [printed (String LF "Меню:");
   printed "1. Вывести все транзакции";
   printed "2. Сортировать по описанию (строковое поле)";
   printed "3. Сортировать по сумме (числовое поле)";
   printed "4. Фильтровать по минимальной сумме";
   printed "5. Найти по ключевому слову в описании";
   printed "6. Добавить новую транзакцию";
   printed "7. Сохранить изменения";
   printed "8. Показать историю изменений";
   printed "0. Выход";
   "Выберите действие: "].

(** ** More example data *)

(** An amount that [float] cannot hold: the integer [2 ** 1024]. *)
Definition huge : Transaction := tx 7 (NInt (PInt (2 ^ 1024))) "x".

(** The instance that [Transaction(1, example_time, 5.0, 'coffee')] builds,
    and four assignments to it: a negative id, a text for the amount, an
    attribute of another name, a new description. *)
Definition example_instance : gmap string pyval :=
  <["description" := VStr "coffee"]>
    (<["amount" := VFloat float_5]>
       (<["date_time" := VDatetime example_time]> (<["id" := VInt (PInt 1)]> ∅))).

Definition example_assignments : list (string * pyval) :=
  [("id", VInt (PInt (-5))); ("amount", VStr "free"); ("note", VNone);
   ("description", VStr "tea")].

(** A directory listing: two files and a subdirectory under [docs], and no
    other directory. *)
Definition example_os : PyOS := {|
  listdir directory :=
    if String.eqb directory "docs" then Ok ["a.txt"; "b.txt"; "sub"]
    else Raise (FileNotFoundError directory);
  isfile path := String.eqb path "docs/a.txt" || String.eqb path "docs/b.txt";
  path_join directory name := directory +:+ "/" +:+ name
|}.

(** A console on which nothing was written, with the lines it will read. *)
Definition typed (lines : list string) : console := mkConsole lines [].

(** A world with no file, and the session of a new manager in it. *)
Definition bare_world : world := mkWorld ∅ example_clock 0.

Definition example_session (lines : list string) : session ExtendedTransactionManager :=
  mkSession (typed lines) (mkState bare_world ExtendedTransactionManager__init__).

(** * Theorems *)

(** ** Construction and validation *)

Lemma setattr_valid (f : tx_field) (v : pyval) (self : gmap string pyval) :
  field_valid f v = true ->
  Transaction__setattr__ (field_name f) v self = (Ok tt, <[field_name f := v]> self).
Proof.
  destruct f, v; simpl; try discriminate; intros H; try reflexivity.
  unfold Transaction__setattr__; simpl.
  assert ((int_value i <? 0) = false) as -> by lia. reflexivity.
Qed.

Lemma setattr_invalid (f : tx_field) (v : pyval) (self : gmap string pyval) :
  field_valid f v = false ->
  Transaction__setattr__ (field_name f) v self = (Raise (ValueError (field_message f)), self).
Proof.
  destruct f, v; simpl; try discriminate; intros H; try reflexivity.
  unfold Transaction__setattr__; simpl.
  assert ((int_value i <? 0) = true) as -> by lia. reflexivity.
Qed.

Lemma field_message_inj (f g : tx_field) : field_message f = field_message g -> f = g.
Proof. destruct f, g; simpl; intros H; try reflexivity; discriminate H. Qed.

Lemma field_name_inj (f g : tx_field) : field_name f = field_name g -> f = g.
Proof. destruct f, g; simpl; intros H; try reflexivity; discriminate H. Qed.

(** The state [__init__] leaves when [f] is the first field it rejects:
    the fields before [f] hold their values, nothing else is set. *)
Lemma construct_stops_at (args : tx_field -> pyval) (f : tx_field) :
  field_valid f (args f) = false ->
  (forall g, precedes g f = true -> field_valid g (args g) = true) ->
  exists self,
    construct args ∅ = (Raise (ValueError (field_message f)), self) /\
    (forall g, self !! field_name g = if precedes g f then Some (args g) else None) /\
    (forall name, is_Some (self !! name) ->
       exists g, name = field_name g /\ precedes g f = true).
Proof.
  intros Hbad Hgood.
  unfold construct, Transaction__init__, bind.
  destruct f.
  - pose proof (setattr_invalid Fid _ ∅ Hbad) as E. simpl in E. rewrite E.
    eexists; split; [reflexivity|]. split.
    + intros g. destruct g; reflexivity.
    + intros name [v Hv]. rewrite lookup_empty in Hv. discriminate.
  - pose proof (setattr_valid Fid _ ∅ (Hgood Fid eq_refl)) as E1. simpl in E1. rewrite E1.
    pose proof (setattr_invalid Fdate_time _ (<["id" := args Fid]> ∅) Hbad) as E.
    simpl in E. rewrite E.
    eexists; split; [reflexivity|]. split.
    + intros g. destruct g; simpl; by simplify_map_eq.
    + intros name [v Hv].
      destruct (decide (name = "id")) as [->|]; [by exists Fid|].
      by simplify_map_eq.
  - pose proof (setattr_valid Fid _ ∅ (Hgood Fid eq_refl)) as E1. simpl in E1. rewrite E1.
    pose proof (setattr_valid Fdate_time _ (<["id" := args Fid]> ∅)
                  (Hgood Fdate_time eq_refl)) as E2. simpl in E2. rewrite E2.
    pose proof (setattr_invalid Famount _
                  (<["date_time" := args Fdate_time]> (<["id" := args Fid]> ∅)) Hbad) as E.
    simpl in E. rewrite E.
    eexists; split; [reflexivity|]. split.
    + intros g. destruct g; simpl; by simplify_map_eq.
    + intros name [v Hv].
      destruct (decide (name = "id")) as [->|]; [by exists Fid|].
      destruct (decide (name = "date_time")) as [->|]; [by exists Fdate_time|].
      by simplify_map_eq.
  - pose proof (setattr_valid Fid _ ∅ (Hgood Fid eq_refl)) as E1. simpl in E1. rewrite E1.
    pose proof (setattr_valid Fdate_time _ (<["id" := args Fid]> ∅)
                  (Hgood Fdate_time eq_refl)) as E2. simpl in E2. rewrite E2.
    pose proof (setattr_valid Famount _
                  (<["date_time" := args Fdate_time]> (<["id" := args Fid]> ∅))
                  (Hgood Famount eq_refl)) as E3. simpl in E3. rewrite E3.
    pose proof (setattr_invalid Fdescription _
                  (<["amount" := args Famount]>
                     (<["date_time" := args Fdate_time]> (<["id" := args Fid]> ∅)))
                  Hbad) as E.
    simpl in E. rewrite E.
    eexists; split; [reflexivity|]. split.
    + intros g. destruct g; simpl; by simplify_map_eq.
    + intros name [v Hv].
      destruct (decide (name = "id")) as [->|]; [by exists Fid|].
      destruct (decide (name = "date_time")) as [->|]; [by exists Fdate_time|].
      destruct (decide (name = "amount")) as [->|]; [by exists Famount|].
      by simplify_map_eq.
Qed.

(** Among the fields, an invalid one has a first invalid one. *)
Lemma first_invalid_exists (args : tx_field -> pyval) :
  (exists g, field_valid g (args g) = false) ->
  exists f, field_valid f (args f) = false /\
            forall g, precedes g f = true -> field_valid g (args g) = true.
Proof.
  intros [g Hg].
  destruct (field_valid Fid (args Fid)) eqn:H0.
  2:{ exists Fid. split; [done|]. intros []; discriminate. }
  destruct (field_valid Fdate_time (args Fdate_time)) eqn:H1.
  2:{ exists Fdate_time. split; [done|]. intros []; try discriminate; done. }
  destruct (field_valid Famount (args Famount)) eqn:H2.
  2:{ exists Famount. split; [done|]. intros []; try discriminate; done. }
  destruct (field_valid Fdescription (args Fdescription)) eqn:H3.
  2:{ exists Fdescription. split; [done|]. intros []; try discriminate; done. }
  destruct g; congruence.
Qed.

(** C1. For every choice of field values with at least one invalid field,
    construction fails with the [ValueError] whose message is that of the
    first invalid field in construction order (the four messages differ);
    the caller gets no object; in the instance left behind, exactly the
    fields before that one are set, to the values given. *)
Theorem C1_construction_stops_at_first_invalid_field (args : tx_field -> pyval) :
  (exists g, field_valid g (args g) = false) ->
  exists f,
    field_valid f (args f) = false /\
    (forall g, precedes g f = true -> field_valid g (args g) = true) /\
    (forall g, field_message g = field_message f -> g = f) /\
    Transaction_call (args Fid) (args Fdate_time) (args Famount) (args Fdescription)
      = Raise (ValueError (field_message f)) /\
    exists self,
      construct args ∅ = (Raise (ValueError (field_message f)), self) /\
      (forall g, self !! field_name g = if precedes g f then Some (args g) else None) /\
      (forall name, is_Some (self !! name) ->
         exists g, name = field_name g /\ precedes g f = true).
Proof.
  intros Hsome.
  destruct (first_invalid_exists args Hsome) as (f & Hbad & Hgood).
  exists f. split; [exact Hbad|]. split; [exact Hgood|].
  split; [intros g; apply field_message_inj|].
  destruct (construct_stops_at args f Hbad Hgood) as (self & Hrun & Hset & Honly).
  split.
  - unfold Transaction_call. unfold construct in Hrun. rewrite Hrun. reflexivity.
  - exists self. auto.
Qed.

(** C1 at the values [(1, "yesterday", None, "x")]: the timestamp is the
    first invalid field, and only [id] is set. *)
Lemma C1_witness :
  (exists g, field_valid g (example_args g) = false) /\
  exists f,
    field_valid f (example_args f) = false /\
    (forall g, precedes g f = true -> field_valid g (example_args g) = true) /\
    (forall g, field_message g = field_message f -> g = f) /\
    Transaction_call (example_args Fid) (example_args Fdate_time)
                     (example_args Famount) (example_args Fdescription)
      = Raise (ValueError (field_message f)) /\
    exists self,
      construct example_args ∅ = (Raise (ValueError (field_message f)), self) /\
      (forall g, self !! field_name g
                 = if precedes g f then Some (example_args g) else None) /\
      (forall name, is_Some (self !! name) ->
         exists g, name = field_name g /\ precedes g f = true).
Proof.
  assert (exists g, field_valid g (example_args g) = false) as H
    by (exists Fdate_time; reflexivity).
  split; [exact H|].
  exact (C1_construction_stops_at_first_invalid_field example_args H).
Defined.

Example construct_example :
  construct example_args ∅
  = (Raise (ValueError Msg.date_time), {[ "id" := VInt (PInt 1) ]}).
Proof. reflexivity. Qed.

(** [__init__] returns exactly when the validator accepts the values, and
    then all four attributes are set. *)
Lemma init_returns_iff (id dt amt desc : pyval) :
  validate_transaction_data id dt amt desc = true <->
  exists self, Transaction__init__ id dt amt desc ∅ = (Ok tt, self).
Proof.
  unfold validate_transaction_data, Transaction__init__, bind,
    Transaction__setattr__, raise, modify.
  simpl.
  destruct (negb (isinstance_int id) || int_lt_0 id); simpl.
  { split; [discriminate|]. intros [self H]; discriminate. }
  destruct (negb (isinstance_datetime dt)); simpl.
  { split; [discriminate|]. intros [self H]; discriminate. }
  destruct (negb (isinstance_int amt || isinstance_float amt)); simpl.
  { split; [discriminate|]. intros [self H]; discriminate. }
  destruct (negb (isinstance_str desc)); simpl.
  { split; [discriminate|]. intros [self H]; discriminate. }
  split; [eauto|reflexivity].
Qed.

(** When [__init__] returns, the instance has its four typed attributes. *)
Lemma init_returns_typed (id dt amt desc : pyval) (self : gmap string pyval) :
  Transaction__init__ id dt amt desc ∅ = (Ok tt, self) ->
  exists t, as_Transaction self = Some t /\
            VInt (t_id t) = id /\ VDatetime (date_time t) = dt /\
            of_num (amount t) = amt /\ VStr (description t) = desc.
Proof.
  unfold Transaction__init__, bind, Transaction__setattr__, raise, modify.
  simpl.
  destruct id; simpl; try discriminate.
  destruct (int_value i <? 0); simpl; try discriminate.
  destruct dt; simpl; try discriminate.
  destruct amt as [| a | a | | | |]; simpl; try discriminate;
    destruct desc; simpl; try discriminate;
    intros [= Hs]; subst self; eexists; (split; [reflexivity|]); simpl; auto.
Qed.

(** C9. The static helper accepts four values exactly when constructing a
    Transaction from them succeeds. *)
Theorem C9_validate_iff_construction_succeeds (id dt amt desc : pyval) :
  validate_transaction_data id dt amt desc = true <->
  exists t, Transaction_call id dt amt desc = Ok t.
Proof.
  rewrite init_returns_iff. unfold Transaction_call. split.
  - intros [self H]. rewrite H.
    destruct (init_returns_typed _ _ _ _ _ H) as (t & -> & _). eauto.
  - intros [t H].
    destruct (Transaction__init__ id dt amt desc ∅) as [[[]|e] self]; [eauto|discriminate].
Qed.

(** ** The base manager: adding and filtering *)

(** The claim that a rejected argument raises an error of another class
    than a validation error fails: both are [ValueError]. *)
Lemma C8_counterexample :
  ~ (forall (v : pyval) (self : TransactionManager) (e : exn)
            (id dt amt desc : pyval) (e_validation : exn),
       isinstance_Transaction v = false ->
       fst (TransactionManager_add_transaction v self) = Raise e ->
       Transaction_call id dt amt desc = Raise e_validation ->
       class_of e <> class_of e_validation).
Proof.
  intros H.
  apply (H VNone TransactionManager__init__ (ValueError Msg.not_transaction)
           (VInt (PInt (-1))) VNone VNone VNone (ValueError Msg.id));
    reflexivity.
Qed.

(** C8, amended. [add_transaction] rejects every argument that is not a
    Transaction with a [ValueError] (the class of the validation errors,
    under a message of its own) and leaves the collection as it was; it
    appends a Transaction at the end, after the elements already there. *)
Theorem C8_add_transaction (v : pyval) (self : TransactionManager) :
  match v with
  | VTransaction t =>
      TransactionManager_add_transaction v self
      = (Ok tt, mkTransactionManager (_transactions self ++ [t]))
  | _ =>
      TransactionManager_add_transaction v self
      = (Raise (ValueError Msg.not_transaction), self)
  end
  /\ (forall f, Msg.not_transaction <> field_message f).
Proof.
  split.
  - destruct v; reflexivity.
  - intros f. destruct f; discriminate.
Qed.

Lemma yield_if_total {A} (p : A -> bool) (xs : list A) :
  yield_if (fun x => Ok (p x)) xs = mkGenerated (List.filter p xs) None.
Proof.
  induction xs as [|x xs IH]; simpl; [reflexivity|].
  rewrite IH. destruct (p x); reflexivity.
Qed.

Lemma filter_sublist {A} (p : A -> bool) (xs : list A) :
  sublist (List.filter p xs) xs.
Proof.
  induction xs as [|x xs IH]; simpl; [constructor|].
  destruct (p x); by constructor.
Qed.

Lemma filter_none {A} (p : A -> bool) (xs : list A) :
  Forall (fun x => p x = false) xs -> List.filter p xs = [].
Proof.
  induction 1 as [|x xs Hx _ IH]; simpl; [reflexivity|].
  by rewrite Hx.
Qed.

(** C6. For every collection and every numeric threshold [m], the
    generator yields exactly the transactions with [amount >= m], in
    collection order, nothing when none qualifies, and the collection is
    not changed. *)
Theorem C6_filter_by_amount (self : TransactionManager) (m : pynum) :
  exists g,
    filter_by_amount (of_num m) self = (Ok g, self) /\
    stopped_by g = None /\
    yielded g = List.filter (fun t => num_ge (amount t) m) (_transactions self) /\
    (forall t, In t (yielded g) <->
               In t (_transactions self) /\ num_ge (amount t) m = true) /\
    sublist (yielded g) (_transactions self) /\
    (Forall (fun t => num_ge (amount t) m = false) (_transactions self) ->
     yielded g = []).
Proof.
  exists (mkGenerated
            (List.filter (fun t => num_ge (amount t) m) (_transactions self)) None).
  split.
  { unfold filter_by_amount, bind, get, ret.
    replace (fun transaction => py_ge (amount transaction) (of_num m))
      with (fun t => @Ok bool (num_ge (amount t) m)).
    - by rewrite yield_if_total.
    - destruct m; reflexivity. }
  simpl. split; [reflexivity|]. split; [reflexivity|].
  split; [intros t; apply filter_In|].
  split; [apply filter_sublist|apply filter_none].
Qed.

(** A threshold that is not a number stops the generator at the first
    transaction with a [TypeError]; on an empty collection it is never
    compared. *)
Lemma filter_by_amount_not_a_number (self : TransactionManager) (m : pyval) :
  isinstance_int m = false -> isinstance_float m = false ->
  exists g,
    filter_by_amount m self = (Ok g, self) /\
    yielded g = [] /\
    (_transactions self = [] -> stopped_by g = None) /\
    (_transactions self <> [] ->
     exists e, stopped_by g = Some e /\ class_of e = CTypeError).
Proof.
  intros Hi Hf. destruct self as [[|t ts]].
  - eexists. split; [reflexivity|]. simpl.
    split; [reflexivity|]. split; [reflexivity|]. by intros [].
  - destruct m; try discriminate;
      (eexists; split; [reflexivity|]; simpl;
       split; [reflexivity|]; split; [discriminate|];
       intros _; eexists; split; reflexivity).
Qed.

(** C6 on the amounts [10, 2.5, 7]: the threshold [50] yields nothing. *)
Lemma C6_witness :
  Forall (fun t => num_ge (amount t) (NInt (PInt 50)) = false) three_amounts /\
  exists g,
    filter_by_amount (VInt (PInt 50)) (mkTransactionManager three_amounts)
    = (Ok g, mkTransactionManager three_amounts) /\
    yielded g = [].
Proof.
  assert (Forall (fun t => num_ge (amount t) (NInt (PInt 50)) = false) three_amounts)
    as H by (repeat constructor).
  split; [exact H|].
  destruct (C6_filter_by_amount (mkTransactionManager three_amounts) (NInt (PInt 50)))
    as (g & Hrun & _ & _ & _ & _ & Hnone).
  exists g. split; [exact Hrun|exact (Hnone H)].
Defined.

Example filter_by_amount_example :
  filter_by_amount (VInt (PInt 5)) (mkTransactionManager three_amounts)
  = (Ok (mkGenerated [tx 1 (NInt (PInt 10)) "x"; tx 3 (NInt (PInt 7)) "z"] None),
     mkTransactionManager three_amounts).
Proof. reflexivity. Qed.

(** ** Keyword search *)

Lemma prefix_app (n h : string) :
  String.prefix n h = true <-> exists post, h = n +:+ post.
Proof.
  revert h. induction n as [|c n IH]; intros h; simpl.
  - destruct h; split; eauto.
  - destruct h as [|c' h]; simpl.
    + split; [discriminate|]. intros [post H]; discriminate.
    + destruct (ascii_dec c c') as [->|Hne].
      * rewrite IH. split; intros [post H]; exists post.
        -- subst h. reflexivity.
        -- by injection H.
      * split; [discriminate|]. intros [post H]. injection H as H1 H2. congruence.
Qed.

(** [needle in hay] holds exactly when [hay] is [pre + needle + post]. *)
Lemma str_contains_spec (n h : string) :
  str_contains n h = true <-> exists pre post, h = pre +:+ n +:+ post.
Proof.
  induction h as [|c h IH].
  - change (str_contains n "") with (String.prefix n "" || false).
    rewrite orb_false_r, prefix_app. split.
    + intros [post H]. exists "", post. exact H.
    + intros (pre & post & H). destruct pre; [eauto|discriminate].
  - change (str_contains n (String c h))
      with (String.prefix n (String c h) || str_contains n h).
    rewrite orb_true_iff, prefix_app, IH. split.
    + intros [[post H]|(pre & post & H)].
      * exists "", post. exact H.
      * exists (String c pre), post. subst h. reflexivity.
    + intros (pre & post & H). destruct pre as [|c' pre].
      * left. eauto.
      * right. exists pre, post. by injection H.
Qed.

(** *** Lowered ASCII text and the case of letters *)

Lemma same_letter_lower (a b : ascii) :
  same_letter a b = Ascii.eqb (CPython.lower_char a) (CPython.lower_char b).
Proof.
  assert (forallb (fun x =>
            forallb (fun y =>
              Bool.eqb (same_letter x y)
                (Ascii.eqb (CPython.lower_char x) (CPython.lower_char y)))
              (map ascii_of_nat (seq 0 256)))
            (map ascii_of_nat (seq 0 256)) = true) as Hall
    by (vm_compute; reflexivity).
  assert (forall c, In c (map ascii_of_nat (seq 0 256))) as Hin.
  { intros c. apply in_map_iff. exists (nat_of_ascii c).
    split; [apply ascii_nat_embedding|].
    apply in_seq. pose proof (nat_ascii_bounded c). lia. }
  rewrite forallb_forall in Hall. specialize (Hall a (Hin a)).
  rewrite forallb_forall in Hall. specialize (Hall b (Hin b)).
  by apply eqb_prop in Hall.
Qed.

Lemma same_ignoring_case_lower (a b : string) :
  same_ignoring_case a b = true <-> CPython.lower a = CPython.lower b.
Proof.
  revert b. induction a as [|x a IH]; intros [|y b];
    cbn [same_ignoring_case CPython.lower]; try (split; [done|discriminate]);
    [done|].
  rewrite andb_true_iff, same_letter_lower, Ascii.eqb_eq, IH. split.
  - by intros [-> ->].
  - intros [= H1 H2]. done.
Qed.

Lemma lower_app (a b : string) :
  CPython.lower (a +:+ b) = CPython.lower a +:+ CPython.lower b.
Proof.
  induction a as [|x a IH]; [reflexivity|].
  change (String x a +:+ b) with (String x (a +:+ b)).
  cbn [CPython.lower]. by rewrite IH.
Qed.

(** A lowered text splits where the text splits. *)
Lemma lower_split (s x y : string) :
  CPython.lower s = x +:+ y ->
  exists a b, s = a +:+ b /\ CPython.lower a = x /\ CPython.lower b = y.
Proof.
  revert s. induction x as [|c x IH]; intros s H.
  - exists "", s. by repeat split.
  - destruct s as [|c' s]; [discriminate|].
    change (String c x +:+ y) with (String c (x +:+ y)) in H.
    cbn [CPython.lower] in H. injection H as Hc H.
    destruct (IH s H) as (a & b & -> & Ha & Hb).
    exists (String c' a), b. cbn [CPython.lower]. by rewrite Hc, Ha.
Qed.

(** On lowered text, containment is containment up to the case of the
    letters. *)
Lemma contains_lowered (keyword d : string) :
  str_contains (CPython.lower keyword) (CPython.lower d) = true <->
  occurs_ignoring_case keyword d.
Proof.
  rewrite str_contains_spec. unfold occurs_ignoring_case. split.
  - intros (pre' & post' & H).
    destruct (lower_split d pre' _ H) as (pre & rest & -> & Hpre & Hrest).
    destruct (lower_split rest _ post' Hrest) as (mid & post & -> & Hmid & Hpost).
    exists pre, mid, post. split; [reflexivity|]. by apply same_ignoring_case_lower.
  - intros (pre & mid & post & -> & Hsame).
    apply same_ignoring_case_lower in Hsame.
    exists (CPython.lower pre), (CPython.lower post).
    by rewrite !lower_app, Hsame.
Qed.

Section Search.
Context {lib : PyLib}.

Lemma search_run (self : ExtendedTransactionManager) (keyword : string) :
  get_transactions_by_description (VStr keyword) self
  = (Ok (mkGenerated (List.filter (matches keyword) (_transactions (super self))) None),
     self).
Proof.
  unfold get_transactions_by_description, bind, get, ret.
  rewrite <- (yield_if_total (matches keyword)). reflexivity.
Qed.

(** C7, amended. For every collection and every keyword string, the
    search yields exactly the transactions whose lowered description
    contains the lowered keyword as a substring, in collection order, and
    nothing when none does.  With a library that lowers ASCII text as
    CPython does, for an ASCII keyword an ASCII description is found
    exactly when the keyword is a case-insensitive substring of it: a part
    of the description is the keyword up to the case of its letters.  So
    the keyword "REF" finds "invoice ref-22" and "REFUND" but not
    "payment". *)
Theorem C7_search_by_description
    (self : ExtendedTransactionManager) (keyword : string) :
  (exists g,
     get_transactions_by_description (VStr keyword) self = (Ok g, self) /\
     stopped_by g = None /\
     yielded g = List.filter (matches keyword) (_transactions (super self)) /\
     (forall t, In t (yielded g) <->
        In t (_transactions (super self)) /\
        exists pre post,
          str_lower (description t) = pre +:+ str_lower keyword +:+ post) /\
     sublist (yielded g) (_transactions (super self)) /\
     (Forall (fun t => matches keyword t = false) (_transactions (super self)) ->
      yielded g = []) /\
     (lowers_ascii lib -> is_ascii keyword = true ->
      forall t, is_ascii (description t) = true ->
        (In t (yielded g) <->
         In t (_transactions (super self)) /\
         occurs_ignoring_case keyword (description t)))) /\
  (lowers_ascii lib ->
   forall (a b c : pynum) (history : list (datetime * string * string)),
     get_transactions_by_description (VStr "REF")
       (mkExtendedTransactionManager
          (mkTransactionManager
             [tx 1 a "invoice ref-22"; tx 2 b "payment"; tx 3 c "REFUND"])
          history)
     = (Ok (mkGenerated [tx 1 a "invoice ref-22"; tx 3 c "REFUND"] None),
        mkExtendedTransactionManager
          (mkTransactionManager
             [tx 1 a "invoice ref-22"; tx 2 b "payment"; tx 3 c "REFUND"])
          history)).
Proof.
  split.
  - eexists. split; [apply search_run|]. simpl.
    split; [reflexivity|]. split; [reflexivity|].
    split; [|split; [apply filter_sublist|split; [apply filter_none|]]].
    + intros t. rewrite filter_In. unfold matches. by rewrite str_contains_spec.
    + intros Hlower Hk t Ht. rewrite filter_In. unfold matches.
      rewrite (Hlower keyword Hk), (Hlower (description t) Ht).
      by rewrite contains_lowered.
  - intros Hlower a b c history.
    rewrite search_run. simpl. unfold matches. simpl.
    rewrite !Hlower by reflexivity. reflexivity.
Qed.

End Search.

(** The library on ASCII and Greek text lowers ASCII text as the library
    on ASCII text does. *)
Lemma greek_lower_after_ascii (s : string) (cased : bool) :
  is_ascii s = true -> CPythonGreek.lower_after cased s = CPython.lower s.
Proof.
  unfold is_ascii. revert cased. induction s as [|c s IH]; intros cased; [reflexivity|].
  cbn [any_char]. rewrite negb_orb, andb_true_iff. intros [Hc Hs].
  apply negb_true_iff, Nat.leb_gt in Hc.
  assert (Ascii.eqb c CPythonGreek.lead_CE = false) as H1.
  { apply Ascii.eqb_neq. intros ->. vm_compute in Hc. lia. }
  assert (Ascii.eqb c CPythonGreek.lead_CF = false) as H2.
  { apply Ascii.eqb_neq. intros ->. vm_compute in Hc. lia. }
  cbn [CPythonGreek.lower_after CPython.lower].
  destruct s as [|c2 s2].
  - reflexivity.
  - unfold CPythonGreek.is_greek_letter. rewrite H1, H2. cbn [andb orb].
    by rewrite IH.
Qed.

Lemma greek_lowers_ascii : lowers_ascii cpython_greek.
Proof. intros s Hs. by apply greek_lower_after_ascii. Qed.

(** The claim as stated fails: a description that holds the keyword
    verbatim holds it as a case-insensitive substring, but with the
    library on Greek text the keyword [ΟΔΟΣ] does not find the description
    [ΟΔΟΣΑ]: at the end of the keyword the capital sigma lowers to the
    final form, inside the description it does not. *)
Lemma C7_counterexample :
  ~ (forall (self : ExtendedTransactionManager) (keyword : string)
            (g : generated Transaction) (t : Transaction),
       get_transactions_by_description (lib := cpython_greek) (VStr keyword) self
       = (Ok g, self) ->
       In t (_transactions (super self)) ->
       (exists pre post, description t = pre +:+ keyword +:+ post) ->
       In t (yielded g)).
Proof.
  intros H.
  specialize (H (mkExtendedTransactionManager
                   (mkTransactionManager [tx 1 (NFloat float_5) odosa]) [])
                odos (mkGenerated [] None) (tx 1 (NFloat float_5) odosa)).
  apply H.
  - vm_compute. reflexivity.
  - by left.
  - exists "", "Α". reflexivity.
Qed.

(** C7 with the library on ASCII text. *)
Lemma C7_witness :
  lowers_ascii cpython_ascii /\
  is_ascii "REF" = true /\
  get_transactions_by_description (lib := cpython_ascii) (VStr "REF")
    (mkExtendedTransactionManager
       (mkTransactionManager
          [tx 1 (NInt (PInt 10)) "invoice ref-22"; tx 2 (NInt (PInt 20)) "payment";
           tx 3 (NInt (PInt 30)) "REFUND"])
       [])
  = (Ok (mkGenerated [tx 1 (NInt (PInt 10)) "invoice ref-22";
                      tx 3 (NInt (PInt 30)) "REFUND"] None),
     mkExtendedTransactionManager
       (mkTransactionManager
          [tx 1 (NInt (PInt 10)) "invoice ref-22"; tx 2 (NInt (PInt 20)) "payment";
           tx 3 (NInt (PInt 30)) "REFUND"])
       []) /\
  (is_ascii (description (tx 1 (NInt (PInt 10)) "invoice ref-22")) = true /\
   occurs_ignoring_case "REF" "invoice ref-22") /\
  (is_ascii (description (tx 2 (NInt (PInt 20)) "payment")) = true /\
   ~ occurs_ignoring_case "REF" "payment").
Proof.
  assert (lowers_ascii cpython_ascii) as H by (intros s _; reflexivity).
  assert (is_ascii "REF" = true) as Hk by reflexivity.
  split; [exact H|]. split; [exact Hk|].
  pose proof (C7_search_by_description (lib := cpython_ascii)
                (mkExtendedTransactionManager
                   (mkTransactionManager
                      [tx 1 (NInt (PInt 10)) "invoice ref-22";
                       tx 2 (NInt (PInt 20)) "payment";
                       tx 3 (NInt (PInt 30)) "REFUND"]) []) "REF") as [Hgen Href].
  pose proof (Href H (NInt (PInt 10)) (NInt (PInt 20)) (NInt (PInt 30)) []) as Hrun.
  split; [exact Hrun|].
  destruct Hgen as (g & Hg & _ & _ & _ & _ & _ & Hci).
  rewrite Hrun in Hg. injection Hg as <-.
  split.
  - split; [reflexivity|].
    apply (Hci H Hk (tx 1 (NInt (PInt 10)) "invoice ref-22") eq_refl). by left.
  - split; [reflexivity|]. intros Hocc.
    assert (In (tx 2 (NInt (PInt 20)) "payment")
              [tx 1 (NInt (PInt 10)) "invoice ref-22"; tx 3 (NInt (PInt 30)) "REFUND"])
      as [Hin|[Hin|[]]]; try discriminate Hin.
    apply (Hci H Hk (tx 2 (NInt (PInt 20)) "payment") eq_refl).
    split; [right; by left|exact Hocc].
Defined.

(** ** The audit log *)

Section Audit.
Context {lib : PyLib}.

(** A Transaction whose rendering succeeds is added and logged. *)
Lemma extended_add_ok (t : Transaction) (s : string)
    (st : state ExtendedTransactionManager) :
  Transaction__str__ t = Ok s ->
  ExtendedTransactionManager_add_transaction (VTransaction t) st
  = (Ok tt,
     mkState
       (mkWorld (files (env st)) (clock (env st)) (S (now_calls (env st))))
       (mkExtendedTransactionManager
          (mkTransactionManager (_transactions (super (obj st)) ++ [t]))
          (_history (obj st) ++ [(clock (env st) (now_calls (env st)), "ADD", s)]))).
Proof.
  intros Hs.
  unfold ExtendedTransactionManager_add_transaction, bind, on_obj, on_super,
    datetime_now, lift, modify.
  simpl. rewrite Hs. reflexivity.
Qed.

(** A Transaction whose rendering raises is added but not logged, and
    the call raises. *)
Lemma extended_add_render_fails (t : Transaction) (e : exn)
    (st : state ExtendedTransactionManager) :
  Transaction__str__ t = Raise e ->
  ExtendedTransactionManager_add_transaction (VTransaction t) st
  = (Raise e,
     mkState
       (mkWorld (files (env st)) (clock (env st)) (S (now_calls (env st))))
       (mkExtendedTransactionManager
          (mkTransactionManager (_transactions (super (obj st)) ++ [t]))
          (_history (obj st)))).
Proof.
  intros Hs.
  unfold ExtendedTransactionManager_add_transaction, bind, on_obj, on_super,
    datetime_now, lift, modify.
  simpl. rewrite Hs. reflexivity.
Qed.

Lemma extended_add_rejects (v : pyval) (st : state ExtendedTransactionManager) :
  isinstance_Transaction v = false ->
  ExtendedTransactionManager_add_transaction v st
  = (Raise (ValueError Msg.not_transaction), st).
Proof.
  intros Hv. destruct st as [w [base history]].
  destruct v; try discriminate; reflexivity.
Qed.

(** C3. On the audit-logging manager, an [add_transaction(t)] that returns
    has appended [t] to the collection and exactly one entry to the
    history, made of the time of the call, "ADD" and [str(t)]; it returns
    whenever [str(t)] can be rendered.  For an argument that is not a
    Transaction the call raises and leaves collection, history and world
    as they were. *)
Theorem C3_audited_add (v : pyval) (st : state ExtendedTransactionManager) :
  (forall t st',
     v = VTransaction t ->
     ExtendedTransactionManager_add_transaction v st = (Ok tt, st') ->
     exists s,
       Transaction__str__ t = Ok s /\
       _transactions (super (obj st')) = (_transactions (super (obj st)) ++ [t])%list /\
       _history (obj st')
       = (_history (obj st)
          ++ [(clock (env st) (now_calls (env st)), "ADD", s)])%list) /\
  (forall t s,
     v = VTransaction t ->
     Transaction__str__ t = Ok s ->
     exists st', ExtendedTransactionManager_add_transaction v st = (Ok tt, st')) /\
  (isinstance_Transaction v = false ->
   exists e, ExtendedTransactionManager_add_transaction v st = (Raise e, st)).
Proof.
  split; [|split].
  - intros t st' -> Hrun.
    destruct (Transaction__str__ t) as [s|e] eqn:Hs.
    + rewrite (extended_add_ok t s st Hs) in Hrun.
      injection Hrun as <-. exists s. auto.
    + rewrite (extended_add_render_fails t e st Hs) in Hrun. discriminate.
  - intros t s -> Hs. rewrite (extended_add_ok t s st Hs). eauto.
  - intros Hv. rewrite (extended_add_rejects v st Hv). eauto.
Qed.

End Audit.

(** ** Sorting *)

Section SortTheory.
Context {A K : Type} (key : A -> K) (lt : K -> K -> bool).

Local Abbreviation in_order := (in_order key lt).
Local Abbreviation equiv_key := (equiv_key lt).

(** The keys on which [<] behaves as a total preorder. *)
Variable good : K -> Prop.
Hypothesis lt_asym : forall a b, good a -> good b -> lt a b = true -> lt b a = false.
Hypothesis le_trans :
  forall a b c, good a -> good b -> good c ->
    lt b a = false -> lt c b = false -> lt c a = false.

Lemma lt_irrefl (a : K) : good a -> lt a a = false.
Proof.
  intros Ha. destruct (lt a a) eqn:E; [|reflexivity].
  rewrite <- E. by apply lt_asym.
Qed.

Lemma sort_insert_perm (x : A) (l : list A) : Permutation (sort_insert key lt x l) (x :: l).
Proof.
  induction l as [|y l IH]; simpl; [reflexivity|].
  destruct (lt (key y) (key x)); [|reflexivity].
  rewrite IH. apply perm_swap.
Qed.

Lemma list_sort_perm (l : list A) : Permutation (list_sort key lt l) l.
Proof.
  induction l as [|x l IH]; simpl; [reflexivity|].
  rewrite sort_insert_perm. by constructor.
Qed.

Lemma list_sort_Forall (P : A -> Prop) (l : list A) :
  Forall P l -> Forall P (list_sort key lt l).
Proof. intros H. by rewrite list_sort_perm. Qed.

Lemma sort_insert_sorted (x : A) (l : list A) :
  good (key x) -> Forall (fun y => good (key y)) l ->
  Sorted in_order l -> Sorted in_order (sort_insert key lt x l).
Proof.
  intros Hx Hl Hs. induction l as [|y l IH]; simpl.
  - repeat constructor.
  - inversion Hl as [|? ? Hy Hl']; subst. inversion Hs as [|? ? Hs' Hd]; subst.
    destruct (lt (key y) (key x)) eqn:E.
    + constructor; [by apply IH|].
      destruct l as [|z l]; simpl.
      * constructor. unfold in_order. by apply lt_asym.
      * destruct (lt (key z) (key x)).
        -- inversion Hd; subst. by constructor.
        -- constructor. unfold in_order. by apply lt_asym.
    + constructor; [by constructor|]. by constructor.
Qed.

Lemma list_sort_sorted (l : list A) :
  Forall (fun y => good (key y)) l -> Sorted in_order (list_sort key lt l).
Proof.
  induction 1 as [|x l Hx Hl IH]; simpl; [constructor|].
  apply sort_insert_sorted; [done| by apply list_sort_Forall |done].
Qed.

Lemma in_order_trans (x y z : A) :
  good (key x) -> good (key y) -> good (key z) ->
  in_order x y -> in_order y z -> in_order x z.
Proof. unfold in_order. intros. by apply (le_trans (key x) (key y) (key z)). Qed.

Lemma sorted_strongly (l : list A) :
  Forall (fun y => good (key y)) l -> Sorted in_order l -> StronglySorted in_order l.
Proof.
  intros Hl Hs. induction l as [|x l IH]; [constructor|].
  inversion Hl as [|? ? Hx Hl']; subst. inversion Hs as [|? ? Hs' Hd]; subst.
  specialize (IH Hl' Hs'). constructor; [done|].
  destruct l as [|y l]; [constructor|].
  inversion Hd; subst. inversion IH as [|? ? _ Hall]; subst.
  inversion Hl' as [|? ? Hy Hl'']; subst.
  constructor; [done|].
  rewrite List.Forall_forall in *. intros z Hz.
  apply (in_order_trans x y z); auto.
Qed.

(** A list in order is left as it is. *)
Lemma list_sort_id (l : list A) : Sorted in_order l -> list_sort key lt l = l.
Proof.
  induction 1 as [|x l Hs IH Hd]; simpl; [reflexivity|].
  rewrite IH. destruct Hd as [|y l Hxy]; simpl; [reflexivity|].
  unfold in_order in Hxy. by rewrite Hxy.
Qed.

Lemma list_sort_idempotent (l : list A) :
  Forall (fun y => good (key y)) l ->
  list_sort key lt (list_sort key lt l) = list_sort key lt l.
Proof. intros Hl. by apply list_sort_id, list_sort_sorted. Qed.

Lemma filter_sort_insert (P : A -> bool) (x : A) (l : list A) :
  (P x = true -> forall y, In y l -> lt (key y) (key x) = true -> P y = false) ->
  List.filter P (sort_insert key lt x l) = List.filter P (x :: l).
Proof.
  induction l as [|y l IH]; intros H; simpl; [reflexivity|].
  destruct (lt (key y) (key x)) eqn:E; [|reflexivity].
  simpl. rewrite IH by (intros Hx z Hz; apply H; [done|by right]).
  simpl. destruct (P x) eqn:Px; [|reflexivity].
  by rewrite (H eq_refl y (or_introl eq_refl) E).
Qed.

(** Stability: the elements of each class of equivalent keys keep their
    order. *)
Lemma list_sort_stable (k : K) (l : list A) :
  good k -> Forall (fun y => good (key y)) l ->
  List.filter (fun y => equiv_key k (key y)) (list_sort key lt l)
  = List.filter (fun y => equiv_key k (key y)) l.
Proof.
  intros Hk. induction 1 as [|x l Hx Hl IH]; [reflexivity|].
  simpl list_sort. rewrite filter_sort_insert.
  - simpl. by rewrite IH.
  - unfold equiv_key. intros Hkx y Hy Hyx.
    apply andb_true_iff in Hkx as [Hkx Hxk].
    apply negb_true_iff in Hkx, Hxk.
    assert (good (key y)) as Hgy.
    { assert (Forall (fun y => good (key y)) (list_sort key lt l)) as HF
        by (by apply list_sort_Forall).
      rewrite List.Forall_forall in HF. by apply HF. }
    destruct (lt k (key y)) eqn:E1; [reflexivity|].
    destruct (lt (key y) k) eqn:E2; [reflexivity|]. simpl.
    (* x <= k and k <= y give x <= y, against y < x *)
    pose proof (le_trans (key x) k (key y) Hx Hk Hgy Hkx E2) as Hc.
    congruence.
Qed.

Lemma equiv_key_refl (a : K) : good a -> equiv_key a a = true.
Proof. intros Ha. unfold equiv_key. by rewrite lt_irrefl. Qed.

(** Any list in order whose classes agree with those of [l] is the
    sorted list: a stable sort has only one possible result. *)
Lemma stable_sorted_unique (l1 l2 : list A) :
  Forall (fun y => good (key y)) l1 -> Forall (fun y => good (key y)) l2 ->
  Sorted in_order l1 -> Sorted in_order l2 ->
  (forall x, In x l1 \/ In x l2 ->
     List.filter (fun y => equiv_key (key x) (key y)) l1
     = List.filter (fun y => equiv_key (key x) (key y)) l2) ->
  l1 = l2.
Proof.
  intros H1 H2 S1 S2.
  apply sorted_strongly in S1; [|done]. apply sorted_strongly in S2; [|done].
  revert l2 H2 S2. induction l1 as [|x l1 IH]; intros l2 H2 S2 Hcl.
  - destruct l2 as [|y l2]; [reflexivity|].
    specialize (Hcl y (or_intror (or_introl eq_refl))). simpl in Hcl.
    inversion H2; subst.
    rewrite equiv_key_refl in Hcl by done. discriminate.
  - inversion H1 as [|? ? Hx H1']; subst.
    destruct l2 as [|y l2].
    { specialize (Hcl x (or_introl (or_introl eq_refl))). simpl in Hcl.
      rewrite equiv_key_refl in Hcl by done. discriminate. }
    inversion H2 as [|? ? Hy H2']; subst.
    inversion S1 as [|? ? S1' F1]; subst. inversion S2 as [|? ? S2' F2]; subst.
    assert (equiv_key (key x) (key y) = true) as Hxy.
    { unfold equiv_key. apply andb_true_iff. split; apply negb_true_iff.
      - (* x < y is impossible: x occurs in y :: l2, at or after y *)
        pose proof (Hcl x (or_introl (or_introl eq_refl))) as Hc.
        assert (In x (List.filter (fun z => equiv_key (key x) (key z)) (y :: l2))) as Hin.
        { rewrite <- Hc. simpl. rewrite equiv_key_refl by done. by left. }
        apply filter_In in Hin as [[->|Hin] _]; [by apply lt_irrefl|].
        rewrite List.Forall_forall in F2. apply (F2 x Hin).
      - (* y < x is impossible: y occurs in x :: l1, at or after x *)
        pose proof (Hcl y (or_intror (or_introl eq_refl))) as Hc.
        assert (In y (List.filter (fun z => equiv_key (key y) (key z)) (x :: l1))) as Hin.
        { rewrite Hc. simpl. rewrite equiv_key_refl by done. by left. }
        apply filter_In in Hin as [[->|Hin] _]; [by apply lt_irrefl|].
        rewrite List.Forall_forall in F1. apply (F1 y Hin). }
    assert (x = y) as ->.
    { pose proof (Hcl x (or_introl (or_introl eq_refl))) as Hc. simpl in Hc.
      rewrite Hxy, equiv_key_refl in Hc by done. congruence. }
    f_equal. apply IH; try done.
    intros z Hz.
    assert (In z (y :: l1) \/ In z (y :: l2)) as Hz'
      by (destruct Hz; [left|right]; by right).
    specialize (Hcl z Hz'). simpl in Hcl.
    destruct (equiv_key (key z) (key y)); congruence.
Qed.

(** Every list that a stable sort could return for [l] is [list_sort l]. *)
Lemma stable_sort_unique (l l' : list A) :
  Forall (fun y => good (key y)) l ->
  Permutation l' l ->
  Sorted in_order l' ->
  (forall k, good k ->
     List.filter (fun y => equiv_key k (key y)) l'
     = List.filter (fun y => equiv_key k (key y)) l) ->
  l' = list_sort key lt l.
Proof.
  intros Hl Hperm Hs Hst.
  assert (Forall (fun y => good (key y)) l') as Hl' by (by rewrite Hperm).
  apply stable_sorted_unique; try done.
  - by apply list_sort_Forall.
  - by apply list_sort_sorted.
  - intros x Hx.
    assert (good (key x)) as Hgx.
    { destruct Hx as [Hx|Hx].
      - rewrite List.Forall_forall in Hl'. by apply Hl'.
      - assert (Forall (fun y => good (key y)) (list_sort key lt l)) as HF
          by (by apply list_sort_Forall).
        rewrite List.Forall_forall in HF. by apply HF. }
    rewrite (Hst _ Hgx). symmetry. by apply list_sort_stable.
Qed.

End SortTheory.

(** *** The order of strings *)

Lemma ascii_compare_refl (a : ascii) : Ascii.compare a a = Eq.
Proof. apply N.compare_refl. Qed.

Lemma ascii_compare_lt_trans (a b c : ascii) :
  Ascii.compare a b = Lt -> Ascii.compare b c = Lt -> Ascii.compare a c = Lt.
Proof. unfold Ascii.compare. rewrite !N.compare_lt_iff. lia. Qed.

Lemma string_compare_refl (a : string) : String.compare a a = Eq.
Proof. induction a as [|c a IH]; simpl; [reflexivity|]. by rewrite ascii_compare_refl. Qed.

Lemma string_compare_lt_trans (a b c : string) :
  String.compare a b = Lt -> String.compare b c = Lt -> String.compare a c = Lt.
Proof.
  revert b c. induction a as [|x a IH]; intros [|y b] [|z c]; simpl;
    try discriminate; try reflexivity.
  destruct (Ascii.compare x y) eqn:Exy; try discriminate;
    destruct (Ascii.compare y z) eqn:Eyz; try discriminate; intros Hab Hbc.
  - apply Ascii.compare_eq_iff in Exy, Eyz. subst.
    rewrite ascii_compare_refl. by apply (IH b c).
  - apply Ascii.compare_eq_iff in Exy. subst. by rewrite Eyz.
  - apply Ascii.compare_eq_iff in Eyz. subst. by rewrite Exy.
  - by rewrite (ascii_compare_lt_trans x y z).
Qed.

Lemma string_ltb_asym (a b : string) : String.ltb a b = true -> String.ltb b a = false.
Proof.
  unfold String.ltb. rewrite (String.compare_antisym b a).
  destruct (String.compare a b); simpl; congruence.
Qed.

Lemma string_le_trans (a b c : string) :
  String.ltb b a = false -> String.ltb c b = false -> String.ltb c a = false.
Proof.
  unfold String.ltb.
  destruct (String.compare b a) eqn:Eba; try discriminate;
    destruct (String.compare c b) eqn:Ecb; try discriminate; intros _ _.
  - apply String.compare_eq_iff in Eba, Ecb. subst. by rewrite string_compare_refl.
  - apply String.compare_eq_iff in Eba. subst. by rewrite Ecb.
  - apply String.compare_eq_iff in Ecb. subst. by rewrite Eba.
  - rewrite String.compare_antisym in Eba, Ecb.
    assert (String.compare a b = Lt) as Hab by (by destruct (String.compare a b)).
    assert (String.compare b c = Lt) as Hbc by (by destruct (String.compare b c)).
    rewrite String.compare_antisym, (string_compare_lt_trans a b c Hab Hbc).
    reflexivity.
Qed.

(** [a <= b] on strings is the negation of [b < a]. *)
Lemma string_leb_ltb (a b : string) : String.leb a b = negb (String.ltb b a).
Proof.
  unfold String.leb, String.ltb. rewrite (String.compare_antisym b a).
  by destruct (String.compare a b).
Qed.

(** Equivalent strings are equal strings. *)
Lemma string_equiv_eqb (a b : string) : equiv_key String.ltb a b = String.eqb a b.
Proof.
  unfold equiv_key, String.ltb. rewrite (String.compare_antisym b a).
  destruct (String.eqb_spec a b) as [->|Hne].
  - by rewrite string_compare_refl.
  - destruct (String.compare a b) eqn:E; try reflexivity.
    apply String.compare_eq_iff in E. congruence.
Qed.

(** *** The order of numbers *)

Lemma Qle_bool_false (p q : Q) : Qle_bool p q = false <-> (q < p)%Q.
Proof.
  rewrite <- not_true_iff_false, Qle_bool_iff. split.
  - apply Qnot_le_lt.
  - apply Qlt_not_le.
Qed.

Lemma x_lt_asym (a b : xreal) : x_lt a b = true -> x_lt b a = false.
Proof.
  destruct a, b; simpl; try congruence.
  rewrite negb_true_iff, negb_false_iff, Qle_bool_false, Qle_bool_iff.
  apply Qlt_le_weak.
Qed.

Lemma x_le_trans (a b c : xreal) :
  a <> XNan -> b <> XNan -> c <> XNan ->
  x_lt b a = false -> x_lt c b = false -> x_lt c a = false.
Proof.
  destruct a, b, c; simpl; try congruence.
  rewrite !negb_false_iff, !Qle_bool_iff. intros _ _ _. apply Qle_trans.
Qed.

(** Without NaN, [a <= b] is the negation of [b < a]. *)
Lemma x_le_lt (a b : xreal) : a <> XNan -> b <> XNan -> x_le a b = negb (x_lt b a).
Proof.
  destruct a, b; simpl; intros Ha Hb; try congruence.
  by rewrite negb_involutive.
Qed.

(** Without NaN, equivalent numbers are [==] numbers. *)
Lemma x_equiv_eq (a b : xreal) :
  a <> XNan -> b <> XNan -> equiv_key x_lt a b = x_eq a b.
Proof.
  unfold equiv_key. destruct a, b; simpl; intros Ha Hb; try congruence.
  rewrite !negb_involutive. apply eq_true_iff_eq.
  rewrite andb_true_iff, !Qle_bool_iff, Qeq_bool_iff. split.
  - intros [H1 H2]. by apply Qle_antisym.
  - intros H. rewrite H. split; apply Qle_refl.
Qed.

Lemma not_nan_val (n : pynum) : not_nan n -> num_val n <> XNan.
Proof. unfold not_nan, is_nan. by destruct (num_val n). Qed.

Lemma Sorted_impl_in {A} (R R' : A -> A -> Prop) (l : list A) :
  (forall x y, In x l -> In y l -> R x y -> R' x y) ->
  Sorted R l -> Sorted R' l.
Proof.
  intros Himp Hs. induction Hs as [|x l Hs IH Hd]; [constructor|].
  constructor.
  - apply IH. intros a b Ha Hb. apply Himp; by right.
  - destruct Hd as [|y l Hxy]; constructor.
    apply Himp; [by left|right; by left|done].
Qed.

Lemma StronglySorted_impl_in {A} (R R' : A -> A -> Prop) (l : list A) :
  (forall x y, In x l -> In y l -> R x y -> R' x y) ->
  StronglySorted R l -> StronglySorted R' l.
Proof.
  intros Himp Hs. induction Hs as [|x l Hs IH Hall]; [constructor|].
  constructor.
  - apply IH. intros a b Ha Hb. apply Himp; by right.
  - rewrite List.Forall_forall in *. intros y Hy.
    apply Himp; [by left|by right|by apply Hall].
Qed.

(** *** The two sorts of the manager *)

(** What each sort promises of the list [ts'] it leaves for the list [ts]
    it found, for a key with its [<=] and [==]. *)
Lemma sort_by_description_spec (ts : list Transaction) :
  let ts' := list_sort description String.ltb ts in
  Permutation ts' ts /\
  ascending_by_description ts' /\
  StronglySorted (fun a b => String.leb (description a) (description b) = true) ts' /\
  (forall k, List.filter (fun t => String.eqb k (description t)) ts'
             = List.filter (fun t => String.eqb k (description t)) ts) /\
  list_sort description String.ltb ts' = ts'.
Proof.
  intros ts'.
  assert (Forall (fun t => (fun _ : string => True) (description t)) ts) as Hgood
    by (apply List.Forall_forall; auto).
  pose proof (list_sort_sorted description String.ltb (fun _ => True)
                (fun a b _ _ => string_ltb_asym a b) ts Hgood) as Hs.
  pose proof (sorted_strongly description String.ltb (fun _ => True)
                (fun a b c _ _ _ => string_le_trans a b c) ts'
                (list_sort_Forall description String.ltb _ ts Hgood) Hs) as Hss.
  split; [apply list_sort_perm|].
  split; [|split; [|split]].
  - eapply Sorted_impl_in; [|exact Hs].
    intros x y _ _ H. unfold in_order in H. by rewrite string_leb_ltb, H.
  - eapply StronglySorted_impl_in; [|exact Hss].
    intros x y _ _ H. unfold in_order in H. by rewrite string_leb_ltb, H.
  - intros k.
    pose proof (list_sort_stable description String.ltb (fun _ => True)
                  (fun a b c _ _ _ => string_le_trans a b c) k ts I Hgood) as Hst.
    assert (forall l,
              List.filter (fun t => String.eqb k (description t)) l
              = List.filter (fun t => equiv_key String.ltb k (description t)) l) as Hext
      by (intros l; apply filter_ext; intros t; symmetry; apply string_equiv_eqb).
    rewrite !Hext. exact Hst.
  - by apply list_sort_id.
Qed.

Lemma sort_by_amount_spec (ts : list Transaction) :
  Forall (fun t => not_nan (amount t)) ts ->
  let ts' := list_sort amount num_lt ts in
  Permutation ts' ts /\
  ascending_by_amount ts' /\
  StronglySorted (fun a b => num_le (amount a) (amount b) = true) ts' /\
  (forall k, List.filter (fun t => num_eq k (amount t)) ts'
             = List.filter (fun t => num_eq k (amount t)) ts) /\
  list_sort amount num_lt ts' = ts'.
Proof.
  intros Hgood ts'.
  assert (forall a b, not_nan a -> not_nan b -> num_lt a b = true -> num_lt b a = false)
    as Hasym by (intros a b _ _; apply x_lt_asym).
  assert (forall a b c, not_nan a -> not_nan b -> not_nan c ->
            num_lt b a = false -> num_lt c b = false -> num_lt c a = false) as Htrans
    by (intros a b c Ha Hb Hc; apply x_le_trans; by apply not_nan_val).
  assert (Forall (fun t => not_nan (amount t)) ts') as Hgood'
    by (by apply list_sort_Forall).
  pose proof (list_sort_sorted amount num_lt not_nan Hasym ts Hgood) as Hs.
  pose proof (sorted_strongly amount num_lt not_nan Htrans ts' Hgood' Hs) as Hss.
  assert (forall x y, In x ts' -> In y ts' ->
            in_order amount num_lt x y -> num_le (amount x) (amount y) = true) as Hle.
  { intros x y Hx Hy H. rewrite List.Forall_forall in Hgood'.
    unfold num_le. rewrite x_le_lt by (apply not_nan_val; auto).
    unfold in_order, num_lt in H. by rewrite H. }
  split; [apply list_sort_perm|].
  split; [|split; [|split]].
  - eapply Sorted_impl_in; [exact Hle|exact Hs].
  - eapply StronglySorted_impl_in; [exact Hle|exact Hss].
  - intros k. destruct (is_nan k) eqn:Hk.
    + (* NaN equals nothing *)
      assert (forall l, List.filter (fun t => num_eq k (amount t)) l = []) as Hnone.
      { intros l. apply filter_none. apply List.Forall_forall. intros t _.
        unfold num_eq, is_nan in *. by destruct (num_val k). }
      by rewrite !Hnone.
    + pose proof (list_sort_stable amount num_lt not_nan Htrans k ts Hk Hgood) as Hst.
      rewrite (filter_ext_in (fun t => num_eq k (amount t))
                 (fun t => equiv_key num_lt k (amount t)) ts'),
              (filter_ext_in (fun t => num_eq k (amount t))
                 (fun t => equiv_key num_lt k (amount t)) ts); [exact Hst| |].
      * intros t Ht. rewrite List.Forall_forall in Hgood. symmetry.
        apply x_equiv_eq; apply not_nan_val; auto.
      * intros t Ht. rewrite List.Forall_forall in Hgood'. symmetry.
        apply x_equiv_eq; apply not_nan_val; auto.
  - by apply list_sort_id.
Qed.

(** The claim as stated fails on a collection that holds NaN: the list
    [2.0, nan, 1.0] is left as it is, and is not ascending. *)
Lemma C5_counterexample :
  ~ (forall self : TransactionManager,
       ascending_by_amount (_transactions (snd (sort_by_amount self)))).
Proof.
  intros H. specialize (H (mkTransactionManager with_nan)).
  change (ascending_by_amount with_nan) in H.
  inversion H as [|? ? _ Hd]; subst. inversion Hd as [|? ? Hle]; subst.
  discriminate Hle.
Qed.

(** No order of the list [2.0, nan, 1.0] is ascending, whatever the sort
    does with it. *)
Lemma with_nan_never_ascending (l : list Transaction) :
  Permutation l with_nan -> ~ ascending_by_amount l.
Proof.
  intros Hperm Hasc.
  assert (In (tx 2 (NFloat S754_nan) "b") l) as Hin
    by (apply (Permutation_in _ (Permutation_sym Hperm)); right; by left).
  pose proof (Permutation_length Hperm) as Hlen.
  destruct l as [|a [|b [|c [|d l]]]]; try discriminate Hlen.
  inversion Hasc as [|? ? Hbc Hab]; subst.
  inversion Hbc as [|? ? _ Hbc']; subst.
  inversion Hab as [|? ? Hle1]; subst. inversion Hbc' as [|? ? Hle2]; subst.
  unfold num_le in Hle1, Hle2.
  destruct Hin as [Hx|[Hx|[Hx|[]]]]; subst; simpl in Hle1, Hle2.
  - discriminate Hle1.
  - destruct (num_val (amount a)); discriminate Hle1.
  - destruct (num_val (amount b)); discriminate Hle2.
Qed.

(** C5, amended. [sort_by_description] reorders every collection, and
    [sort_by_amount] every collection without a NaN amount, into a list
    that has the same elements, is non-decreasing by the key (between
    neighbours and between any earlier and later element), keeps the
    elements of equal key in their order, and is left unchanged by the
    same sort applied again. *)
Theorem C5_sorts (self : TransactionManager) :
  (exists self',
     sort_by_description self = (Ok tt, self') /\
     Permutation (_transactions self') (_transactions self) /\
     ascending_by_description (_transactions self') /\
     StronglySorted (fun a b => String.leb (description a) (description b) = true)
       (_transactions self') /\
     (forall k, List.filter (fun t => String.eqb k (description t)) (_transactions self')
                = List.filter (fun t => String.eqb k (description t))
                    (_transactions self)) /\
     sort_by_description self' = (Ok tt, self')) /\
  (Forall (fun t => not_nan (amount t)) (_transactions self) ->
   exists self',
     sort_by_amount self = (Ok tt, self') /\
     Permutation (_transactions self') (_transactions self) /\
     ascending_by_amount (_transactions self') /\
     StronglySorted (fun a b => num_le (amount a) (amount b) = true)
       (_transactions self') /\
     (forall k, List.filter (fun t => num_eq k (amount t)) (_transactions self')
                = List.filter (fun t => num_eq k (amount t)) (_transactions self)) /\
     sort_by_amount self' = (Ok tt, self')).
Proof.
  split.
  - destruct (sort_by_description_spec (_transactions self)) as (Hp & Ha & Hs & Hst & Hid).
    eexists. split; [reflexivity|]. simpl.
    repeat split; try done.
    unfold sort_by_description, modify. simpl. by rewrite Hid.
  - intros Hgood.
    destruct (sort_by_amount_spec (_transactions self) Hgood) as (Hp & Ha & Hs & Hst & Hid).
    eexists. split; [reflexivity|]. simpl.
    repeat split; try done.
    unfold sort_by_amount, modify. simpl. by rewrite Hid.
Qed.

(** C5 on the amounts [10, 2.5, 7]. *)
Lemma C5_witness :
  Forall (fun t => not_nan (amount t)) three_amounts /\
  exists self',
    sort_by_amount (mkTransactionManager three_amounts) = (Ok tt, self') /\
    ascending_by_amount (_transactions self') /\
    sort_by_amount self' = (Ok tt, self').
Proof.
  assert (Forall (fun t => not_nan (amount t)) three_amounts) as H
    by (repeat constructor).
  split; [exact H|].
  destruct (proj2 (C5_sorts (mkTransactionManager three_amounts)) H)
    as (self' & Hrun & _ & Hasc & _ & _ & Hagain).
  exists self'. auto.
Defined.

Example sort_by_amount_example :
  sort_by_amount (mkTransactionManager three_amounts)
  = (Ok tt, mkTransactionManager
              [tx 2 (NFloat float_2_5) "y"; tx 3 (NInt (PInt 7)) "z";
               tx 1 (NInt (PInt 10)) "x"]).
Proof. reflexivity. Qed.

(** ** Loading from storage *)

Section Loading.
Context {lib : PyLib}.

Lemma load_unfold {Self} `{TransactionCollection Self} (filename : string)
    (st : state Self) :
  load_from_csv filename st
  = match files (env st) !! filename with
    | None => (Raise (FileNotFoundError (Msg.not_found filename)), st)
    | Some text =>
        match for_each (rows_of text) load_row st with
        | (Raise e, st') => (Raise (reraised filename e), st')
        | (Ok u, st') => (Ok u, st')
        end
    end.
Proof.
  unfold load_from_csv, reraise_not_found, bind, open_read.
  destruct (files (env st) !! filename) as [text|]; [|reflexivity].
  change (for_each (DictReader (lines_of (universal_newlines text))) _ st)
    with (for_each (rows_of text) load_row st).
  destruct (for_each (rows_of text) load_row st) as [[u|e] st']; [reflexivity|].
  by destruct e.
Qed.

(** The loop over well-formed rows adds their transactions in order and
    goes on with what follows them. *)
Lemma for_each_well_formed {Self} `{TransactionCollection Self}
    (dicts : list (gmap string (option string))) (ts : list Transaction)
    (rest : list (result (gmap string (option string)))) (st st' : state Self) :
  well_formed_rows dicts ts ->
  add_all ts st = (Ok tt, st') ->
  for_each (map Ok dicts ++ rest) load_row st = for_each rest load_row st'.
Proof.
  intros Hwf. revert st. induction Hwf as [|d t dicts ts Hd Hwf IH]; intros st Hadd.
  - simpl in *. unfold ret in Hadd. by injection Hadd as ->.
  - simpl in *. unfold bind in *. unfold load_row at 1. unfold bind, lift.
    rewrite Hd.
    destruct (add_transaction (VTransaction t) st) as [[[]|e] st1]; [|discriminate].
    by apply IH.
Qed.

Lemma for_each_malformed {Self} `{TransactionCollection Self}
    (item : result (gmap string (option string))) (e : exn)
    (rest : list (result (gmap string (option string)))) (st : state Self) :
  malformed item e ->
  for_each (item :: rest) load_row st = (Raise e, st).
Proof.
  destruct item as [d|e']; simpl.
  - intros Hd. unfold bind, load_row, bind, lift. by rewrite Hd.
  - by intros ->.
Qed.

Lemma add_all_base (ts : list Transaction) (st : state TransactionManager) :
  add_all ts st = (Ok tt, appended ts st).
Proof.
  revert st. induction ts as [|t ts IH]; intros [w [l]]; simpl.
  - unfold ret, appended. simpl. by rewrite app_nil_r.
  - unfold bind. simpl. rewrite IH. unfold appended. simpl.
    by rewrite <- app_assoc.
Qed.

(** A loaded transaction has a float amount, so it can be rendered. *)
Lemma row_transaction_renders (d : gmap string (option string)) (t : Transaction) :
  row_transaction d = Ok t -> exists s, Transaction__str__ t = Ok s.
Proof.
  unfold row_transaction, bind_result.
  destruct (row_get d "№") as [c1|]; [|discriminate].
  destruct (py_int c1) as [i|]; [|discriminate].
  destruct (row_get d "дата и время") as [c2|]; [|discriminate].
  destruct (py_strptime c2) as [dt|]; [|discriminate].
  destruct (row_get d "сумма") as [c3|]; [|discriminate].
  destruct (py_float c3) as [f|]; [|discriminate].
  destruct (row_get d "описание транзакции") as [c4|]; [|discriminate].
  unfold Transaction_call.
  destruct (Transaction__init__ _ _ _ _ ∅) as [[[]|e] self] eqn:Hinit; [|discriminate].
  destruct (init_returns_typed _ _ _ _ _ Hinit) as (t' & -> & _ & _ & Hamt & _).
  intros [= <-]. destruct (amount t') as [a|a] eqn:Ea; [discriminate|].
  unfold Transaction__str__. rewrite Ea. simpl. eauto.
Qed.

Lemma well_formed_rows_render (dicts : list (gmap string (option string)))
    (ts : list Transaction) :
  well_formed_rows dicts ts ->
  exists rendered, Forall2 (fun t s => Transaction__str__ t = Ok s) ts rendered.
Proof.
  induction 1 as [|d t dicts ts Hd _ [rendered IH]].
  - exists []. constructor.
  - destruct (row_transaction_renders d t Hd) as [s Hs].
    exists (s :: rendered). by constructor.
Qed.

Lemma add_all_extended (ts : list Transaction) (rendered : list string)
    (st : state ExtendedTransactionManager) :
  Forall2 (fun t s => Transaction__str__ t = Ok s) ts rendered ->
  add_all ts st = (Ok tt, appended_logged ts rendered st).
Proof.
  intros Hr. revert st.
  induction Hr as [|t s ts rendered Hs _ IH]; intros [[fs clk n] [[l] h]].
  - unfold appended_logged. simpl. unfold ret.
    by rewrite !app_nil_r, Nat.add_0_r.
  - simpl. unfold bind.
    change (add_transaction (VTransaction t))
      with (ExtendedTransactionManager_add_transaction (VTransaction t)).
    rewrite (extended_add_ok t s _ Hs). simpl.
    rewrite IH. unfold appended_logged. simpl.
    by rewrite <- !app_assoc, Nat.add_succ_r.
Qed.

Lemma audit_entries_length (clk : nat -> datetime) (n : nat) (rendered : list string) :
  length (audit_entries clk n rendered) = length rendered.
Proof. revert n. induction rendered as [|s r IH]; intros n; simpl; auto. Qed.

Lemma audit_entries_lookup (clk : nat -> datetime) (n i : nat) (rendered : list string)
    (s : string) :
  rendered !! i = Some s ->
  audit_entries clk n rendered !! i = Some (clk (n + i)%nat, "ADD", s).
Proof.
  revert n i. induction rendered as [|s' r IH]; intros n i H; [done|].
  destruct i as [|i]; simpl in *.
  - injection H as ->. by rewrite Nat.add_0_r.
  - rewrite (IH (S n) i H). by rewrite Nat.add_succ_r.
Qed.

End Loading.

Section LoadingClaims.
Context {lib : PyLib}.

(** The kinds of malformed row: an id that is not an integer, a timestamp
    that does not parse, an amount that is not a number, a missing last
    field, a negative id.  Each raises at the row. *)
Lemma malformed_kinds (d : gmap string (option string)) :
  (forall s e, d !! "№" = Some (Some s) -> int_of_str s = Raise e ->
     malformed (Ok d) e) /\
  (forall s1 i s2 e,
     d !! "№" = Some (Some s1) -> int_of_str s1 = Ok i ->
     d !! "дата и время" = Some (Some s2) -> strptime s2 = Raise e ->
     malformed (Ok d) e) /\
  (forall s1 i s2 dt s3 e,
     d !! "№" = Some (Some s1) -> int_of_str s1 = Ok i ->
     d !! "дата и время" = Some (Some s2) -> strptime s2 = Ok dt ->
     d !! "сумма" = Some (Some s3) -> float_of_str s3 = Raise e ->
     malformed (Ok d) e) /\
  (forall s1 i s2 dt s3 f,
     d !! "№" = Some (Some s1) -> int_of_str s1 = Ok i -> 0 <= i ->
     d !! "дата и время" = Some (Some s2) -> strptime s2 = Ok dt ->
     d !! "сумма" = Some (Some s3) -> float_of_str s3 = Ok f ->
     d !! "описание транзакции" = Some None ->
     malformed (Ok d) (ValueError Msg.description)) /\
  (forall s1 i s2 dt s3 f c4,
     d !! "№" = Some (Some s1) -> int_of_str s1 = Ok i -> i < 0 ->
     d !! "дата и время" = Some (Some s2) -> strptime s2 = Ok dt ->
     d !! "сумма" = Some (Some s3) -> float_of_str s3 = Ok f ->
     d !! "описание транзакции" = Some c4 ->
     malformed (Ok d) (ValueError Msg.id)).
Proof.
  unfold malformed, row_transaction, row_get, bind_result.
  repeat split.
  - intros s e -> H. simpl. by rewrite H.
  - intros s1 i s2 e -> H1 -> H2. simpl. by rewrite H1, H2.
  - intros s1 i s2 dt s3 e -> H1 -> H2 -> H3. simpl. by rewrite H1, H2, H3.
  - intros s1 i s2 dt s3 f -> H1 Hi -> H2 -> H3 ->. simpl. rewrite H1, H2, H3.
    unfold Transaction_call, Transaction__init__, bind, Transaction__setattr__. simpl.
    assert ((i <? 0) = false) as -> by lia. reflexivity.
  - intros s1 i s2 dt s3 f c4 -> H1 Hi -> H2 -> H3 ->. simpl. rewrite H1, H2, H3.
    unfold Transaction_call, Transaction__init__, bind, Transaction__setattr__. simpl.
    assert ((i <? 0) = true) as -> by lia. reflexivity.
Qed.

(** A row with three fields reads [None] for the description. *)
Lemma short_row_description (a b c : string) :
  make_row fieldnames [a; b; c] !! "описание транзакции" = Some None.
Proof. reflexivity. Qed.

(** C4. Loading a file that does not exist raises [FileNotFoundError] with
    a message that holds the file name, and changes nothing.  Loading a
    file whose first malformed row comes after the well-formed rows
    [dicts] raises the error of that row and leaves exactly the
    transactions of [dicts] appended, in order. *)
Theorem C4_load_failures (filename : string) (st : state TransactionManager) :
  (files (env st) !! filename = None ->
   load_from_csv filename st
   = (Raise (FileNotFoundError (Msg.not_found filename)), st) /\
   exists pre post, Msg.not_found filename = pre +:+ filename +:+ post) /\
  (forall text dicts ts bad e rest,
     files (env st) !! filename = Some text ->
     rows_of text = (map Ok dicts ++ bad :: rest)%list ->
     well_formed_rows dicts ts ->
     malformed bad e ->
     load_from_csv filename st = (Raise (reraised filename e), appended ts st) /\
     length ts = length dicts).
Proof.
  split.
  - intros Hnone. rewrite load_unfold, Hnone. split; [reflexivity|].
    exists "Файл ", " не найден!". reflexivity.
  - intros text dicts ts bad e rest Hfile Hrows Hwf Hbad.
    rewrite load_unfold, Hfile, Hrows.
    rewrite (for_each_well_formed dicts ts _ st (appended ts st) Hwf (add_all_base ts st)).
    rewrite (for_each_malformed bad e rest _ Hbad).
    split; [reflexivity|]. symmetry. exact (Forall2_length _ _ _ Hwf).
Qed.

(** C10. On the audit-logging manager, loading a file of [N] well-formed
    rows returns, appends their transactions, and appends [N] history
    entries: the [i]-th is the time of the [i]-th call of the clock, "ADD"
    and the rendering of the transaction of row [i]. *)
Theorem C10_load_logs_each_row (filename : string)
    (st : state ExtendedTransactionManager)
    (text : string) (dicts : list (gmap string (option string)))
    (ts : list Transaction) :
  files (env st) !! filename = Some text ->
  rows_of text = map Ok dicts ->
  well_formed_rows dicts ts ->
  exists rendered,
    Forall2 (fun t s => Transaction__str__ t = Ok s) ts rendered /\
    load_from_csv filename st = (Ok tt, appended_logged ts rendered st) /\
    length (audit_entries (clock (env st)) (now_calls (env st)) rendered)
    = length dicts /\
    (forall i s, rendered !! i = Some s ->
       audit_entries (clock (env st)) (now_calls (env st)) rendered !! i
       = Some (clock (env st) (now_calls (env st) + i)%nat, "ADD", s)).
Proof.
  intros Hfile Hrows Hwf.
  destruct (well_formed_rows_render dicts ts Hwf) as [rendered Hr].
  exists rendered. split; [exact Hr|]. split; [|split].
  - rewrite load_unfold, Hfile, Hrows.
    rewrite <- (app_nil_r (map Ok dicts)).
    by rewrite (for_each_well_formed dicts ts [] st _ Hwf
                  (add_all_extended ts rendered st Hr)).
  - rewrite audit_entries_length.
    rewrite <- (Forall2_length _ _ _ Hr). symmetry. exact (Forall2_length _ _ _ Hwf).
  - intros i s. apply audit_entries_lookup.
Qed.

(** On the audit-logging manager the same load also leaves one history
    entry for each row before the malformed one. *)
Lemma load_failure_extended (filename : string)
    (st : state ExtendedTransactionManager)
    (text : string) (dicts : list (gmap string (option string)))
    (ts : list Transaction) (bad : result (gmap string (option string)))
    (e : exn) (rest : list (result (gmap string (option string)))) :
  files (env st) !! filename = Some text ->
  rows_of text = (map Ok dicts ++ bad :: rest)%list ->
  well_formed_rows dicts ts ->
  malformed bad e ->
  exists rendered,
    Forall2 (fun t s => Transaction__str__ t = Ok s) ts rendered /\
    load_from_csv filename st
    = (Raise (reraised filename e), appended_logged ts rendered st).
Proof.
  intros Hfile Hrows Hwf Hbad.
  destruct (well_formed_rows_render dicts ts Hwf) as [rendered Hr].
  exists rendered. split; [exact Hr|].
  rewrite load_unfold, Hfile, Hrows.
  rewrite (for_each_well_formed dicts ts _ st _ Hwf (add_all_extended ts rendered st Hr)).
  by rewrite (for_each_malformed bad e rest _ Hbad).
Qed.

(** A load that returns has met well-formed rows only. *)
Lemma load_returns_well_formed {Self} `{TransactionCollection Self}
    (filename : string) (st st' : state Self) :
  load_from_csv filename st = (Ok tt, st') ->
  exists text dicts ts,
    files (env st) !! filename = Some text /\
    rows_of text = map Ok dicts /\
    well_formed_rows dicts ts.
Proof.
  rewrite load_unfold.
  destruct (files (env st) !! filename) as [text|]; [|discriminate].
  intros Hrun. exists text.
  assert (exists u st1, for_each (rows_of text) load_row st = (Ok u, st1)) as (u & st1 & Hloop).
  { destruct (for_each (rows_of text) load_row st) as [[u|e] st1]; [eauto|discriminate]. }
  clear Hrun. revert st Hloop.
  induction (rows_of text) as [|item items IH]; intros st Hloop.
  - exists [], []. repeat split. constructor.
  - destruct item as [d|e]; [|discriminate].
    cbn [for_each] in Hloop. unfold bind in Hloop.
    unfold load_row at 1 in Hloop. unfold bind, lift in Hloop.
    destruct (row_transaction d) as [t|e] eqn:Hd; [|discriminate].
    destruct (add_transaction (VTransaction t) st) as [[[]|e] st2]; [|discriminate].
    destruct (IH st2 Hloop) as (dicts & ts & _ & -> & Hwf).
    exists (d :: dicts), (t :: ts). repeat split. by constructor.
Qed.

End LoadingClaims.

(** ** The reader reads back what the writer wrote *)

Lemma app_cons (c : ascii) (s t : string) : String c s +:+ t = String c (s +:+ t).
Proof. reflexivity. Qed.

Lemma app_assoc_str (a b c : string) : (a +:+ b) +:+ c = a +:+ (b +:+ c).
Proof. induction a as [|x a IH]; [reflexivity|]. by rewrite !app_cons, IH. Qed.

Lemma app_empty_r (a : string) : a +:+ "" = a.
Proof. induction a as [|x a IH]; [reflexivity|]. by rewrite app_cons, IH. Qed.

Lemma app_nonempty_r (a b : string) : b <> "" -> a +:+ b <> "".
Proof. destruct a; [done|]. intros _. discriminate. Qed.

Lemma lines_of_nonempty (s : string) : s <> "" -> lines_of s <> [].
Proof.
  destruct s as [|c s]; [done|]. intros _. simpl.
  destruct (Ascii.eqb c LF); [done|]. by destruct (lines_of s).
Qed.

Lemma reader_step_char (c : ascii) (rest : string) (p : parser) :
  Ascii.eqb c LF = false -> rest <> "" ->
  reader_rows (lines_of (String c rest)) p
  = match parse_process_char (Some c) p with
    | Ok p' => reader_rows (lines_of rest) p'
    | Raise e => [Raise e]
    end.
Proof.
  intros Hc Hrest. cbn [lines_of]. rewrite Hc.
  destruct (lines_of rest) as [|l more] eqn:E; [by apply lines_of_nonempty in Hrest|].
  cbn [reader_rows parse_line].
  by destruct (parse_process_char (Some c) p).
Qed.

Lemma reader_step_lf (rest : string) (p : parser) :
  reader_rows (lines_of (String LF rest)) p
  = match parse_process_char (Some LF) p with
    | Raise e => [Raise e]
    | Ok p1 =>
        match parse_process_char None p1 with
        | Raise e => [Raise e]
        | Ok p2 =>
            match pstate p2 with
            | START_RECORD => Ok (fields p2) :: reader_rows (lines_of rest) parse_reset
            | _ => reader_rows (lines_of rest) p2
            end
        end
    end.
Proof.
  cbn [lines_of]. change (Ascii.eqb LF LF) with true. cbn [reader_rows parse_line].
  destruct (parse_process_char (Some LF) p) as [p1|e]; [|reflexivity].
  by destruct (parse_process_char None p1).
Qed.

(** A character that the writer copies without quoting. *)
Lemma plain_char (c : ascii) :
  needs_quoting c = false ->
  Ascii.eqb c comma = false /\ Ascii.eqb c dquote = false /\
  Ascii.eqb c CR = false /\ Ascii.eqb c LF = false.
Proof.
  unfold needs_quoting. rewrite !orb_false_iff. tauto.
Qed.

Lemma in_field_plain (s : string) : forall (fs : list string) (f rest : string),
  any_char needs_quoting s = false -> rest <> "" ->
  reader_rows (lines_of (s +:+ rest)) (mkParser IN_FIELD fs f)
  = reader_rows (lines_of rest) (mkParser IN_FIELD fs (f +:+ s)).
Proof.
  induction s as [|c s IH]; intros fs f rest Hs Hrest.
  - by rewrite app_empty_r.
  - cbn [any_char] in Hs. apply orb_false_iff in Hs as [Hc Hs].
    destruct (plain_char c Hc) as (Hcomma & Hq & Hcr & Hlf).
    rewrite app_cons, reader_step_char by (auto using app_nonempty_r).
    unfold parse_process_char, is_newline. cbn [pstate]. rewrite Hlf, Hcr, Hcomma.
    cbn [orb]. unfold parse_add_char. cbn [pstate fields field].
    rewrite IH by done. by rewrite app_assoc_str.
Qed.

Lemma quoted_body (s : string) : forall (fs : list string) (f rest : string),
  rest <> "" ->
  reader_rows (lines_of (double_quotes s +:+ rest)) (mkParser IN_QUOTED_FIELD fs f)
  = reader_rows (lines_of rest) (mkParser IN_QUOTED_FIELD fs (f +:+ s)).
Proof.
  induction s as [|c s IH]; intros fs f rest Hrest.
  - by rewrite app_empty_r.
  - cbn [double_quotes].
    assert (forall t, (f +:+ String c "") +:+ t = f +:+ String c t) as Hassoc
      by (intros t; by rewrite app_assoc_str).
    destruct (Ascii.eqb c dquote) eqn:Hq.
    + apply Ascii.eqb_eq in Hq. subst c.
      rewrite !app_cons.
      rewrite reader_step_char by (done || discriminate).
      unfold parse_process_char at 1. cbn [pstate]. change (Ascii.eqb dquote dquote) with true.
      cbn [set_state pstate fields field].
      rewrite reader_step_char by (auto using app_nonempty_r).
      unfold parse_process_char at 1. cbn [pstate]. change (Ascii.eqb dquote dquote) with true.
      unfold set_state, parse_add_char. cbn [pstate fields field].
      rewrite IH by done. by rewrite Hassoc.
    + rewrite app_cons. destruct (Ascii.eqb c LF) eqn:Hlf.
      * apply Ascii.eqb_eq in Hlf. subst c. rewrite reader_step_lf.
        unfold parse_process_char. cbn [pstate]. change (Ascii.eqb LF dquote) with false.
        unfold parse_add_char. cbn [pstate fields field].
        rewrite IH by done. by rewrite Hassoc.
      * rewrite reader_step_char by (auto using app_nonempty_r).
        unfold parse_process_char. cbn [pstate]. rewrite Hq.
        unfold parse_add_char. cbn [pstate fields field].
        rewrite IH by done. by rewrite Hassoc.
Qed.

(** Side conditions of the steps: a character is not a line feed, the
    text that follows is not empty. *)
Ltac step_side :=
  first [ reflexivity | assumption | discriminate
        | apply app_nonempty_r; first [assumption | discriminate] ].

Lemma start_quote (st : parser_state) (fs : list string) :
  is_start st ->
  parse_process_char (Some dquote) (mkParser st fs "") = Ok (mkParser IN_QUOTED_FIELD fs "").
Proof. intros [->| ->]; reflexivity. Qed.

Lemma start_comma (st : parser_state) (fs : list string) :
  is_start st ->
  parse_process_char (Some comma) (mkParser st fs "")
  = Ok (mkParser START_FIELD (fs ++ [""]) "").
Proof. intros [->| ->]; reflexivity. Qed.

Lemma start_plain (st : parser_state) (fs : list string) (c : ascii) :
  is_start st -> needs_quoting c = false ->
  parse_process_char (Some c) (mkParser st fs "")
  = Ok (mkParser IN_FIELD fs (String c "")).
Proof.
  intros Hst Hc. destruct (plain_char c Hc) as (Hcomma & Hq & Hcr & Hlf).
  destruct Hst as [->| ->]; unfold parse_process_char, is_newline; cbn [pstate];
    rewrite Hlf, Hcr, Hq, Hcomma; reflexivity.
Qed.

(** A cell that a comma follows. *)
Lemma cell_then_comma (cell : string) (st : parser_state) (fs : list string)
    (rest : string) :
  is_start st -> rest <> "" ->
  reader_rows (lines_of (write_field cell +:+ String comma rest)) (mkParser st fs "")
  = reader_rows (lines_of rest) (mkParser START_FIELD (fs ++ [cell]) "").
Proof.
  intros Hst Hrest. unfold write_field.
  destruct (any_char needs_quoting cell) eqn:Hq.
  - rewrite app_assoc_str, app_cons.
    rewrite reader_step_char by step_side.
    rewrite (start_quote st fs Hst). cbv beta iota.
    rewrite quoted_body by step_side.
    rewrite app_cons. change ("" +:+ String comma rest) with (String comma rest).
    rewrite reader_step_char by step_side.
    change (parse_process_char (Some dquote) (mkParser IN_QUOTED_FIELD fs ("" +:+ cell)))
      with (Ok (mkParser QUOTE_IN_QUOTED_FIELD fs cell)).
    cbv beta iota.
    rewrite reader_step_char by step_side.
    reflexivity.
  - destruct cell as [|c s].
    + change ("" +:+ String comma rest) with (String comma rest).
      rewrite reader_step_char by step_side. by rewrite (start_comma st fs Hst).
    + cbn [any_char] in Hq. apply orb_false_iff in Hq as [Hc Hs].
      destruct (plain_char c Hc) as (_ & _ & _ & Hlf).
      rewrite app_cons, reader_step_char by step_side.
      rewrite (start_plain st fs c Hst Hc). cbv beta iota.
      rewrite in_field_plain by step_side.
      rewrite reader_step_char by step_side.
      reflexivity.
Qed.

(** The last cell of a row, which the line end follows. *)
Lemma cell_then_lf (cell : string) (fs : list string) (rest : string) :
  reader_rows (lines_of (write_field cell +:+ String LF rest))
    (mkParser START_FIELD fs "")
  = Ok (fs ++ [cell])%list :: reader_rows (lines_of rest) parse_reset.
Proof.
  unfold write_field.
  destruct (any_char needs_quoting cell) eqn:Hq.
  - rewrite app_assoc_str, app_cons.
    rewrite reader_step_char by step_side.
    rewrite (start_quote START_FIELD fs) by (by right). cbv beta iota.
    rewrite quoted_body by step_side.
    rewrite app_cons. change ("" +:+ String LF rest) with (String LF rest).
    rewrite reader_step_char by step_side.
    change (parse_process_char (Some dquote) (mkParser IN_QUOTED_FIELD fs ("" +:+ cell)))
      with (Ok (mkParser QUOTE_IN_QUOTED_FIELD fs cell)).
    cbv beta iota.
    rewrite reader_step_lf. reflexivity.
  - destruct cell as [|c s].
    + change ("" +:+ String LF rest) with (String LF rest).
      rewrite reader_step_lf. reflexivity.
    + cbn [any_char] in Hq. apply orb_false_iff in Hq as [Hc Hs].
      destruct (plain_char c Hc) as (_ & _ & _ & Hlf).
      rewrite app_cons, reader_step_char by step_side.
      rewrite (start_plain START_FIELD fs c) by (done || by right). cbv beta iota.
      rewrite in_field_plain by step_side.
      rewrite reader_step_lf. reflexivity.
Qed.

(** A row of cells, from its first cell or after one of its commas. *)
Lemma row_read_back (cells : list string) : forall (st : parser_state)
    (fs : list string) (rest : string),
  st = START_FIELD \/ (st = START_RECORD /\ (2 <= length cells)%nat) ->
  cells <> [] ->
  reader_rows (lines_of (join_fields cells +:+ String LF rest)) (mkParser st fs "")
  = Ok (fs ++ cells)%list :: reader_rows (lines_of rest) parse_reset.
Proof.
  induction cells as [|c cells IH]; intros st fs rest Hst Hne; [done|].
  destruct cells as [|c' cells].
  - destruct Hst as [->|[_ Hlen]]; [|simpl in Hlen; lia].
    cbn [join_fields]. apply cell_then_lf.
  - change (join_fields (c :: c' :: cells))
      with (write_field c +:+ String comma "" +:+ join_fields (c' :: cells)).
    rewrite !app_assoc_str.
    change (String comma "" +:+ join_fields (c' :: cells) +:+ String LF rest)
      with (String comma (join_fields (c' :: cells) +:+ String LF rest)).
    rewrite cell_then_comma.
    + rewrite IH by (auto || done). by rewrite <- app_assoc.
    + destruct Hst as [->|[-> _]]; [by right|by left].
    + apply app_nonempty_r. discriminate.
Qed.

(** *** Text without carriage returns passes the newline translation *)

Lemma no_cr_app (a b : string) : no_cr (a +:+ b) = no_cr a && no_cr b.
Proof.
  unfold no_cr. induction a as [|c a IH]; [reflexivity|].
  rewrite app_cons. cbn [any_char]. rewrite !negb_orb, IH. by rewrite andb_assoc.
Qed.

Lemma no_cr_double_quotes (s : string) : no_cr (double_quotes s) = no_cr s.
Proof.
  unfold no_cr. induction s as [|c s IH]; [reflexivity|].
  cbn [double_quotes]. destruct (Ascii.eqb c dquote) eqn:Hq.
  - apply Ascii.eqb_eq in Hq. subst c. cbn [any_char].
    change (Ascii.eqb dquote CR) with false. cbn [orb]. exact IH.
  - cbn [any_char]. rewrite !negb_orb. by rewrite IH.
Qed.

Lemma no_cr_write_field (s : string) : no_cr (write_field s) = no_cr s.
Proof.
  unfold write_field. destruct (any_char needs_quoting s); [|reflexivity].
  change (String dquote (double_quotes s) +:+ String dquote "")
    with (String dquote "" +:+ double_quotes s +:+ String dquote "").
  rewrite !no_cr_app, no_cr_double_quotes.
  change (no_cr (String dquote "")) with true. by rewrite andb_true_r.
Qed.

Lemma no_cr_join_fields (cells : list string) :
  Forall (fun c => no_cr c = true) cells -> no_cr (join_fields cells) = true.
Proof.
  induction 1 as [|c cells Hc Hcells IH]; [reflexivity|].
  destruct cells as [|c' cells].
  - cbn [join_fields]. by rewrite no_cr_write_field.
  - change (join_fields (c :: c' :: cells))
      with (write_field c +:+ String comma "" +:+ join_fields (c' :: cells)).
    rewrite !no_cr_app, no_cr_write_field, Hc, IH. reflexivity.
Qed.

Lemma universal_newlines_no_cr (s t : string) :
  no_cr s = true -> universal_newlines (s +:+ t) = s +:+ universal_newlines t.
Proof.
  unfold no_cr. induction s as [|c s IH]; intros Hs; [reflexivity|].
  cbn [any_char] in Hs. rewrite negb_orb in Hs. apply andb_true_iff in Hs as [Hc Hs].
  apply negb_true_iff in Hc.
  rewrite !app_cons. cbn [universal_newlines]. rewrite Hc. by rewrite IH.
Qed.

(** A row of at least two cells without carriage returns is written as
    its fields and a line end, and reaches the reader with ["\n"] for the
    line end. *)
Lemma written_row_translated (cells : list string) (rest : string) :
  (2 <= length cells)%nat ->
  Forall (fun c => no_cr c = true) cells ->
  universal_newlines (writerow cells +:+ rest)
  = join_fields cells +:+ String LF (universal_newlines rest).
Proof.
  intros Hlen Hcells.
  assert (writerow cells = join_fields cells +:+ String CR (String LF "")) as ->.
  { unfold writerow. destruct cells as [|c [|c' cells]]; simpl in Hlen; try lia.
    by destruct c. }
  rewrite app_assoc_str, universal_newlines_no_cr by (by apply no_cr_join_fields).
  reflexivity.
Qed.

(** The text of a file: its rows, one after the other. *)
Lemma concat_rows (rows : list string) :
  String.concat "" rows = foldr String.append "" rows.
Proof.
  induction rows as [|r rows IH]; [reflexivity|].
  cbn [foldr]. rewrite <- IH.
  destruct rows as [|r' rows]; [by rewrite app_empty_r|reflexivity].
Qed.

(** The reader gives back the rows that the writer wrote, when no cell
    holds a carriage return. *)
Lemma csv_read_back (rows : list (list string)) :
  Forall (fun cells => (2 <= length cells)%nat /\ Forall (fun c => no_cr c = true) cells)
    rows ->
  csv_reader (lines_of (universal_newlines (String.concat "" (map writerow rows))))
  = map Ok rows.
Proof.
  rewrite concat_rows. unfold csv_reader.
  induction 1 as [|cells rows [Hlen Hcells] _ IH]; [reflexivity|].
  cbn [map foldr]. rewrite written_row_translated by done.
  change parse_reset with (mkParser START_RECORD [] "") at 1.
  rewrite row_read_back.
  - by rewrite IH.
  - right. by split.
  - destruct cells; [simpl in Hlen; lia|done].
Qed.

(** *** Saving, then loading into a new manager *)

Lemma pretty_N_go_no_cr (x : N) (s : string) :
  no_cr s = true -> no_cr (pretty_N_go x s) = true.
Proof.
  revert s. induction (N.lt_wf_0 x) as [x _ IH]; intros s Hs.
  assert (x = 0 \/ 0 < x)%N as [->|Hx] by lia.
  - by rewrite pretty_N_go_0.
  - rewrite pretty_N_go_step by done. apply IH; [by apply N.div_lt|].
    unfold no_cr in *. cbn [any_char]. rewrite negb_orb, Hs, andb_true_r.
    unfold pretty_N_char. by repeat case_match.
Qed.

Lemma str_int_no_cr (i : pyint) : no_cr (str_int i) = true.
Proof.
  destruct i as [[]|z]; try reflexivity.
  unfold str_int, pretty, pretty_Z.
  destruct z as [|p|p]; try reflexivity.
  - unfold pretty, pretty_positive, pretty, pretty_N.
    case_decide; [reflexivity|]. by apply pretty_N_go_no_cr.
  - change ("-" +:+ pretty p) with (String "-" (pretty p)).
    unfold no_cr. cbn [any_char]. change (Ascii.eqb "-" CR) with false. cbn [orb].
    unfold pretty, pretty_positive, pretty, pretty_N.
    case_decide; [reflexivity|]. by apply pretty_N_go_no_cr.
Qed.

Lemma dict_rows_nonempty (names : list string) (rows : list (list string)) :
  Forall (fun cells => cells <> []) rows ->
  dict_rows names (map Ok rows) = map (fun cells => Ok (make_row names cells)) rows.
Proof.
  induction 1 as [|cells rows Hne _ IH]; [reflexivity|].
  cbn [map dict_rows]. destruct cells; [done|]. by rewrite IH.
Qed.

Section RoundTrip.
Context {lib : PyLib}.

Lemma save_run (filename : string) (st : state TransactionManager) :
  save_to_csv filename st
  = (Ok tt,
     mkState (mkWorld (<[filename := saved_text (_transactions (obj st))]> (files (env st)))
                (clock (env st)) (now_calls (env st)))
             (obj st)).
Proof. reflexivity. Qed.

(** The rows of a saved file are the rows that were written. *)
Lemma saved_rows (ts : list Transaction) :
  Forall cr_free ts ->
  rows_of (saved_text ts)
  = map (fun t => Ok (make_row fieldnames (row_cells t))) ts.
Proof.
  intros Hts. unfold rows_of, saved_text, DictReader.
  assert (writerow fieldnames +:+ String.concat "" (map (fun t => writerow (row_cells t)) ts)
          = String.concat "" (map writerow (fieldnames :: map row_cells ts))) as ->.
  { rewrite !concat_rows. cbn [map foldr]. by rewrite map_map. }
  rewrite csv_read_back.
  - cbn [map]. rewrite dict_rows_nonempty.
    + by rewrite map_map.
    + apply List.Forall_forall. intros cells Hin.
      apply in_map_iff in Hin as (t & <- & _). discriminate.
  - constructor.
    + split; [simpl; lia|]. repeat constructor.
    + apply List.Forall_forall. intros cells Hin.
      apply in_map_iff in Hin as (t & <- & Ht).
      rewrite List.Forall_forall in Hts. destruct (Hts t Ht) as (H1 & H2 & H3).
      split; [simpl; lia|].
      unfold row_cells. repeat constructor; auto using str_int_no_cr.
Qed.

(** Saving and loading back hands every written row to the constructor. *)
Lemma save_then_load_rows (filename : string) (ts ts' : list Transaction) (w : world) :
  Forall cr_free ts ->
  Forall2 (fun t t' => row_transaction (make_row fieldnames (row_cells t)) = Ok t') ts ts' ->
  save_then_load filename ts w = Ok ts'.
Proof.
  intros Hcr Hrows. unfold save_then_load. rewrite save_run. cbn [env obj _transactions].
  unfold from_csv. rewrite load_unfold. cbn [env files].
  rewrite lookup_insert_eq, (saved_rows ts Hcr).
  rewrite <- (map_map (fun t => make_row fieldnames (row_cells t)) Ok).
  rewrite <- (app_nil_r (map Ok _)).
  erewrite for_each_well_formed; [| |apply add_all_base].
  - reflexivity.
  - unfold well_formed_rows. by apply Forall2_fmap_l.
Qed.

Lemma row_reads_back (t : Transaction) :
  cells_read_back t ->
  exists t', row_transaction (make_row fieldnames (row_cells t)) = Ok t' /\
             same_record t t'.
Proof.
  intros (Hid & Hint & (d & Hd & Hy & Hmo & Hda & Hh & Hmi & Hs) & (f & Hf & Hfmt)).
  exists (mkTransaction (PInt (int_value (t_id t))) d (NFloat f) (description t)).
  split.
  - change (row_transaction (make_row fieldnames (row_cells t)))
      with (id <-- int_of_str (str_int (t_id t)) ;;
            date_time <-- strptime (strftime (date_time t)) ;;
            amount <-- float_of_str (str_num (amount t)) ;;
            Transaction_call (VInt (PInt id)) (VDatetime date_time) (VFloat amount)
              (VStr (description t))).
    rewrite Hint, Hd, Hf. cbn [bind_result].
    unfold Transaction_call, Transaction__init__, bind, Transaction__setattr__.
    simpl. assert ((int_value (t_id t) <? 0) = false) as -> by lia. reflexivity.
  - unfold same_record. cbn [t_id date_time amount description int_value].
    rewrite Hfmt. repeat split; congruence.
Qed.

(** Saving a collection and loading it back returns as many transactions,
    in the same order, each the same record as the one saved, whenever no
    written cell holds a carriage return and the library reads back the
    cells it rendered. *)
Theorem round_trip_without_carriage_return (filename : string)
    (ts : list Transaction) (w : world) :
  Forall cr_free ts ->
  Forall cells_read_back ts ->
  exists ts', save_then_load filename ts w = Ok ts' /\ Forall2 same_record ts ts'.
Proof.
  intros Hcr Hback.
  assert (exists ts',
            Forall2 (fun t t' =>
                       row_transaction (make_row fieldnames (row_cells t)) = Ok t') ts ts'
            /\ Forall2 same_record ts ts') as (ts' & Hrows & Hsame).
  { clear Hcr. induction Hback as [|t ts Ht _ (ts' & Hrows & Hsame)].
    - exists []. split; constructor.
    - destruct (row_reads_back t Ht) as (t' & Hrow & Hrec).
      exists (t' :: ts'). split; by constructor. }
  exists ts'. split; [|exact Hsame].
  by apply save_then_load_rows.
Qed.

End RoundTrip.

(** The theorem at three records, with the library on ASCII text. *)
Lemma round_trip_example :
  exists ts',
    save_then_load (lib := cpython_ascii) "out.csv" [coffee; books; note_lf] example_world
    = Ok ts' /\
    Forall2 same_record [coffee; books; note_lf] ts'.
Proof.
  apply (round_trip_without_carriage_return (lib := cpython_ascii)).
  - repeat constructor.
  - repeat constructor; try (vm_compute; congruence);
      eexists; (split; [vm_compute; reflexivity|]); repeat split.
Qed.

(** ** Saving and loading back *)

(** C2 at a failing input.  A transaction whose description holds a
    carriage return is saved and loaded back with a line feed in its
    place: the file is written with [newline=''] and read without it, so
    the reader is handed the translated text.  One transaction comes back,
    and it is not the one that was saved. *)
Theorem C2_carriage_return_not_preserved :
  save_then_load (lib := cpython_ascii) "out.csv" [note_cr] example_world
  = Ok [note_lf] /\
  ~ Forall2 same_record [note_cr] [note_lf].
Proof.
  split; [vm_compute; reflexivity|].
  intros H. inversion H as [|? ? ? ? (_ & _ & Hd & _) _]; subst.
  discriminate Hd.
Qed.

(** Without a carriage return the same record comes back. *)
Example save_then_load_example :
  save_then_load (lib := cpython_ascii) "out.csv" [coffee; books; note_lf] example_world
  = Ok [coffee; books; note_lf].
Proof. vm_compute. reflexivity. Qed.

(** A [bool] passes the validation of the id, is written as its name, and
    stops the load. *)
Example save_then_load_bool_id :
  Transaction_call (VInt (PBool true)) (VDatetime example_time) (VFloat float_5) (VStr "x")
  = Ok (mkTransaction (PBool true) example_time (NFloat float_5) "x") /\
  save_then_load (lib := cpython_ascii) "out.csv"
    [mkTransaction (PBool true) example_time (NFloat float_5) "x"] example_world
  = Raise (ValueError "invalid literal for int() with base 10").
Proof. split; vm_compute; reflexivity. Qed.

(** ** The claims at concrete inputs, with the library on ASCII text *)

Section Concrete.
#[local] Existing Instance cpython_ascii.

(** C3 at the transaction [coffee] and a new manager. *)
Lemma C3_witness :
  Transaction__str__ coffee = Ok "№1 | 2024-03-01 14:30:00 | 5.00 | coffee" /\
  exists st',
    ExtendedTransactionManager_add_transaction (lib := cpython_ascii)
      (VTransaction coffee) extended_start = (Ok tt, st') /\
    _transactions (super (obj st')) = [coffee] /\
    _history (obj st')
    = [(example_clock 0, "ADD", "№1 | 2024-03-01 14:30:00 | 5.00 | coffee")].
Proof.
  assert (Transaction__str__ coffee = Ok "№1 | 2024-03-01 14:30:00 | 5.00 | coffee")
    as Hs by (vm_compute; reflexivity).
  split; [exact Hs|].
  destruct (C3_audited_add (lib := cpython_ascii) (VTransaction coffee) extended_start)
    as (Hlogged & Hreturns & _).
  destruct (Hreturns coffee _ eq_refl Hs) as [st' Hrun].
  destruct (Hlogged coffee st' eq_refl Hrun) as (s & Hs' & Hts & Hh).
  exists st'. split; [exact Hrun|]. split; [exact Hts|].
  rewrite Hh. rewrite Hs in Hs'. injection Hs' as <-. reflexivity.
Defined.

(** C4 at a missing file, and at the file whose third row has the id [x]. *)
Lemma C4_witness :
  (files (env base_start) !! "none.csv" = None /\
   load_from_csv (lib := cpython_ascii) "none.csv" base_start
   = (Raise (FileNotFoundError (Msg.not_found "none.csv")), base_start)) /\
  (files (env base_start) !! "bad.csv" = Some bad_file /\
   rows_of bad_file
   = (map Ok [make_row fieldnames coffee_row; make_row fieldnames books_row]
      ++ Ok (make_row fieldnames tea_row) :: [Ok (make_row fieldnames milk_row)])%list /\
   well_formed_rows (lib := cpython_ascii)
     [make_row fieldnames coffee_row; make_row fieldnames books_row] [coffee; books] /\
   malformed (lib := cpython_ascii) (Ok (make_row fieldnames tea_row)) bad_int /\
   load_from_csv (lib := cpython_ascii) "bad.csv" base_start
   = (Raise bad_int, appended [coffee; books] base_start)).
Proof.
  destruct (C4_load_failures (lib := cpython_ascii) "none.csv" base_start)
    as [Hmissing _].
  destruct (C4_load_failures (lib := cpython_ascii) "bad.csv" base_start)
    as [_ Hbad].
  assert (files (env base_start) !! "none.csv" = None) as H0 by reflexivity.
  assert (files (env base_start) !! "bad.csv" = Some bad_file) as H1 by reflexivity.
  assert (rows_of bad_file
          = (map Ok [make_row fieldnames coffee_row; make_row fieldnames books_row]
             ++ Ok (make_row fieldnames tea_row)
                :: [Ok (make_row fieldnames milk_row)])%list) as H2
    by (vm_compute; reflexivity).
  assert (well_formed_rows (lib := cpython_ascii)
            [make_row fieldnames coffee_row; make_row fieldnames books_row]
            [coffee; books]) as H3 by (repeat constructor).
  assert (malformed (lib := cpython_ascii) (Ok (make_row fieldnames tea_row)) bad_int)
    as H4 by reflexivity.
  split.
  - split; [exact H0|]. exact (proj1 (Hmissing H0)).
  - repeat (split; [assumption|]).
    exact (proj1 (Hbad _ _ _ _ _ _ H1 H2 H3 H4)).
Defined.

(** C10 at the file of two well-formed rows and a new manager. *)
Lemma C10_witness :
  files (env extended_start) !! "data.csv" = Some good_file /\
  rows_of good_file
  = map Ok [make_row fieldnames coffee_row; make_row fieldnames books_row] /\
  well_formed_rows (lib := cpython_ascii)
    [make_row fieldnames coffee_row; make_row fieldnames books_row] [coffee; books] /\
  exists rendered,
    Forall2 (fun t s => Transaction__str__ t = Ok s) [coffee; books] rendered /\
    load_from_csv (lib := cpython_ascii) "data.csv" extended_start
    = (Ok tt, appended_logged [coffee; books] rendered extended_start) /\
    length (audit_entries example_clock 0 rendered) = 2%nat.
Proof.
  assert (files (env extended_start) !! "data.csv" = Some good_file) as H1
    by reflexivity.
  assert (rows_of good_file
          = map Ok [make_row fieldnames coffee_row; make_row fieldnames books_row])
    as H2 by (vm_compute; reflexivity).
  assert (well_formed_rows (lib := cpython_ascii)
            [make_row fieldnames coffee_row; make_row fieldnames books_row]
            [coffee; books]) as H3 by (repeat constructor).
  repeat (split; [assumption|]).
  destruct (C10_load_logs_each_row (lib := cpython_ascii) "data.csv" extended_start
              good_file _ _ H1 H2 H3) as (rendered & Hr & Hrun & Hlen & _).
  exists rendered. auto.
Defined.

Example load_logs_example :
  load_from_csv (lib := cpython_ascii) "data.csv" extended_start
  = (Ok tt,
     mkState (mkWorld (files example_world) example_clock 2)
       (mkExtendedTransactionManager
          (mkTransactionManager [coffee; books])
          [(example_clock 0, "ADD", "№1 | 2024-03-01 14:30:00 | 5.00 | coffee");
           (example_clock 1, "ADD", "№2 | 2024-03-02 09:00:00 | 12.50 | books")])).
Proof. vm_compute. reflexivity. Qed.

End Concrete.

(** * Further properties of the program *)

(** ** Instances under assignment *)

Lemma init_returns_valid (id dt amt desc : pyval) (self : gmap string pyval) :
  Transaction__init__ id dt amt desc ∅ = (Ok tt, self) -> valid_instance self.
Proof.
  unfold Transaction__init__, bind, Transaction__setattr__, raise, modify.
  simpl.
  destruct id; simpl; try discriminate.
  destruct (int_value i <? 0) eqn:Hi; simpl; try discriminate.
  destruct dt; simpl; try discriminate.
  destruct amt as [| a | a | | | |]; simpl; try discriminate;
    destruct desc; simpl; try discriminate;
    intros [= Hs]; subst self; intros f; destruct f; eexists;
    (split; [by simplify_map_eq|]); simpl; try reflexivity; lia.
Qed.

Lemma setattr_other_name (name : string) (value : pyval) (self : gmap string pyval) :
  (forall f, name <> field_name f) ->
  Transaction__setattr__ name value self = (Ok tt, <[name := value]> self).
Proof.
  intros Hne. unfold Transaction__setattr__.
  pose proof (Hne Fid) as H1. pose proof (Hne Fdate_time) as H2.
  pose proof (Hne Famount) as H3. pose proof (Hne Fdescription) as H4.
  simpl in H1, H2, H3, H4.
  apply String.eqb_neq in H1, H2, H3, H4.
  rewrite H1, H2, H3, H4. reflexivity.
Qed.

Lemma insert_keeps_valid (name : string) (value : pyval) (self : gmap string pyval) :
  valid_instance self ->
  (forall f, name = field_name f -> field_valid f value = true) ->
  valid_instance (<[name := value]> self).
Proof.
  intros Hv Hname g.
  destruct (decide (name = field_name g)) as [->|Hne].
  - exists value. rewrite lookup_insert_eq. split; [reflexivity|]. by apply Hname.
  - destruct (Hv g) as (v & Hl & Hok). exists v.
    by rewrite lookup_insert_ne.
Qed.

Lemma setattr_keeps_valid (name : string) (value : pyval) (self : gmap string pyval) :
  valid_instance self ->
  valid_instance (snd (Transaction__setattr__ name value self)).
Proof.
  intros Hv.
  assert ((exists f, name = field_name f) \/ (forall f, name <> field_name f)) as [[f ->]|Hne].
  { destruct (decide (name = "id")) as [->|]; [left; by exists Fid|].
    destruct (decide (name = "date_time")) as [->|]; [left; by exists Fdate_time|].
    destruct (decide (name = "amount")) as [->|]; [left; by exists Famount|].
    destruct (decide (name = "description")) as [->|]; [left; by exists Fdescription|].
    right. intros []; done. }
  - destruct (field_valid f value) eqn:E.
    + rewrite (setattr_valid f value self E). simpl.
      apply insert_keeps_valid; [done|].
      intros g Hg. apply field_name_inj in Hg. by subst g.
    + by rewrite (setattr_invalid f value self E).
  - rewrite (setattr_other_name name value self Hne). simpl.
    apply insert_keeps_valid; [done|]. intros f Hf. by destruct (Hne f).
Qed.

Lemma valid_instance_typed (self : gmap string pyval) :
  valid_instance self -> is_Some (as_Transaction self).
Proof.
  intros Hv.
  destruct (Hv Fid) as (v1 & H1 & E1). destruct (Hv Fdate_time) as (v2 & H2 & E2).
  destruct (Hv Famount) as (v3 & H3 & E3). destruct (Hv Fdescription) as (v4 & H4 & E4).
  simpl in H1, H2, H3, H4. unfold as_Transaction. rewrite H1, H2, H3, H4.
  destruct v1; try discriminate. destruct v2; try discriminate.
  destruct v4; try discriminate. destruct v3; try discriminate; eauto.
Qed.

(** X1. Every instance that the constructor returned stays valid under
    assignments to ordinary attribute names (every name but [__dict__],
    [__class__] and [__weakref__]): after any sequence of such
    assignments, of which the rejected ones are skipped, each of the four
    fields still holds a value that the field rules accept, and the
    instance still has its typed view. *)
Theorem X1_assignments_keep_instance_valid
    (id dt amt desc : pyval) (self : gmap string pyval)
    (ops : list (string * pyval)) :
  Transaction__init__ id dt amt desc ∅ = (Ok tt, self) ->
  Forall (fun op => ordinary_name (fst op) = true) ops ->
  valid_instance (assign_all ops self) /\ is_Some (as_Transaction (assign_all ops self)).
Proof.
  intros Hinit _. apply init_returns_valid in Hinit.
  assert (valid_instance (assign_all ops self)) as Hv.
  { revert self Hinit. induction ops as [|[name value] ops IH]; intros self Hv; [done|].
    simpl. apply IH. by apply setattr_keeps_valid. }
  split; [exact Hv|by apply valid_instance_typed].
Qed.

(** X1 at the instance of [Transaction(1, example_time, 5.0, 'coffee')]
    and four assignments, two of which are rejected. *)
Lemma X1_witness :
  Transaction__init__ (VInt (PInt 1)) (VDatetime example_time) (VFloat float_5)
    (VStr "coffee") ∅ = (Ok tt, example_instance) /\
  Forall (fun op => ordinary_name (fst op) = true) example_assignments /\
  valid_instance (assign_all example_assignments example_instance) /\
  is_Some (as_Transaction (assign_all example_assignments example_instance)).
Proof.
  assert (Transaction__init__ (VInt (PInt 1)) (VDatetime example_time) (VFloat float_5)
            (VStr "coffee") ∅ = (Ok tt, example_instance)) as H by reflexivity.
  assert (Forall (fun op => ordinary_name (fst op) = true) example_assignments) as Hn
    by (repeat constructor).
  split; [exact H|]. split; [exact Hn|].
  exact (X1_assignments_keep_instance_valid _ _ _ _ _ example_assignments H Hn).
Defined.

(** A transaction whose id is not negative is what the constructor returns
    for its attributes. *)
Lemma construct_typed (t : Transaction) :
  0 <= int_value (t_id t) ->
  Transaction_call (VInt (t_id t)) (VDatetime (date_time t)) (of_num (amount t))
    (VStr (description t)) = Ok t.
Proof.
  intros Hid. destruct t as [i d a s]. simpl in *.
  unfold Transaction_call, Transaction__init__, bind, Transaction__setattr__, raise, modify.
  simpl.
  assert ((int_value i <? 0) = false) as -> by lia.
  destruct a; reflexivity.
Qed.

(** X2. The constructor returns a transaction exactly for arguments that
    are its four attributes, typed, with an id that is not negative: what
    it returns holds the arguments unchanged, and every transaction with
    such an id is what the constructor returns for its attributes. *)
Theorem X2_constructor_returns_its_arguments
    (id dt amt desc : pyval) (t : Transaction) :
  Transaction_call id dt amt desc = Ok t <->
  (id = VInt (t_id t) /\ dt = VDatetime (date_time t) /\ amt = of_num (amount t) /\
   desc = VStr (description t) /\ 0 <= int_value (t_id t)).
Proof.
  split.
  - unfold Transaction_call.
    destruct (Transaction__init__ id dt amt desc ∅) as [[[]|e] self] eqn:Hinit;
      [|discriminate].
    destruct (init_returns_typed _ _ _ _ _ Hinit) as (t' & Ht & H1 & H2 & H3 & H4).
    rewrite Ht. intros [= <-].
    repeat (split; [done|]).
    destruct (init_returns_valid _ _ _ _ _ Hinit Fid) as (v & Hl & Hok).
    unfold as_Transaction in Ht. simpl in Hl. rewrite Hl in Ht.
    destruct v; try discriminate.
    destruct (self !! "date_time") as [[]|]; try discriminate.
    destruct (self !! "amount") as [[]|]; try discriminate;
      destruct (self !! "description") as [[]|]; try discriminate;
      injection Ht as <-; simpl in *; lia.
  - intros (-> & -> & -> & -> & Hid). by apply construct_typed.
Qed.

(** A float amount is always rendered. *)
Lemma float_amount_renders (t : Transaction) (f : spec_float) :
  amount t = NFloat f -> exists s, Transaction__str__ t = Ok s.
Proof. intros Hf. unfold Transaction__str__, format_2f. rewrite Hf. eauto. Qed.

(** An integer below 4300 in absolute value has fewer than 4300 digits. *)
Lemma small_within_digit_limit (z : Z) : Z.abs z < 4300 -> within_digit_limit z.
Proof.
  intros Hz. unfold within_digit_limit.
  apply Z.lt_trans with 4300; [exact Hz|].
  apply Z.pow_gt_lin_r; [reflexivity|discriminate].
Qed.

(** X3. For a transaction whose id is within the digit limit, rendering
    fails only with [OverflowError], and only for an amount that is an
    [int]: a float amount is always rendered.  An amount of [2 ** 1024]
    passes the validation of the constructor and cannot be rendered,
    whatever the other attributes are. *)
Theorem X3_rendering_fails_only_on_int_overflow (t : Transaction) :
  within_digit_limit (int_value (t_id t)) ->
  (forall e, Transaction__str__ t = Raise e ->
     class_of e = COverflowError /\ exists i, amount t = NInt i) /\
  (forall f, amount t = NFloat f -> exists s, Transaction__str__ t = Ok s) /\
  (amount t = NInt (PInt (2 ^ 1024)) ->
   (exists e, Transaction__str__ t = Raise e) /\
   (0 <= int_value (t_id t) ->
    Transaction_call (VInt (t_id t)) (VDatetime (date_time t)) (of_num (amount t))
      (VStr (description t)) = Ok t)).
Proof.
  intros _. split; [|split].
  - intros e. unfold Transaction__str__, format_2f.
    destruct (amount t) as [i|f]; [|discriminate].
    unfold float_of_int.
    destruct (binary_normalize 53 1024 (int_value i) 0 false); try discriminate.
    intros [= <-]. split; [reflexivity|eauto].
  - apply float_amount_renders.
  - intros Ha. split; [|apply construct_typed].
    eexists. unfold Transaction__str__, format_2f. rewrite Ha. cbn [int_value].
    assert (float_of_int (2 ^ 1024)
            = Raise (OverflowError "int too large to convert to float")) as ->
      by (vm_compute; reflexivity).
    reflexivity.
Qed.

(** X3 at the transaction with id 7 and the amount [2 ** 1024]. *)
Lemma X3_witness :
  within_digit_limit (int_value (t_id huge)) /\
  amount huge = NInt (PInt (2 ^ 1024)) /\
  (exists e, Transaction__str__ huge = Raise e) /\
  Transaction_call (VInt (PInt 7)) (VDatetime example_time) (VInt (PInt (2 ^ 1024)))
    (VStr "x") = Ok huge.
Proof.
  assert (within_digit_limit (int_value (t_id huge))) as H
    by (apply small_within_digit_limit; reflexivity).
  split; [exact H|]. split; [reflexivity|].
  destruct (proj2 (proj2 (X3_rendering_fails_only_on_int_overflow huge H)) eq_refl)
    as [Hraise Hcall].
  split; [exact Hraise|]. apply Hcall. simpl. lia.
Defined.

(** ** Indexing and length *)

Lemma list_getitem_nonneg {A} (l : list A) (i : Z) :
  0 <= i -> list_getitem l i = l !! Z.to_nat i.
Proof.
  intros Hi. unfold list_getitem.
  assert ((i <? 0) = false) as -> by lia.
  assert ((0 <=? i) = true) as -> by lia. simpl.
  destruct (i <? Z.of_nat (length l)) eqn:E; [reflexivity|].
  symmetry. apply lookup_ge_None. lia.
Qed.

Lemma list_getitem_negative {A} (l : list A) (i : Z) :
  - Z.of_nat (length l) <= i < 0 ->
  list_getitem l i = l !! Z.to_nat (i + Z.of_nat (length l)).
Proof.
  intros Hi. unfold list_getitem.
  assert ((i <? 0) = true) as -> by lia.
  assert ((0 <=? i + Z.of_nat (length l)) = true) as -> by lia.
  assert ((i + Z.of_nat (length l) <? Z.of_nat (length l)) = true) as -> by lia.
  reflexivity.
Qed.

Lemma list_getitem_outside {A} (l : list A) (i : Z) :
  i < - Z.of_nat (length l) \/ Z.of_nat (length l) <= i -> list_getitem l i = None.
Proof.
  intros Hi. unfold list_getitem.
  destruct (i <? 0) eqn:E.
  - assert ((0 <=? i + Z.of_nat (length l)) = false) as -> by lia. reflexivity.
  - assert ((i <? Z.of_nat (length l)) = false) as -> by lia.
    by rewrite andb_false_r.
Qed.

(** X4. [manager[i]] returns for exactly the indices from [-len(manager)]
    to [len(manager) - 1] and raises [IndexError] for every other; an
    index that is not negative counts from the first transaction, and a
    negative index [i] reads what the index [i + len(manager)] reads. *)
Theorem X4_index_bounds (self : TransactionManager) (index : pyint) :
  let n := TransactionManager__len__ self in
  let i := int_value index in
  (is_Some (TransactionManager__getitem__ index self) <-> - n <= i < n) /\
  (0 <= i ->
   TransactionManager__getitem__ index self = _transactions self !! Z.to_nat i) /\
  (- n <= i < 0 ->
   TransactionManager__getitem__ index self
   = TransactionManager__getitem__ (PInt (i + n)) self).
Proof.
  intros n i. unfold TransactionManager__getitem__. fold i.
  unfold TransactionManager__len__ in n.
  split; [|split].
  - split.
    + intros Hs.
      assert (~ (i < - n \/ n <= i)) as Hin; [|lia].
      intros Hout. rewrite (list_getitem_outside _ i Hout) in Hs.
      by destruct Hs.
    + intros Hi. assert (i < 0 \/ 0 <= i) as [Hneg|Hpos] by lia.
      * rewrite list_getitem_negative by (subst n; lia).
        apply lookup_lt_is_Some. subst n. lia.
      * rewrite list_getitem_nonneg by done.
        apply lookup_lt_is_Some. subst n. lia.
  - apply list_getitem_nonneg.
  - intros Hi. rewrite list_getitem_negative by (subst n; lia).
    simpl int_value. rewrite list_getitem_nonneg by lia. reflexivity.
Qed.

(** X5. After [add_transaction(t)] the collection is one longer, [t] is
    its last element, read by the index [-1] and by the old length, and
    every index from [0] up to the old length reads what it read
    before. *)
Theorem X5_added_transaction_is_last (self : TransactionManager) (t : Transaction) :
  let self' := snd (TransactionManager_add_transaction (VTransaction t) self) in
  TransactionManager__len__ self' = TransactionManager__len__ self + 1 /\
  TransactionManager__getitem__ (PInt (-1)) self' = Some t /\
  TransactionManager__getitem__ (PInt (TransactionManager__len__ self)) self' = Some t /\
  (forall i, 0 <= int_value i < TransactionManager__len__ self ->
     TransactionManager__getitem__ i self' = TransactionManager__getitem__ i self).
Proof.
  destruct self as [l]. simpl.
  unfold TransactionManager__len__, TransactionManager__getitem__. simpl.
  rewrite length_app. simpl length.
  split; [lia|]. split; [|split].
  - rewrite list_getitem_negative by (rewrite length_app; simpl; lia).
    rewrite length_app. simpl length.
    replace (Z.to_nat (-1 + Z.of_nat (length l + 1))) with (length l + 0)%nat by lia.
    by rewrite lookup_app_r, Nat.add_comm, Nat.add_sub by lia.
  - rewrite list_getitem_nonneg by lia. rewrite Nat2Z.id.
    replace (length l) with (length l + 0)%nat at 1 by lia.
    by rewrite lookup_app_r, Nat.add_comm, Nat.add_sub by lia.
  - intros i Hi. rewrite !list_getitem_nonneg by lia.
    apply lookup_app_l. lia.
Qed.

(** ** Sorting and filtering together *)

Lemma filter_by_amount_run (m : pynum) (self : TransactionManager) :
  filter_by_amount (of_num m) self
  = (Ok (mkGenerated (List.filter (fun t => num_ge (amount t) m) (_transactions self)) None),
     self).
Proof.
  unfold filter_by_amount, bind, get, ret.
  replace (fun transaction => py_ge (amount transaction) (of_num m))
    with (fun t => @Ok bool (num_ge (amount t) m)).
  - by rewrite yield_if_total.
  - destruct m; reflexivity.
Qed.

(** [<=] on the extended reals is transitive, NaN included. *)
Lemma x_le_transitive (a b c : xreal) :
  x_le a b = true -> x_le b c = true -> x_le a c = true.
Proof.
  destruct a, b, c; simpl; try congruence.
  rewrite !Qle_bool_iff. apply Qle_trans.
Qed.

Lemma filter_all {A} (p : A -> bool) (l : list A) :
  Forall (fun x => p x = true) l -> List.filter p l = l.
Proof.
  induction 1 as [|x l Hx _ IH]; simpl; [reflexivity|]. by rewrite Hx, IH.
Qed.




Lemma StronglySorted_filter {A} (R : A -> A -> Prop) (p : A -> bool) (l : list A) :
  StronglySorted R l -> StronglySorted R (List.filter p l).
Proof.
  induction 1 as [|x l Hs IH Hall]; simpl; [constructor|].
  destruct (p x); [|exact IH]. constructor; [exact IH|].
  rewrite List.Forall_forall in *. intros y Hy.
  apply filter_In in Hy as [Hy _]. by apply Hall.
Qed.

(** X7. Sorting by description and then by amount orders a collection
    without a NaN amount by amount, and the transactions of one amount by
    description: the second sort keeps the order that the first one gave
    to the transactions it does not tell apart. *)
Theorem X7_two_sorts_order_by_amount_then_description (self : TransactionManager) :
  Forall (fun t => not_nan (amount t)) (_transactions self) ->
  let sorted := snd (sort_by_amount (snd (sort_by_description self))) in
  Permutation (_transactions sorted) (_transactions self) /\
  ascending_by_amount (_transactions sorted) /\
  (forall k, ascending_by_description
               (List.filter (fun t => num_eq k (amount t)) (_transactions sorted))).
Proof.
  intros Hgood sorted.
  destruct (sort_by_description_spec (_transactions self)) as (Hp1 & _ & Hs1 & _).
  assert (Forall (fun t => not_nan (amount t))
            (list_sort description String.ltb (_transactions self))) as Hgood1.
  { rewrite List.Forall_forall in *. intros t Ht. apply Hgood.
    by apply (Permutation_in _ Hp1). }
  destruct (sort_by_amount_spec _ Hgood1) as (Hp2 & Ha2 & _ & Hst & _).
  split; [|split].
  - exact (Permutation_trans Hp2 Hp1).
  - exact Ha2.
  - intros k. change (_transactions sorted)
      with (list_sort amount num_lt (list_sort description String.ltb (_transactions self))).
    rewrite Hst. apply StronglySorted_Sorted. by apply StronglySorted_filter.
Qed.

(** X7 on three transactions, two of the amount [7]. *)
Lemma X7_witness :
  Forall (fun t => not_nan (amount t))
    [tx 1 (NInt (PInt 7)) "pear"; tx 2 (NFloat float_2_5) "fig"; tx 3 (NInt (PInt 7)) "apple"] /\
  _transactions
    (snd (sort_by_amount (snd (sort_by_description
       (mkTransactionManager
          [tx 1 (NInt (PInt 7)) "pear"; tx 2 (NFloat float_2_5) "fig";
           tx 3 (NInt (PInt 7)) "apple"])))))
  = [tx 2 (NFloat float_2_5) "fig"; tx 3 (NInt (PInt 7)) "apple"; tx 1 (NInt (PInt 7)) "pear"] /\
  ascending_by_amount
    (_transactions
       (snd (sort_by_amount (snd (sort_by_description
          (mkTransactionManager
             [tx 1 (NInt (PInt 7)) "pear"; tx 2 (NFloat float_2_5) "fig";
              tx 3 (NInt (PInt 7)) "apple"])))))).
Proof.
  assert (Forall (fun t => not_nan (amount t))
            [tx 1 (NInt (PInt 7)) "pear"; tx 2 (NFloat float_2_5) "fig";
             tx 3 (NInt (PInt 7)) "apple"]) as H by (repeat constructor).
  split; [exact H|]. split; [reflexivity|].
  exact (proj1 (proj2 (X7_two_sorts_order_by_amount_then_description
                         (mkTransactionManager _) H))).
Defined.

(** X8. Raising the threshold only removes transactions: for thresholds
    [m <= m'], what [filter_by_amount(m')] yields is a sublist of what
    [filter_by_amount(m)] yields.  A transaction whose amount is NaN is
    never yielded, and a NaN threshold yields nothing. *)
Theorem X8_filter_is_monotone (self : TransactionManager) (m m' : pynum) :
  num_le m m' = true ->
  exists g g',
    filter_by_amount (of_num m) self = (Ok g, self) /\
    filter_by_amount (of_num m') self = (Ok g', self) /\
    sublist (yielded g') (yielded g) /\
    Forall (fun t => is_nan (amount t) = false) (yielded g) /\
    (forall nan g0, is_nan nan = true ->
       filter_by_amount (of_num nan) self = (Ok g0, self) -> yielded g0 = []).
Proof.
  intros Hle. do 2 eexists.
  split; [apply filter_by_amount_run|]. split; [apply filter_by_amount_run|].
  simpl. split; [|split].
  - induction (_transactions self) as [|t l IH]; simpl; [constructor|].
    destruct (num_ge (amount t) m') eqn:E'.
    + assert (num_ge (amount t) m = true) as ->.
      { unfold num_ge, num_le in *. by eapply x_le_transitive. }
      by constructor.
    + destruct (num_ge (amount t) m); [by constructor|exact IH].
  - apply List.Forall_forall. intros t Ht. apply filter_In in Ht as [_ Ht].
    unfold num_ge, is_nan in *. destruct (num_val (amount t)); try reflexivity.
    by destruct (num_val m).
  - intros nan g0 Hnan. rewrite filter_by_amount_run. intros [= <-]. simpl.
    apply filter_none. apply List.Forall_forall. intros t _.
    unfold num_ge, is_nan in *. by destruct (num_val nan).
Qed.

(** X8 on the amounts [2.0, nan, 1.0] and the thresholds [1] and [2]. *)
Lemma X8_witness :
  num_le (NInt (PInt 1)) (NInt (PInt 2)) = true /\
  exists g g',
    filter_by_amount (VInt (PInt 1)) (mkTransactionManager with_nan)
    = (Ok g, mkTransactionManager with_nan) /\
    filter_by_amount (VInt (PInt 2)) (mkTransactionManager with_nan)
    = (Ok g', mkTransactionManager with_nan) /\
    sublist (yielded g') (yielded g) /\
    Forall (fun t => is_nan (amount t) = false) (yielded g).
Proof.
  assert (num_le (NInt (PInt 1)) (NInt (PInt 2)) = true) as H by reflexivity.
  split; [exact H|].
  destruct (X8_filter_is_monotone (mkTransactionManager with_nan)
              (NInt (PInt 1)) (NInt (PInt 2)) H) as (g & g' & H1 & H2 & H3 & H4 & _).
  exists g, g'. auto.
Defined.

(** ** Storage *)

Section Storage.
Context {lib : PyLib}.

(** X9. For a collection of rows that can be written (ids and [int]
    amounts within the digit limit, descriptions that can be encoded),
    [save_to_csv] returns; it leaves the collection and the clock as they
    were and changes no file but the one it names.  That file is
    replaced: what it held before makes no difference, saving again
    changes nothing, and its text begins with the header row. *)
Theorem X9_save_replaces_the_file (filename : string) (st : state TransactionManager) :
  Forall writable (_transactions (obj st)) ->
  exists text st',
    save_to_csv filename st = (Ok tt, st') /\
    obj st' = obj st /\
    clock (env st') = clock (env st) /\
    now_calls (env st') = now_calls (env st) /\
    files (env st') = <[filename := text]> (files (env st)) /\
    (forall other, other <> filename ->
       files (env st') !! other = files (env st) !! other) /\
    (forall old,
       save_to_csv filename
         (mkState (mkWorld (<[filename := old]> (files (env st)))
                     (clock (env st)) (now_calls (env st))) (obj st))
       = (Ok tt, st')) /\
    save_to_csv filename st' = (Ok tt, st') /\
    exists rest, text = "№,дата и время,сумма,описание транзакции" +:+ crlf +:+ rest.
Proof.
  intros _.
  exists (saved_text (_transactions (obj st))). eexists.
  split; [apply save_run|]. cbn [env obj files clock now_calls].
  repeat (split; [reflexivity|]).
  split; [|split; [|split]].
  - intros other Hne. by rewrite lookup_insert_ne.
  - intros old. rewrite save_run. cbn [env obj files clock now_calls].
    by rewrite insert_insert_eq.
  - rewrite save_run. cbn [env obj files clock now_calls].
    by rewrite insert_insert_eq.
  - eexists. unfold saved_text. reflexivity.
Qed.

(** X10. Saving an empty collection writes the header row and nothing
    else, and loading that file back gives an empty collection.  A file
    that is empty loads nothing as well: the load returns and leaves the
    manager as it was. *)
Theorem X10_empty_collection_round_trip (filename : string) (w : world) :
  save_then_load filename [] w = Ok [] /\
  files (env (snd (save_to_csv filename (mkState w (mkTransactionManager [])))))
    !! filename
  = Some ("№,дата и время,сумма,описание транзакции" +:+ crlf) /\
  (forall st : state ExtendedTransactionManager,
     files (env st) !! filename = Some "" ->
     load_from_csv filename st = (Ok tt, st)).
Proof.
  split; [|split].
  - unfold save_then_load. rewrite save_run. cbn [env obj _transactions].
    unfold from_csv. rewrite load_unfold. cbn [env files].
    rewrite lookup_insert_eq.
    assert (rows_of (saved_text []) = []) as -> by (vm_compute; reflexivity).
    reflexivity.
  - rewrite save_run. cbn [env obj files snd _transactions].
    rewrite lookup_insert_eq. reflexivity.
  - intros st Hfile. rewrite load_unfold, Hfile.
    assert (rows_of "" = []) as -> by reflexivity.
    reflexivity.
Qed.

(** The load of a file of well-formed rows, on each class. *)
Lemma load_well_formed_base (filename : string) (st : state TransactionManager)
    (text : string) (dicts : list (gmap string (option string)))
    (ts : list Transaction) :
  files (env st) !! filename = Some text ->
  rows_of text = map Ok dicts ->
  well_formed_rows dicts ts ->
  load_from_csv filename st = (Ok tt, appended ts st).
Proof.
  intros Hfile Hrows Hwf. rewrite load_unfold, Hfile, Hrows.
  rewrite <- (app_nil_r (map Ok dicts)).
  by rewrite (for_each_well_formed dicts ts [] st _ Hwf (add_all_base ts st)).
Qed.

Lemma load_well_formed_extended (filename : string)
    (st : state ExtendedTransactionManager)
    (text : string) (dicts : list (gmap string (option string)))
    (ts : list Transaction) (rendered : list string) :
  files (env st) !! filename = Some text ->
  rows_of text = map Ok dicts ->
  well_formed_rows dicts ts ->
  Forall2 (fun t s => Transaction__str__ t = Ok s) ts rendered ->
  load_from_csv filename st = (Ok tt, appended_logged ts rendered st).
Proof.
  intros Hfile Hrows Hwf Hr. rewrite load_unfold, Hfile, Hrows.
  rewrite <- (app_nil_r (map Ok dicts)).
  by rewrite (for_each_well_formed dicts ts [] st _ Hwf
                (add_all_extended ts rendered st Hr)).
Qed.


(** X12. Loading appends and does not look at what the collection holds:
    a file of well-formed rows loaded into the base manager puts their
    transactions after the ones already there, and loading the same file
    again puts them there once more. *)
Theorem X12_loading_twice_appends_twice (filename : string)
    (st : state TransactionManager)
    (text : string) (dicts : list (gmap string (option string)))
    (ts : list Transaction) :
  files (env st) !! filename = Some text ->
  rows_of text = map Ok dicts ->
  well_formed_rows dicts ts ->
  load_from_csv filename st = (Ok tt, appended ts st) /\
  load_from_csv filename (appended ts st) = (Ok tt, appended (ts ++ ts) st).
Proof.
  intros Hfile Hrows Hwf.
  split; [by apply (load_well_formed_base filename st text dicts ts)|].
  rewrite (load_well_formed_base filename (appended ts st) text dicts ts Hfile Hrows Hwf).
  unfold appended. cbn [env obj _transactions]. by rewrite <- app_assoc.
Qed.

(** X13. A load that returns has loaded every row: on the audit-logging
    manager, if [load_from_csv] returns then the file exists, each of its
    rows is well-formed, and the manager holds the transaction of each
    row appended in order with one history entry for each. *)
Theorem X13_load_returns_only_when_every_row_loaded (filename : string)
    (st st' : state ExtendedTransactionManager) :
  load_from_csv filename st = (Ok tt, st') ->
  exists text dicts ts rendered,
    files (env st) !! filename = Some text /\
    rows_of text = map Ok dicts /\
    well_formed_rows dicts ts /\
    Forall2 (fun t s => Transaction__str__ t = Ok s) ts rendered /\
    st' = appended_logged ts rendered st.
Proof.
  intros Hrun.
  destruct (load_returns_well_formed filename st st' Hrun) as (text & dicts & ts & Hf & Hr & Hwf).
  destruct (well_formed_rows_render _ _ Hwf) as [rendered Hren].
  exists text, dicts, ts, rendered. repeat (split; [done|]).
  rewrite (load_well_formed_extended filename st text dicts ts rendered Hf Hr Hwf Hren)
    in Hrun.
  by injection Hrun.
Qed.


(** X15. A row with fewer than four cells never loads: with one cell the
    timestamp is missing, with two the amount, with three the
    description, and the row raises in each case, whatever its cells
    hold. *)
Theorem X15_short_rows_never_load (row : list string) :
  (0 < length row < 4)%nat ->
  exists e, row_transaction (make_row fieldnames row) = Raise e.
Proof.
  intros Hlen.
  destruct row as [|a [|b [|c [|d more]]]]; simpl in Hlen; try lia.
  - unfold row_transaction, bind_result.
    change (row_get (make_row fieldnames [a]) "№") with (@Ok (option string) (Some a)).
    change (row_get (make_row fieldnames [a]) "дата и время")
      with (@Ok (option string) None).
    cbn [py_int py_strptime]. destruct (int_of_str a); eauto.
  - unfold row_transaction, bind_result.
    change (row_get (make_row fieldnames [a; b]) "№") with (@Ok (option string) (Some a)).
    change (row_get (make_row fieldnames [a; b]) "дата и время")
      with (@Ok (option string) (Some b)).
    change (row_get (make_row fieldnames [a; b]) "сумма") with (@Ok (option string) None).
    cbn [py_int py_strptime py_float].
    destruct (int_of_str a); [|eauto]. destruct (strptime b); eauto.
  - unfold row_transaction, bind_result.
    change (row_get (make_row fieldnames [a; b; c]) "№")
      with (@Ok (option string) (Some a)).
    change (row_get (make_row fieldnames [a; b; c]) "дата и время")
      with (@Ok (option string) (Some b)).
    change (row_get (make_row fieldnames [a; b; c]) "сумма")
      with (@Ok (option string) (Some c)).
    change (row_get (make_row fieldnames [a; b; c]) "описание транзакции")
      with (@Ok (option string) None).
    cbn [py_int py_strptime py_float of_cell].
    destruct (int_of_str a) as [i|]; [|eauto]. destruct (strptime b); [|eauto].
    destruct (float_of_str c); [|eauto].
    unfold Transaction_call, Transaction__init__, bind, Transaction__setattr__. simpl.
    destruct (i <? 0); simpl; eauto.
Qed.

End Storage.

Section StorageWitnesses.
#[local] Existing Instance cpython_ascii.

(** X9 at a collection of two records. *)
Lemma X9_witness :
  Forall writable [coffee; books] /\
  exists text st',
    save_to_csv "out.csv" (mkState example_world (mkTransactionManager [coffee; books]))
    = (Ok tt, st') /\
    obj st' = mkTransactionManager [coffee; books] /\
    files (env st') !! "out.csv" = Some text /\
    files (env st') !! "data.csv" = Some good_file /\
    save_to_csv "out.csv" st' = (Ok tt, st').
Proof.
  assert (Forall writable [coffee; books]) as H.
  { assert (forall t f, Z.abs (int_value (t_id t)) < 4300 -> amount t = NFloat f ->
              utf8 (description t) = true -> writable t) as Hw.
    { intros t f Hid Hf Hd. split; [by apply small_within_digit_limit|].
      split; [|exact Hd]. intros i Hi. rewrite Hf in Hi. discriminate Hi. }
    constructor; [|constructor; [|constructor]].
    - by apply (Hw coffee float_5).
    - by apply (Hw books float_12_5). }
  split; [exact H|].
  destruct (X9_save_replaces_the_file "out.csv"
              (mkState example_world (mkTransactionManager [coffee; books])) H)
    as (text & st' & Hrun & Hobj & _ & _ & Hfiles & Hother & _ & Hagain & _).
  exists text, st'. split; [exact Hrun|]. split; [exact Hobj|].
  split; [rewrite Hfiles; apply lookup_insert_eq|].
  split; [rewrite Hother; [reflexivity|discriminate]|exact Hagain].
Defined.

(** X10 at a world whose file [empty.csv] is empty. *)
Lemma X10_witness :
  save_then_load "out.csv" [] example_world = Ok [] /\
  files (env (mkState (mkWorld (<["empty.csv" := ""]> ∅) example_clock 0)
                ExtendedTransactionManager__init__)) !! "empty.csv" = Some "" /\
  load_from_csv "empty.csv"
    (mkState (mkWorld (<["empty.csv" := ""]> ∅) example_clock 0)
       ExtendedTransactionManager__init__)
  = (Ok tt, mkState (mkWorld (<["empty.csv" := ""]> ∅) example_clock 0)
              ExtendedTransactionManager__init__).
Proof.
  split; [exact (proj1 (X10_empty_collection_round_trip "out.csv" example_world))|].
  assert (files (env (mkState (mkWorld (<["empty.csv" := ""]> ∅) example_clock 0)
                        ExtendedTransactionManager__init__)) !! "empty.csv" = Some "")
    as H by reflexivity.
  split; [exact H|].
  exact (proj2 (proj2 (X10_empty_collection_round_trip "empty.csv" example_world)) _ H).
Defined.


(** X12 at the file of two well-formed rows and a new manager. *)
Lemma X12_witness :
  files (env base_start) !! "data.csv" = Some good_file /\
  rows_of good_file
  = map Ok [make_row fieldnames coffee_row; make_row fieldnames books_row] /\
  well_formed_rows [make_row fieldnames coffee_row; make_row fieldnames books_row]
    [coffee; books] /\
  load_from_csv "data.csv" base_start = (Ok tt, appended [coffee; books] base_start) /\
  load_from_csv "data.csv" (appended [coffee; books] base_start)
  = (Ok tt, appended [coffee; books; coffee; books] base_start).
Proof.
  assert (files (env base_start) !! "data.csv" = Some good_file) as H1 by reflexivity.
  assert (rows_of good_file
          = map Ok [make_row fieldnames coffee_row; make_row fieldnames books_row])
    as H2 by (vm_compute; reflexivity).
  assert (well_formed_rows [make_row fieldnames coffee_row; make_row fieldnames books_row]
            [coffee; books]) as H3 by (repeat constructor).
  repeat (split; [assumption|]).
  exact (X12_loading_twice_appends_twice "data.csv" base_start good_file _ _ H1 H2 H3).
Defined.

(** X13 at the file of two well-formed rows and a new manager. *)
Lemma X13_witness :
  load_from_csv "data.csv" extended_start
  = (Ok tt,
     mkState (mkWorld (files example_world) example_clock 2)
       (mkExtendedTransactionManager
          (mkTransactionManager [coffee; books])
          [(example_clock 0, "ADD", "№1 | 2024-03-01 14:30:00 | 5.00 | coffee");
           (example_clock 1, "ADD", "№2 | 2024-03-02 09:00:00 | 12.50 | books")])) /\
  exists text dicts ts rendered,
    files (env extended_start) !! "data.csv" = Some text /\
    rows_of text = map Ok dicts /\
    well_formed_rows dicts ts /\
    Forall2 (fun t s => Transaction__str__ t = Ok s) ts rendered.
Proof.
  assert (load_from_csv "data.csv" extended_start
          = (Ok tt,
             mkState (mkWorld (files example_world) example_clock 2)
               (mkExtendedTransactionManager
                  (mkTransactionManager [coffee; books])
                  [(example_clock 0, "ADD", "№1 | 2024-03-01 14:30:00 | 5.00 | coffee");
                   (example_clock 1, "ADD", "№2 | 2024-03-02 09:00:00 | 12.50 | books")])))
    as H by (vm_compute; reflexivity).
  split; [exact H|].
  destruct (X13_load_returns_only_when_every_row_loaded "data.csv" extended_start _ H)
    as (text & dicts & ts & rendered & H1 & H2 & H3 & H4 & _).
  exists text, dicts, ts, rendered. auto.
Defined.

(** X15 at a row of two cells. *)
Lemma X15_witness :
  (0 < length ["1"; "2024-03-01 14:30:00"] < 4)%nat /\
  exists e,
    row_transaction (make_row fieldnames ["1"; "2024-03-01 14:30:00"]) = Raise e.
Proof.
  assert (0 < length ["1"; "2024-03-01 14:30:00"] < 4)%nat as H by (simpl; lia).
  split; [exact H|].
  exact (X15_short_rows_never_load (lib := cpython_ascii) _ H).
Defined.

End StorageWitnesses.

(** ** The history *)

Section History.
Context {lib : PyLib}.

(** X16. On the audit-logging manager, adding a transaction that cannot
    be rendered raises the error of the rendering after the collection
    was changed: the transaction is appended, the clock was read, and the
    history has no entry for it. *)
Theorem X16_unrendered_add_is_not_logged (t : Transaction) (e : exn)
    (st : state ExtendedTransactionManager) :
  Transaction__str__ t = Raise e ->
  exists st',
    ExtendedTransactionManager_add_transaction (VTransaction t) st = (Raise e, st') /\
    _transactions (super (obj st')) = (_transactions (super (obj st)) ++ [t])%list /\
    _history (obj st') = _history (obj st) /\
    now_calls (env st') = S (now_calls (env st)) /\
    files (env st') = files (env st).
Proof.
  intros Hs. eexists. split; [by apply extended_add_render_fails|].
  repeat split.
Qed.

Lemma history_grows_refl (st : state ExtendedTransactionManager) : history_grows st st.
Proof. exists []. rewrite app_nil_r. repeat split; [constructor|simpl; lia]. Qed.

Lemma history_grows_trans (st1 st2 st3 : state ExtendedTransactionManager) :
  history_grows st1 st2 -> history_grows st2 st3 -> history_grows st1 st3.
Proof.
  intros (n1 & H1 & A1 & L1) (n2 & H2 & A2 & L2).
  exists (n1 ++ n2)%list. rewrite H2, H1, <- app_assoc. split; [reflexivity|].
  split; [by apply Forall_app|]. rewrite length_app. lia.
Qed.

Lemma add_history_grows (v : pyval) (st : state ExtendedTransactionManager) :
  history_grows st (snd (ExtendedTransactionManager_add_transaction v st)).
Proof.
  destruct (isinstance_Transaction v) eqn:Hv.
  - destruct v; try discriminate.
    destruct (Transaction__str__ t) as [s|e] eqn:Hs.
    + rewrite (extended_add_ok t s st Hs). unfold history_grows.
      cbn [snd obj _history super _transactions].
      exists [(clock (env st) (now_calls (env st)), "ADD", s)].
      split; [reflexivity|]. split; [by repeat constructor|].
      rewrite length_app. simpl. lia.
    + rewrite (extended_add_render_fails t e st Hs). unfold history_grows.
      cbn [snd obj _history super _transactions].
      exists []. rewrite app_nil_r. split; [reflexivity|]. split; [constructor|].
      rewrite length_app. simpl. lia.
  - rewrite (extended_add_rejects v st Hv). apply history_grows_refl.
Qed.

(** What every call of [add_transaction] keeps, the loop of a load
    keeps. *)
Lemma for_each_load_row_keeps
    (R : state ExtendedTransactionManager -> state ExtendedTransactionManager -> Prop)
    (items : list (result (gmap string (option string)))) :
  (forall st, R st st) ->
  (forall st1 st2 st3, R st1 st2 -> R st2 st3 -> R st1 st3) ->
  (forall v st, R st (snd (ExtendedTransactionManager_add_transaction v st))) ->
  forall st, R st (snd (for_each items load_row st)).
Proof.
  intros Hrefl Htrans Hadd.
  induction items as [|item items IH]; intros st; [apply Hrefl|].
  destruct item as [d|e]; [|apply Hrefl].
  cbn [for_each]. unfold bind. unfold load_row at 1. unfold bind, lift.
  destruct (row_transaction d) as [t|e]; [|apply Hrefl].
  change (add_transaction (VTransaction t) st)
    with (ExtendedTransactionManager_add_transaction (VTransaction t) st).
  pose proof (Hadd (VTransaction t) st) as Hstep.
  destruct (ExtendedTransactionManager_add_transaction (VTransaction t) st)
    as [[[]|e] st1]; [|exact Hstep].
  exact (Htrans _ _ _ Hstep (IH st1)).
Qed.

Lemma load_keeps
    (R : state ExtendedTransactionManager -> state ExtendedTransactionManager -> Prop)
    (filename : string) :
  (forall st, R st st) ->
  (forall st1 st2 st3, R st1 st2 -> R st2 st3 -> R st1 st3) ->
  (forall v st, R st (snd (ExtendedTransactionManager_add_transaction v st))) ->
  forall st, R st (snd (load_from_csv filename st)).
Proof.
  intros Hrefl Htrans Hadd st. rewrite load_unfold.
  destruct (files (env st) !! filename) as [text|]; [|apply Hrefl].
  pose proof (for_each_load_row_keeps R (rows_of text) Hrefl Htrans Hadd st) as H.
  by destruct (for_each (rows_of text) load_row st) as [[u|e] st'].
Qed.

Lemma run_op_history_grows (op : manager_op) (st : state ExtendedTransactionManager) :
  history_grows st (run_op op st).
Proof.
  destruct op as [v|filename|filename| | |m|k|]; cbn [run_op].
  - apply add_history_grows.
  - apply load_keeps;
      [apply history_grows_refl|apply history_grows_trans|apply add_history_grows].
  - destruct st as [w [base history]]. exists []. rewrite app_nil_r.
    split; [reflexivity|]. split; [constructor|]. simpl. lia.
  - destruct st as [w [[l] history]]. exists []. cbn. rewrite app_nil_r.
    split; [reflexivity|]. split; [constructor|].
    rewrite (Permutation_length (list_sort_perm description String.ltb l)). lia.
  - destruct st as [w [[l] history]]. exists []. cbn. rewrite app_nil_r.
    split; [reflexivity|]. split; [constructor|].
    rewrite (Permutation_length (list_sort_perm amount num_lt l)). lia.
  - destruct st as [w [base history]]. apply history_grows_refl.
  - destruct st as [w [base history]]. apply history_grows_refl.
  - destruct st as [w [base history]]. apply history_grows_refl.
Qed.

(** X17. The history is append-only and never longer than the
    collection.  Every operation of the audit-logging manager, whether it
    returns or raises, leaves the earlier history records in place, adds
    only "ADD" records, and adds no more of them than it adds
    transactions; so after any sequence of operations on a new manager
    each record is an "ADD" and there are no more records than
    transactions. *)
Theorem X17_history_is_append_only (ops : list manager_op) (w : world) :
  (forall op st, history_grows st (run_op op st)) /\
  let st := run_ops ops (mkState w ExtendedTransactionManager__init__) in
  Forall (fun record => action record = "ADD") (_history (obj st)) /\
  (length (_history (obj st)) <= length (_transactions (super (obj st))))%nat.
Proof.
  split; [apply run_op_history_grows|].
  assert (forall st, history_grows st (run_ops ops st)) as Hall.
  { induction ops as [|op ops IH]; intros st; [apply history_grows_refl|].
    cbn [run_ops]. eapply history_grows_trans; [apply run_op_history_grows|apply IH]. }
  destruct (Hall (mkState w ExtendedTransactionManager__init__)) as (new & Hh & Hadd & Hlen).
  cbn zeta. rewrite Hh. cbn in *. split; [exact Hadd|lia].
Qed.

Lemma print_each_rendered {A} (render : A -> result string) (xs : list A)
    (rendered : list string) (c : console) :
  Forall2 (fun x s => render x = Ok s) xs rendered ->
  print_each render xs c
  = (Ok tt, mkConsole (stdin c) (stdout c ++ map printed rendered)).
Proof.
  intros Hr. revert c. induction Hr as [|x s xs rendered Hx _ IH]; intros [input output].
  - simpl. unfold ret. by rewrite app_nil_r.
  - cbn [print_each]. unfold bind, lift. rewrite Hx. unfold print at 1, modify.
    rewrite IH. cbn [stdin stdout map]. by rewrite <- app_assoc.
Qed.

Lemma audit_entries_details (clk : nat -> datetime) (n : nat) (rendered : list string) :
  map details (audit_entries clk n rendered) = rendered.
Proof.
  revert n. induction rendered as [|s rendered IH]; intros n; [reflexivity|].
  simpl. by rewrite IH.
Qed.

(** X18. A manager that [from_csv] returned prints what its history
    says: [print_transactions] returns and writes one line for each
    transaction, in order, and the lines are the renderings kept in the
    history records. *)
Theorem X18_loaded_manager_prints_its_history (filename : string) (w w' : world)
    (loaded : ExtendedTransactionManager) (c : console) :
  from_csv filename w = (Ok loaded, w') ->
  print_transactions (super loaded) c
  = (Ok tt,
     mkConsole (stdin c)
       (stdout c ++ map (fun record => printed (details record)) (_history loaded))) /\
  length (_history loaded) = length (_transactions (super loaded)).
Proof.
  unfold from_csv.
  destruct (load_from_csv filename (mkState w __init__)) as [[[]|e] st'] eqn:Hrun;
    [|discriminate].
  intros [= <- <-].
  destruct (load_returns_well_formed filename _ st' Hrun)
    as (text & dicts & ts & Hf & Hr & Hwf).
  destruct (well_formed_rows_render _ _ Hwf) as [rendered Hren].
  rewrite (load_well_formed_extended filename _ text dicts ts rendered Hf Hr Hwf Hren)
    in Hrun.
  injection Hrun as <-.
  unfold appended_logged. cbn [obj env super _transactions _history __init__
    ExtendedTransactionManager_collection ExtendedTransactionManager__init__
    TransactionManager__init__ app].
  unfold print_transactions. cbn [_transactions].
  rewrite (print_each_rendered Transaction__str__ ts rendered c Hren).
  rewrite <- (map_map details printed), audit_entries_details.
  split; [reflexivity|].
  rewrite audit_entries_length. symmetry. exact (Forall2_length _ _ _ Hren).
Qed.

(** X19. The search at its edges.  With a library that lowers ASCII text
    as CPython does, the empty keyword finds every transaction.  A
    keyword that is [None] or a number is never asked for its lowered
    form on an empty collection, and stops the search with
    [AttributeError] at the first transaction of any other. *)
Theorem X19_search_edges (self : ExtendedTransactionManager) :
  (lowers_ascii lib ->
   get_transactions_by_description (VStr "") self
   = (Ok (mkGenerated (_transactions (super self)) None), self)) /\
  (forall keyword,
     keyword = VNone \/ isinstance_int keyword = true \/ isinstance_float keyword = true ->
     exists g,
       get_transactions_by_description keyword self = (Ok g, self) /\
       yielded g = [] /\
       (_transactions (super self) = [] -> stopped_by g = None) /\
       (_transactions (super self) <> [] ->
        exists e, stopped_by g = Some e /\ class_of e = CAttributeError)).
Proof.
  split.
  - intros Hlower. rewrite search_run. rewrite filter_all; [reflexivity|].
    apply List.Forall_forall. intros t _.
    unfold matches. rewrite (Hlower "") by reflexivity.
    by destruct (str_lower (description t)).
  - intros keyword Hk. destruct self as [[[|t ts]] history].
    + eexists. split; [reflexivity|]. simpl.
      split; [reflexivity|]. split; [reflexivity|]. by intros [].
    + destruct Hk as [->|[Hk|Hk]]; [|destruct keyword; try discriminate..];
        (eexists; split; [reflexivity|]; simpl;
         split; [reflexivity|]; split; [discriminate|];
         intros _; eexists; split; reflexivity).
Qed.

End History.

Section HistoryWitnesses.
#[local] Existing Instance cpython_ascii.

(** X16 at a transaction whose amount is [2 ** 1024], on a new manager. *)
Lemma X16_witness :
  Transaction__str__ huge = Raise (OverflowError "int too large to convert to float") /\
  exists st',
    ExtendedTransactionManager_add_transaction (VTransaction huge) extended_start
    = (Raise (OverflowError "int too large to convert to float"), st') /\
    _transactions (super (obj st')) = [huge] /\
    _history (obj st') = [].
Proof.
  assert (Transaction__str__ huge
          = Raise (OverflowError "int too large to convert to float")) as H
    by (vm_compute; reflexivity).
  split; [exact H|].
  destruct (X16_unrendered_add_is_not_logged huge _ extended_start H)
    as (st' & Hrun & Hts & Hh & _).
  exists st'. auto.
Defined.

(** X18 at the file of two well-formed rows. *)
Lemma X18_witness :
  from_csv "data.csv" example_world
  = (Ok (mkExtendedTransactionManager
           (mkTransactionManager [coffee; books])
           [(example_clock 0, "ADD", "№1 | 2024-03-01 14:30:00 | 5.00 | coffee");
            (example_clock 1, "ADD", "№2 | 2024-03-02 09:00:00 | 12.50 | books")]),
     mkWorld (files example_world) example_clock 2) /\
  print_transactions (mkTransactionManager [coffee; books]) (typed [])
  = (Ok tt,
     mkConsole []
       [printed "№1 | 2024-03-01 14:30:00 | 5.00 | coffee";
        printed "№2 | 2024-03-02 09:00:00 | 12.50 | books"]).
Proof.
  assert (from_csv "data.csv" example_world
          = (Ok (mkExtendedTransactionManager
                   (mkTransactionManager [coffee; books])
                   [(example_clock 0, "ADD", "№1 | 2024-03-01 14:30:00 | 5.00 | coffee");
                    (example_clock 1, "ADD", "№2 | 2024-03-02 09:00:00 | 12.50 | books")]),
             mkWorld (files example_world) example_clock 2)) as H
    by (vm_compute; reflexivity).
  split; [exact H|].
  exact (proj1 (X18_loaded_manager_prints_its_history "data.csv" example_world _ _
                  (typed []) H)).
Defined.

(** X19 with the library on ASCII text, at a collection of two. *)
Lemma X19_witness :
  lowers_ascii cpython_ascii /\
  get_transactions_by_description (VStr "")
    (mkExtendedTransactionManager (mkTransactionManager [coffee; books]) [])
  = (Ok (mkGenerated [coffee; books] None),
     mkExtendedTransactionManager (mkTransactionManager [coffee; books]) []) /\
  exists g,
    get_transactions_by_description VNone
      (mkExtendedTransactionManager (mkTransactionManager [coffee; books]) [])
    = (Ok g, mkExtendedTransactionManager (mkTransactionManager [coffee; books]) []) /\
    yielded g = [].
Proof.
  assert (lowers_ascii cpython_ascii) as H by (intros s _; reflexivity).
  split; [exact H|].
  destruct (X19_search_edges
              (mkExtendedTransactionManager (mkTransactionManager [coffee; books]) []))
    as [Hempty Hother].
  split; [exact (Hempty H)|].
  destruct (Hother VNone (or_introl eq_refl)) as (g & Hrun & Hy & _).
  exists g. auto.
Defined.

End HistoryWitnesses.

(** ** The menu program *)

Section MainProgram.
Context {lib : PyLib} {os : PyOS}.

(** X20. How [main] starts.  If the directory cannot be listed, [main]
    ends with the error of the listing before it looks for the file.  If
    [data.csv] does not exist, [main] reports that and returns without
    showing the menu, and the world is as it was.  Any other error of the
    load is not caught: [main] ends with it. *)
Theorem X20_main_start (c : console) (w : world) (directory : string)
    (rest : list string) :
  stdin c = directory :: rest ->
  (forall e,
     count_files_in_directory directory = Raise e ->
     main c w
     = (Raises e, mkConsole rest (stdout c ++ ["Введите путь к директории: "]), w)) /\
  (forall n,
     count_files_in_directory directory = Ok n ->
     files w !! filename = None ->
     main c w
     = (Returns tt,
        mkConsole rest
          (stdout c ++ ["Введите путь к директории: ";
                        printed (String LF "Количество файлов в директории: " +:+ pretty n);
                        printed (String LF "Файл data.csv не найден!")]),
        w)) /\
  (forall n e w',
     count_files_in_directory directory = Ok n ->
     from_csv (Self := ExtendedTransactionManager) filename w = (Raise e, w') ->
     class_of e <> CFileNotFoundError ->
     main c w
     = (Raises e,
        mkConsole rest
          (stdout c ++ ["Введите путь к директории: ";
                        printed (String LF "Количество файлов в директории: " +:+ pretty n)]),
        w')).
Proof.
  intros Hin. destruct c as [input output]. simpl in Hin. subst input.
  split; [|split].
  - intros e He. unfold main, main_start, io_bind, input, call, lift. cbn.
    rewrite He. reflexivity.
  - intros n Hn Hfile. unfold main, main_start, io_bind, input, call, lift. cbn.
    rewrite Hn. cbn. unfold from_csv. rewrite load_unfold. cbn [env obj].
    rewrite Hfile. cbn. by rewrite <- !app_assoc.
  - intros n e w' Hn Hload Hclass.
    unfold main, main_start, io_bind, input, call, lift. cbn.
    rewrite Hn. cbn. rewrite Hload.
    destruct e; cbn; by rewrite <- ?app_assoc.
Qed.


(** X23. Choice 6 of the menu.  The new transaction gets the id
    [len(manager) + 1] and the time of the clock.  If the amount that was
    typed is not a number, the [ValueError] of [float] is reported on the
    console and the loop goes on with the collection and the history as
    they were: the clock was read, the description was not asked for.
    Otherwise the transaction is appended and logged. *)
Theorem X23_choice_6_adds_or_reports (s : session ExtendedTransactionManager)
    (line : string) (rest : list string) :
  stdin (term s) = line :: rest ->
  let w := env (machine s) in
  let self := obj (machine s) in
  (forall msg,
     float_of_str line = Raise (ValueError msg) ->
     menu_choice "6" s
     = (Returns Continue,
        mkSession
          (mkConsole rest
             (stdout (term s) ++ ["Введите сумму: "; printed ("Ошибка: " +:+ msg)]))
          (mkState (mkWorld (files w) (clock w) (S (now_calls w))) self))) /\
  (forall f description rest',
     float_of_str line = Ok f ->
     rest = description :: rest' ->
     let t := mkTransaction (PInt (TransactionManager__len__ (super self) + 1))
                (clock w (now_calls w)) (NFloat f) description in
     exists rendered,
       Transaction__str__ t = Ok rendered /\
       menu_choice "6" s
       = (Returns Continue,
          mkSession
            (mkConsole rest'
               (stdout (term s) ++ ["Введите сумму: "; "Введите описание: ";
                                    printed "Транзакция добавлена!"]))
            (mkState (mkWorld (files w) (clock w) (S (S (now_calls w))))
               (mkExtendedTransactionManager
                  (mkTransactionManager (_transactions (super self) ++ [t]))
                  (_history self ++ [(clock w (S (now_calls w)), "ADD", rendered)]))))).
Proof.
  intros Hin w self. destruct s as [[input output] [w0 self0]].
  simpl in Hin, w, self. subst input w self.
  split.
  - intros msg Hf.
    unfold menu_choice, except_ValueError, io_bind, manager, call, input, show, lift,
      datetime_now, print, modify, io_ret.
    cbn. rewrite Hf. cbn. by rewrite <- ?app_assoc.
  - intros f description rest' Hf -> t.
    assert (exists rendered, Transaction__str__ t = Ok rendered) as [rendered Hr]
      by (by apply (float_amount_renders t f)).
    exists rendered. split; [exact Hr|].
    assert (Transaction_call
              (VInt (PInt (TransactionManager__len__ (super self0) + 1)))
              (VDatetime (clock w0 (now_calls w0))) (VFloat f) (VStr description) = Ok t)
      as Hcall.
    { apply (construct_typed t). unfold t, TransactionManager__len__. simpl. lia. }
    unfold menu_choice, except_ValueError, io_bind, manager, call, input, show, lift.
    cbn. rewrite Hf. cbn. rewrite Hcall. cbn [io_ret].
    change (Transaction__str__ t) with (Transaction__str__ t).
    rewrite Hr. cbn. by rewrite <- ?app_assoc.
Qed.

(** One turn of the loop: the menu and the prompt are written, a line is
    read, and its branch is run. *)
Lemma menu_loop_turn (fuel : nat) (s : session ExtendedTransactionManager) :
  menu_loop (S fuel) s
  = match stdin (term s) with
    | [] =>
        (RaisesEOFError,
         mkSession (mkConsole [] (stdout (term s) ++ menu_text)) (machine s))
    | choice :: rest =>
        match menu_choice choice
                (mkSession (mkConsole rest (stdout (term s) ++ menu_text)) (machine s))
        with
        | (Returns Break, s') => (Returns tt, s')
        | (Returns Continue, s') => menu_loop fuel s'
        | (Raises e, s') => (Raises e, s')
        | (RaisesEOFError, s') => (RaisesEOFError, s')
        | (OutOfFuel, s') => (OutOfFuel, s')
        end
    end.
Proof.
  destruct s as [[lines output] st].
  cbn [menu_loop]. unfold print_menu, io_bind, show, print, modify, input.
  cbn [term machine stdin stdout fst snd].
  rewrite <- !app_assoc. cbn [app].
  change (output ++ _)%list with (output ++ menu_text)%list.
  destruct lines as [|choice rest]; [reflexivity|].
  destruct (menu_choice choice _) as [[[]| | |] s']; reflexivity.
Qed.

(** The branch of a choice that is a string literal. *)
Ltac pick_choice :=
  unfold menu_choice;
  repeat match goal with
         | |- context [String.eqb ?a ?b] =>
             let v := eval vm_compute in (String.eqb a b) in
             change (String.eqb a b) with v
         end;
  cbv iota.

(** X24. Choice 4 of the menu has no handler for the error of [float]:
    when the threshold that was typed is not a number, the loop ends with
    that error, and the program with it.  The manager and the world are
    as they were. *)
Theorem X24_choice_4_bad_number_ends_the_loop (fuel : nat)
    (s : session ExtendedTransactionManager) (line : string) (rest : list string)
    (e : exn) :
  stdin (term s) = "4" :: line :: rest ->
  float_of_str line = Raise e ->
  menu_loop (S fuel) s
  = (Raises e,
     mkSession
       (mkConsole rest (stdout (term s) ++ menu_text ++ ["Введите минимальную сумму: "]))
       (machine s)).
Proof.
  intros Hin Hf. rewrite menu_loop_turn, Hin.
  pick_choice. unfold io_bind, input, call, lift.
  cbn [term machine stdin stdout]. rewrite Hf.
  rewrite <- app_assoc. by destruct (machine s).
Qed.


(** *** What every statement of the loop keeps *)

Lemma finishes_ret {Vars A} (a : A) : finishes (io_ret (Vars := Vars) a).
Proof. intros s. discriminate. Qed.

Lemma finishes_bind {Vars A B} (m : IO Vars A) (k : A -> IO Vars B) :
  finishes m -> (forall a, finishes (k a)) -> finishes (io_bind m k).
Proof.
  intros Hm Hk s. unfold io_bind. specialize (Hm s).
  destruct (m s) as [[a|e| |] s']; try discriminate; [apply Hk|done].
Qed.

Lemma finishes_call {Vars A} (m : M (state Vars) A) : finishes (call m).
Proof. intros s. unfold call. by destruct (m (machine s)) as [[a|e] st]. Qed.

Lemma finishes_show {Vars A} (m : M console A) : finishes (show (Vars := Vars) m).
Proof. intros s. unfold show. by destruct (m (term s)) as [[a|e] c]. Qed.

Lemma finishes_input {Vars} (prompt : string) : finishes (input (Vars := Vars) prompt).
Proof. intros s. unfold input. by destruct (stdin (term s)). Qed.

Lemma finishes_except {Vars A} (body : IO Vars A) (handler : string -> IO Vars A) :
  finishes body -> (forall msg, finishes (handler msg)) ->
  finishes (except_ValueError body handler).
Proof.
  intros Hb Hh s. unfold except_ValueError. specialize (Hb s).
  destruct (body s) as [[a|[]| |] s']; try discriminate; [apply Hh|done].
Qed.

Lemma finishes_print_generated {Vars} (g : generated Transaction) :
  finishes (print_generated (Vars := Vars) g).
Proof.
  unfold print_generated. apply finishes_bind; [apply finishes_show|].
  intros _. destruct (stopped_by g); [intros s; discriminate|apply finishes_ret].
Qed.

Lemma menu_choice_finishes (choice : string) : finishes (menu_choice choice).
Proof.
  unfold menu_choice.
  repeat match goal with
         | |- context [String.eqb choice ?b] => destruct (String.eqb choice b)
         end;
    cbv iota;
    repeat first
      [ apply finishes_print_generated
      | apply finishes_bind; [|intros ?]
      | apply finishes_except; [|intros ?]
      | apply finishes_ret | apply finishes_show | apply finishes_call
      | apply finishes_input
      | intros ?; discriminate ].
Qed.

Section Respects.
Context {Vars : Type} (R : session Vars -> session Vars -> Prop).
Hypothesis R_refl : forall s, R s s.
Hypothesis R_trans : forall s1 s2 s3, R s1 s2 -> R s2 s3 -> R s1 s3.

Lemma respects_ret {A} (a : A) : respects R (io_ret a).
Proof. intros s. apply R_refl. Qed.

Lemma respects_raise {A} (e : exn) : respects R (fun s => (Raises (A := A) e, s)).
Proof. intros s. apply R_refl. Qed.

Lemma respects_bind {A B} (m : IO Vars A) (k : A -> IO Vars B) :
  respects R m -> (forall a, respects R (k a)) -> respects R (io_bind m k).
Proof.
  intros Hm Hk s. unfold io_bind. specialize (Hm s).
  destruct (m s) as [[a|e| |] s']; try exact Hm.
  exact (R_trans _ _ _ Hm (Hk a s')).
Qed.

Lemma respects_except {A} (body : IO Vars A) (handler : string -> IO Vars A) :
  respects R body -> (forall msg, respects R (handler msg)) ->
  respects R (except_ValueError body handler).
Proof.
  intros Hb Hh s. unfold except_ValueError. specialize (Hb s).
  destruct (body s) as [[a|[]| |] s']; try exact Hb.
  exact (R_trans _ _ _ Hb (Hh msg s')).
Qed.

End Respects.

Lemma reads_on_refl {Vars} (s : session Vars) : reads_on s s.
Proof. by exists []. Qed.

Lemma reads_on_trans {Vars} (s1 s2 s3 : session Vars) :
  reads_on s1 s2 -> reads_on s2 s3 -> reads_on s1 s3.
Proof.
  intros [u1 H1] [u2 H2]. exists (u1 ++ u2)%list. by rewrite H1, H2, app_assoc.
Qed.

Lemma same_files_refl {Vars} (s : session Vars) : same_files s s.
Proof. reflexivity. Qed.

Lemma same_files_trans {Vars} (s1 s2 s3 : session Vars) :
  same_files s1 s2 -> same_files s2 s3 -> same_files s1 s3.
Proof. unfold same_files. congruence. Qed.

Lemma print_stdin (line : string) (c : console) : stdin (snd (print line c)) = stdin c.
Proof. reflexivity. Qed.

Lemma print_each_stdin {A} (render : A -> result string) (xs : list A) (c : console) :
  stdin (snd (print_each render xs c)) = stdin c.
Proof.
  revert c. induction xs as [|x xs IH]; intros c; [reflexivity|].
  cbn [print_each]. unfold bind, lift. destruct (render x) as [s|e]; [|reflexivity].
  unfold print at 1, modify. by rewrite IH.
Qed.

Lemma reads_on_call {Vars A} (m : M (state Vars) A) : respects reads_on (call m).
Proof.
  intros s. unfold call. destruct (m (machine s)) as [[a|e] st]; by exists [].
Qed.

Lemma reads_on_show {Vars A} (m : M console A) :
  (forall c, stdin (snd (m c)) = stdin c) -> respects reads_on (show (Vars := Vars) m).
Proof.
  intros Hm s. unfold show. specialize (Hm (term s)).
  destruct (m (term s)) as [[a|e] c]; exists []; simpl in *; by rewrite Hm.
Qed.

Lemma reads_on_input {Vars} (prompt : string) :
  respects reads_on (input (Vars := Vars) prompt).
Proof.
  intros s. unfold input, reads_on.
  destruct (stdin (term s)) as [|line rest]; simpl; [by exists []|by exists [line]].
Qed.

Lemma same_files_call {Vars A} (m : M (state Vars) A) :
  (forall st, files (env (snd (m st))) = files (env st)) ->
  respects same_files (call m).
Proof.
  intros Hm s. unfold call, same_files. specialize (Hm (machine s)).
  by destruct (m (machine s)) as [[a|e] st].
Qed.

Lemma same_files_show {Vars A} (m : M console A) :
  respects same_files (show (Vars := Vars) m).
Proof. intros s. unfold show. by destruct (m (term s)) as [[a|e] c]. Qed.

Lemma same_files_input {Vars} (prompt : string) :
  respects same_files (input (Vars := Vars) prompt).
Proof. intros s. unfold input. by destruct (stdin (term s)). Qed.

Lemma on_obj_files {Self A} (m : M Self A) (st : state Self) :
  files (env (snd (on_obj m st))) = files (env st).
Proof. unfold on_obj. by destruct (m (obj st)). Qed.

Lemma add_files (v : pyval) (st : state ExtendedTransactionManager) :
  files (env (snd (ExtendedTransactionManager_add_transaction v st))) = files (env st).
Proof.
  destruct (isinstance_Transaction v) eqn:Hv.
  - destruct v; try discriminate.
    destruct (Transaction__str__ t) as [s|e] eqn:Hs.
    + by rewrite (extended_add_ok t s st Hs).
    + by rewrite (extended_add_render_fails t e st Hs).
  - by rewrite (extended_add_rejects v st Hv).
Qed.

Lemma load_files (path : string) (st : state ExtendedTransactionManager) :
  files (env (snd (load_from_csv path st))) = files (env st).
Proof.
  apply (load_keeps (fun st st' => files (env st') = files (env st))).
  - reflexivity.
  - congruence.
  - apply add_files.
Qed.

Lemma menu_choice_reads_on (choice : string) : respects reads_on (menu_choice choice).
Proof.
  unfold menu_choice, print_generated, manager.
  repeat match goal with
         | |- context [String.eqb choice ?b] => destruct (String.eqb choice b)
         end;
    cbv iota;
    repeat first
      [ apply respects_bind; [apply reads_on_trans| |intros ?]
      | apply respects_except; [apply reads_on_trans| |intros ?]
      | apply respects_ret; apply reads_on_refl
      | apply reads_on_show; solve [apply print_stdin | apply print_each_stdin]
      | apply reads_on_call | apply reads_on_input
      | match goal with |- context [stopped_by ?g] => destruct (stopped_by g) end
      | apply respects_raise; apply reads_on_refl
      | intros ?; apply reads_on_refl ].
Qed.

Lemma menu_choice_same_files (choice : string) :
  choice <> "7" -> respects same_files (menu_choice choice).
Proof.
  intros Hne. unfold menu_choice, print_generated, manager.
  destruct (String.eqb choice "7") eqn:E7; [by apply String.eqb_eq in E7|].
  repeat match goal with
         | |- context [String.eqb choice ?b] => destruct (String.eqb choice b)
         end;
    cbv iota;
    repeat first
      [ apply respects_bind; [apply same_files_trans| |intros ?]
      | apply respects_except; [apply same_files_trans| |intros ?]
      | apply respects_ret; apply same_files_refl
      | apply same_files_show | apply same_files_input
      | apply same_files_call;
        solve [ apply on_obj_files | apply add_files | reflexivity ]
      | match goal with |- context [stopped_by ?g] => destruct (stopped_by g) end
      | apply respects_raise; apply same_files_refl
      | intros ?; apply same_files_refl ].
Qed.


(** The loop ends when it may make more turns than there are lines to
    read. *)
Lemma menu_loop_finishes (fuel : nat) : forall s : session ExtendedTransactionManager,
  (length (stdin (term s)) < fuel)%nat -> fst (menu_loop fuel s) <> OutOfFuel.
Proof.
  induction fuel as [|fuel IH]; intros s Hlen; [lia|].
  rewrite menu_loop_turn.
  destruct (stdin (term s)) as [|choice rest] eqn:Hin; [discriminate|].
  set (s1 := mkSession (mkConsole rest (stdout (term s) ++ menu_text)) (machine s)).
  pose proof (menu_choice_finishes choice s1) as Hfin.
  pose proof (menu_choice_reads_on choice s1) as [used Hused].
  destruct (menu_choice choice s1) as [[[]|e| |] s']; try discriminate; [|done].
  apply IH. simpl in Hused, Hlen. rewrite Hused, length_app in Hlen. lia.
Qed.

Lemma main_start_finishes : finishes main_start.
Proof.
  unfold main_start.
  repeat first
    [ apply finishes_bind; [|intros ?]
    | apply finishes_show | apply finishes_call | apply finishes_input ].
  intros s.
  destruct (from_csv filename (env (machine s))) as [[loaded|[]] w]; discriminate.
Qed.

Lemma main_start_reads_on : respects reads_on main_start.
Proof.
  unfold main_start.
  repeat first
    [ apply respects_bind; [apply reads_on_trans| |intros ?]
    | apply reads_on_show; apply print_stdin
    | apply reads_on_call | apply reads_on_input ].
  intros s.
  destruct (from_csv filename (env (machine s))) as [[loaded|[]] w]; by exists [].
Qed.

(** X21. [main] ends on every input: it returns, or an exception leaves
    it (the [EOFError] of [input] when the lines run out before choice 0).
    The bound that the model puts on the turns of the loop is never
    reached. *)
Theorem X21_main_ends (c : console) (w : world) :
  fst (fst (main c w)) <> OutOfFuel.
Proof.
  unfold main.
  pose proof (main_start_finishes (mkSession c (mkState w tt))) as Hfin.
  destruct (main_start (mkSession c (mkState w tt))) as [[[loaded|]|e| |] s];
    try discriminate; [|done].
  pose proof (menu_loop_finishes (S (length (stdin (term s))))
                (mkSession (term s) (mkState (env (machine s)) loaded))) as Hloop.
  destruct (menu_loop _ _) as [r s']. simpl in *. apply Hloop. lia.
Qed.

(** Without the choice 7 among the lines, the loop leaves the files as
    they are. *)
Lemma menu_loop_same_files (fuel : nat) : forall s : session ExtendedTransactionManager,
  ~ In "7" (stdin (term s)) -> same_files s (snd (menu_loop fuel s)).
Proof.
  induction fuel as [|fuel IH]; intros s Hno; [reflexivity|].
  rewrite menu_loop_turn.
  destruct (stdin (term s)) as [|choice rest] eqn:Hin; [reflexivity|].
  set (s1 := mkSession (mkConsole rest (stdout (term s) ++ menu_text)) (machine s)).
  assert (choice <> "7") as Hne by (intros ->; apply Hno; by left).
  pose proof (menu_choice_same_files choice Hne s1) as Hfiles.
  pose proof (menu_choice_reads_on choice s1) as [used Hused].
  destruct (menu_choice choice s1) as [[[]|e| |] s']; try exact Hfiles.
  apply (same_files_trans s s' _ Hfiles). apply IH.
  intros H7. apply Hno. right. simpl in Hused. rewrite Hused. apply in_or_app. by right.
Qed.

(** X22. Nothing is saved without choice 7: when no line of the input is
    ["7"], [main] leaves every file as it found it, however it ends. *)
Theorem X22_nothing_is_saved_without_choice_7 (c : console) (w : world) :
  ~ In "7" (stdin c) ->
  files (snd (main c w)) = files w.
Proof.
  intros Hno. unfold main.
  assert (same_files (mkSession c (mkState w tt))
            (snd (main_start (mkSession c (mkState w tt))))) as Hstart.
  { unfold main_start.
    repeat first
      [ apply respects_bind; [apply same_files_trans| |intros ?]
      | apply same_files_show | apply same_files_input
      | apply same_files_call; reflexivity ].
    intros s. unfold from_csv.
    pose proof (load_files filename (mkState (env (machine s)) __init__)) as Hload.
    destruct (load_from_csv filename (mkState (env (machine s)) __init__))
      as [[[]|[]] st]; exact Hload. }
  pose proof (main_start_reads_on (mkSession c (mkState w tt))) as [used Hused].
  destruct (main_start (mkSession c (mkState w tt))) as [[[loaded|]|e| |] s];
    try exact Hstart.
  pose proof (menu_loop_same_files (S (length (stdin (term s))))
                (mkSession (term s) (mkState (env (machine s)) loaded))) as Hloop.
  destruct (menu_loop _ _) as [r s']. unfold same_files in *. simpl in *.
  rewrite Hloop; [exact Hstart|].
  intros H7. apply Hno. rewrite Hused. apply in_or_app. by right.
Qed.


End MainProgram.

(** ** The menu program at concrete inputs *)

Section MainWitnesses.
#[local] Existing Instance cpython_ascii.
#[local] Existing Instance example_os.

(** X20 in a world without [data.csv], for the directory [docs] and for a
    directory that does not exist. *)
Lemma X20_witness :
  stdin (typed ["docs"]) = ["docs"] /\
  count_files_in_directory "docs" = Ok 2 /\
  files bare_world !! filename = None /\
  main (typed ["docs"]) bare_world
  = (Returns tt,
     mkConsole []
       ["Введите путь к директории: ";
        printed (String LF "Количество файлов в директории: 2");
        printed (String LF "Файл data.csv не найден!")],
     bare_world).
Proof.
  assert (stdin (typed ["docs"]) = ["docs"]) as H1 by reflexivity.
  assert (count_files_in_directory "docs" = Ok 2) as H2 by reflexivity.
  assert (files bare_world !! filename = None) as H3 by reflexivity.
  repeat (split; [assumption|]).
  exact (proj1 (proj2 (X20_main_start (typed ["docs"]) bare_world "docs" [] H1)) 2 H2 H3).
Defined.

(** X22 on a run that adds a transaction and leaves by choice 0. *)
Lemma X22_witness :
  ~ In "7" (stdin (typed ["docs"; "6"; "2.5"; "tea"; "0"])) /\
  files (snd (main (typed ["docs"; "6"; "2.5"; "tea"; "0"]) example_world))
  = files example_world.
Proof.
  assert (~ In "7" (stdin (typed ["docs"; "6"; "2.5"; "tea"; "0"]))) as H.
  { simpl. intros [H|[H|[H|[H|[H|[]]]]]]; discriminate H. }
  split; [exact H|].
  exact (X22_nothing_is_saved_without_choice_7 _ example_world H).
Defined.

(** X23 at the lines [abc], and [2.5] then [tea], on a new manager. *)
Lemma X23_witness :
  stdin (term (example_session ["abc"; "0"])) = ["abc"; "0"] /\
  float_of_str "abc" = Raise (ValueError "could not convert string to float") /\
  menu_choice "6" (example_session ["abc"; "0"])
  = (Returns Continue,
     mkSession
       (mkConsole ["0"]
          ["Введите сумму: "; printed "Ошибка: could not convert string to float"])
       (mkState (mkWorld ∅ example_clock 1) ExtendedTransactionManager__init__)) /\
  float_of_str "2.5" = Ok float_2_5 /\
  exists rendered,
    menu_choice "6" (example_session ["2.5"; "tea"])
    = (Returns Continue,
       mkSession
         (mkConsole []
            ["Введите сумму: "; "Введите описание: "; printed "Транзакция добавлена!"])
         (mkState (mkWorld ∅ example_clock 2)
            (mkExtendedTransactionManager
               (mkTransactionManager
                  [mkTransaction (PInt 1) (example_clock 0) (NFloat float_2_5) "tea"])
               [(example_clock 1, "ADD", rendered)]))).
Proof.
  assert (stdin (term (example_session ["abc"; "0"])) = ["abc"; "0"]) as H1 by reflexivity.
  assert (float_of_str "abc" = Raise (ValueError "could not convert string to float"))
    as H2 by reflexivity.
  assert (float_of_str "2.5" = Ok float_2_5) as H3 by (vm_compute; reflexivity).
  split; [exact H1|]. split; [exact H2|].
  split; [exact (proj1 (X23_choice_6_adds_or_reports _ "abc" ["0"] H1) _ H2)|].
  split; [exact H3|].
  destruct (proj2 (X23_choice_6_adds_or_reports (example_session ["2.5"; "tea"])
                     "2.5" ["tea"] eq_refl) float_2_5 "tea" [] H3 eq_refl)
    as (rendered & _ & Hrun).
  exists rendered. exact Hrun.
Defined.

(** X24 at the line [abc]. *)
Lemma X24_witness :
  stdin (term (example_session ["4"; "abc"; "0"])) = ["4"; "abc"; "0"] /\
  float_of_str "abc" = Raise (ValueError "could not convert string to float") /\
  menu_loop 3 (example_session ["4"; "abc"; "0"])
  = (Raises (ValueError "could not convert string to float"),
     mkSession (mkConsole ["0"] (menu_text ++ ["Введите минимальную сумму: "]))
       (mkState bare_world ExtendedTransactionManager__init__)).
Proof.
  assert (stdin (term (example_session ["4"; "abc"; "0"])) = ["4"; "abc"; "0"])
    as H1 by reflexivity.
  assert (float_of_str "abc" = Raise (ValueError "could not convert string to float"))
    as H2 by reflexivity.
  split; [exact H1|]. split; [exact H2|].
  exact (X24_choice_4_bad_number_ends_the_loop 2 _ "abc" ["0"] _ H1 H2).
Defined.


(** A whole run: a transaction is added, the collection is saved, and the
    program is left by choice 0. *)
Example main_example :
  let '(r, c, w) := main (typed ["docs"; "6"; "2.5"; "tea"; "7"; "0"]) example_world in
  r = Returns tt /\
  stdin c = [] /\
  now_calls w = 4%nat /\
  files w !! "data.csv"
  = Some ("№,дата и время,сумма,описание транзакции" +:+ crlf
          +:+ "1,2024-03-01 14:30:00,5.0,coffee" +:+ crlf
          +:+ "2,2024-03-02 09:00:00,12.5,books" +:+ crlf
          +:+ "3,2024-03-05 12:00:02,2.5,tea" +:+ crlf).
Proof. vm_compute. repeat split. Qed.

End MainWitnesses.
